(** * Share-mode lock records: a model of source3/locking/share_mode_lock.c

    The development embeds the share-mode lock manager of smbd
    (samba 4.11.12) as state-passing functions over an explicit process
    state: the talloc heap of [share_mode_data] objects, the
    SHARE_MODE_LOCK_CACHE part of the memcache, the three file-static
    variables of the lock slot, the locking database and the list of
    calls issued to the external collaborators (dbwrap, leases_db, brlock).

    Code that share_mode_lock.c calls but does not define (the NDR codec,
    dbwrap, memcache, stale-entry removal, process liveness) enters either
    through the class [Externals] or through definitions whose comment
    starts with "Modelled from the spec". *)

From Stdlib Require Import ZArith Lia.
From Stdlib Require Import Strings.String Strings.Byte.
From stdpp Require Import gmap list.

Local Open Scope Z_scope.

(** ** Bytes, blobs and fixed-width integers *)

Abbreviation byte := Byte.byte.
Abbreviation blob := (list byte).

#[global] Instance byte_eq_dec : EqDecision byte := Byte.byte_eq_dec.
#[global] Instance byte_countable : Countable byte :=
  inj_countable Byte.to_N Byte.of_N Byte.of_to_N.

(** [TDB_DATA]: [dptr] may be NULL; [dsize] is the length of the buffer. *)
Abbreviation TDB_DATA := (option blob).

Definition dsize (t : TDB_DATA) : nat :=
  match t with Some b => length b | None => 0%nat end.

(** uint64_t and size_t arithmetic wraps modulo 2^64. *)
Definition wrap64 (z : Z) : Z := z mod 2 ^ 64.

Definition byte_to_Z (b : byte) : Z := Z.of_N (Byte.to_N b).

Definition byte_of_Z (z : Z) : byte :=
  match Byte.of_N (Z.to_N (z mod 256)) with
  | Some b => b
  | None => Byte.x00
  end.

Fixpoint le_decode (l : blob) : Z :=
  match l with
  | [] => 0
  | b :: l' => byte_to_Z b + 256 * le_decode l'
  end.

Fixpoint le_encode (n : nat) (z : Z) : blob :=
  match n with
  | O => []
  | S n' => byte_of_Z z :: le_encode n' (z / 256)
  end.

(** ** Status codes *)

Inductive NTSTATUS : Type :=
| NT_STATUS_OK
| NT_STATUS_NO_MEMORY
| NT_STATUS_INTERNAL_DB_CORRUPTION
| NT_STATUS_INVALID_LOCK_SEQUENCE
| NT_STATUS_NOT_FOUND
| NT_STATUS_BUFFER_TOO_SMALL
| NT_STATUS_INVALID_PARAMETER
| NT_STATUS_UNSUCCESSFUL.

Definition NT_STATUS_IS_OK (s : NTSTATUS) : bool :=
  match s with NT_STATUS_OK => true | _ => false end.

Inductive ndr_err_code : Type :=
| NDR_ERR_SUCCESS
| NDR_ERR_BUFSIZE
| NDR_ERR_ALLOC
| NDR_ERR_OTHER.

Definition NDR_ERR_CODE_IS_SUCCESS (e : ndr_err_code) : bool :=
  match e with NDR_ERR_SUCCESS => true | _ => false end.

(** Modelled from the spec: ndr_map_error2ntstatus is not part of
    share_mode_lock.c; a decoding error is reported to the caller as a
    typed error outcome, never as success. *)
Definition ndr_map_error2ntstatus (e : ndr_err_code) : NTSTATUS :=
  match e with
  | NDR_ERR_SUCCESS => NT_STATUS_OK
  | NDR_ERR_BUFSIZE => NT_STATUS_BUFFER_TOO_SMALL
  | NDR_ERR_ALLOC => NT_STATUS_NO_MEMORY
  | NDR_ERR_OTHER => NT_STATUS_INVALID_PARAMETER
  end.

(** ** The 9-byte header peek *)

Record ndr_pull : Type := mk_ndr_pull { ndr_data : blob; ndr_offset : nat }.

(** Modelled from the spec: ndr_pull_hyper and ndr_pull_uint8 belong to
    librpc; the header is an 8-byte sequence number followed by one byte
    of flags, and a blob too short for the field is a buffer-size error. *)
Definition ndr_pull_hyper (ndr : ndr_pull) : (Z * ndr_pull) + ndr_err_code :=
  let rest := drop (ndr_offset ndr) (ndr_data ndr) in
  if (length rest <? 8)%nat then inr NDR_ERR_BUFSIZE
  else inl (le_decode (take 8 rest),
            mk_ndr_pull (ndr_data ndr) (ndr_offset ndr + 8)).

Definition ndr_pull_uint8 (ndr : ndr_pull) : (Z * ndr_pull) + ndr_err_code :=
  match drop (ndr_offset ndr) (ndr_data ndr) with
  | [] => inr NDR_ERR_BUFSIZE
  | b :: _ => inl (byte_to_Z b, mk_ndr_pull (ndr_data ndr) (ndr_offset ndr + 1))
  end.

(** [get_share_mode_blob_header blob pseq pflags]: the two out-parameters
    are passed in with their previous contents and returned; a failing
    NDR_CHECK returns early and leaves the later out-parameter alone. *)
Definition get_share_mode_blob_header (b : blob) (pseq pflags : Z)
  : ndr_err_code * Z * Z :=
  let ndr := mk_ndr_pull b 0 in
  match ndr_pull_hyper ndr with
  | inr e => (e, pseq, pflags)
  | inl (seq, ndr1) =>
      match ndr_pull_uint8 ndr1 with
      | inr e => (e, seq, pflags)
      | inl (fl, _) => (NDR_ERR_SUCCESS, seq, fl)
      end
  end.

(** The header as a value: [Some (seq, flags)] when the peek succeeds. *)
Definition blob_header (b : blob) : option (Z * Z) :=
  match get_share_mode_blob_header b 0 0 with
  | (NDR_ERR_SUCCESS, seq, fl) => Some (seq, fl)
  | _ => None
  end.

(** ** Data model *)

(** Modelled from the spec: a File Identity is an opaque, fixed-size value
    whose equality is byte-exact; struct file_id is declared outside
    share_mode_lock.c, so an identity is carried as the bytes of its
    object representation. *)
Abbreviation file_id := (list byte).

Definition file_id_equal (a b : file_id) : bool := bool_decide (a = b).

Definition server_id : Type := Z.

(** One open instance on a file (the fields share_mode_lock.c reads). *)
Record share_mode_entry : Type := mk_share_mode_entry {
  pid : server_id;
  share_file_id : Z;
  client_guid : Z;
  lease_key : Z;
  stale : bool
}.

Record smb_filename : Type := mk_smb_filename {
  fname_base_name : string;
  fname_stream_name : option string
}.

(** [struct db_record *]: the record is identified by its key and carries
    the value read when the lock was taken; pointer equality of records is
    equality of these values. *)
Record db_record : Type := mk_db_record {
  rec_key : blob;
  rec_value : TDB_DATA
}.

#[global] Instance db_record_eq_dec : EqDecision db_record.
Proof. solve_decision. Defined.

Definition dbwrap_record_get_key (rec : db_record) : blob := rec_key rec.
Definition dbwrap_record_get_value (rec : db_record) : TDB_DATA := rec_value rec.

(** Heap allocation: the next unused address. *)
Definition talloc_addr {V : Type} (h : gmap positive V) : positive :=
  fresh (dom h).

(** [struct share_mode_data]; [share_modes] holds the first
    [num_share_modes] elements of the C array, so that
    [num_share_modes = length share_modes]. *)
Record share_mode_data : Type := mk_share_mode_data {
  sequence_number : Z;
  flags : Z;
  servicepath : string;
  base_name : string;
  stream_name : option string;
  share_modes : list share_mode_entry;
  old_write_time : Z;
  id : file_id;
  fresh : bool;
  modified : bool;
  record : option db_record
}.

Definition num_share_modes (d : share_mode_data) : nat := length (share_modes d).

Definition set_sequence_number (v : Z) (d : share_mode_data) : share_mode_data :=
  mk_share_mode_data v (flags d) (servicepath d) (base_name d) (stream_name d)
    (share_modes d) (old_write_time d) (id d) (fresh d) (modified d) (record d).
Definition set_share_modes (v : list share_mode_entry) (d : share_mode_data) :=
  mk_share_mode_data (sequence_number d) (flags d) (servicepath d) (base_name d)
    (stream_name d) v (old_write_time d) (id d) (fresh d) (modified d) (record d).
Definition set_id (v : file_id) (d : share_mode_data) :=
  mk_share_mode_data (sequence_number d) (flags d) (servicepath d) (base_name d)
    (stream_name d) (share_modes d) (old_write_time d) v (fresh d) (modified d)
    (record d).
Definition set_fresh (v : bool) (d : share_mode_data) :=
  mk_share_mode_data (sequence_number d) (flags d) (servicepath d) (base_name d)
    (stream_name d) (share_modes d) (old_write_time d) (id d) v (modified d)
    (record d).
Definition set_modified (v : bool) (d : share_mode_data) :=
  mk_share_mode_data (sequence_number d) (flags d) (servicepath d) (base_name d)
    (stream_name d) (share_modes d) (old_write_time d) (id d) (fresh d) v
    (record d).
Definition set_record (v : option db_record) (d : share_mode_data) :=
  mk_share_mode_data (sequence_number d) (flags d) (servicepath d) (base_name d)
    (stream_name d) (share_modes d) (old_write_time d) (id d) (fresh d)
    (modified d) v.

(** talloc_zero(mem_ctx, struct share_mode_data) *)
Definition share_mode_data_zero : share_mode_data :=
  mk_share_mode_data 0 0 EmptyString EmptyString None [] 0 [] false false None.

(** [struct share_mode_lock]: a handle is a pointer to a heap record. *)
Record share_mode_lock : Type := mk_share_mode_lock {
  data : option positive
}.

(** Code of the repository that share_mode_lock.c uses but does not
    define, taken as parameters. *)
Class Externals : Type := {
  (** sizeof(struct file_id) *)
  sizeof_file_id : nat;
  (** ndr_pull_struct_blob_all with ndr_pull_share_mode_data:
      [Some d] on NDR_ERR_SUCCESS *)
  ndr_pull_share_mode_data : blob -> option share_mode_data;
  (** ndr_push_struct_blob with ndr_push_share_mode_data *)
  ndr_push_share_mode_data : share_mode_data -> blob + ndr_err_code;
  (** remove_stale_share_mode_entries, acting on the entry array *)
  remove_stale_share_mode_entries :
    list share_mode_entry -> list share_mode_entry;
  server_id_is_disconnected : server_id -> bool;
  SHARE_MODE_HAS_READ_LEASE : Z
}.

(** ** Process state *)

Record db_context : Type := mk_db_context {
  db_data : gmap blob blob;
  db_seqnum : Z
}.

(** Calls made to the external collaborators, most recent first. *)
Inductive call : Type :=
| dbwrap_fetch_locked_call (key : blob)
| dbwrap_record_store_call (key value : blob)
| dbwrap_record_delete_call (key : blob)
| dbwrap_record_free_call (key : blob)
| dbwrap_do_locked_call (key : blob)
| dbwrap_watched_wakeup_call (key : blob)
| dbwrap_parse_record_call (key : blob)
| dbwrap_traverse_read_call
| leases_db_del_call (guid lkey : Z) (fid : file_id)
| brl_cleanup_disconnected_call (fid : file_id) (open_persistent_id : Z)
| brl_init_call (read_only : bool)
| brl_shutdown_call
| posix_locking_init_call (read_only : bool).

Definition is_store_write (c : call) : bool :=
  match c with
  | dbwrap_record_store_call _ _ | dbwrap_record_delete_call _ => true
  | _ => false
  end.

Record state : Type := mk_state {
  lock_db : option db_context;
  heap : gmap positive share_mode_data;
  memcache : gmap blob positive;
  static_share_mode_data : option positive;
  static_share_mode_data_refcount : Z;
  static_share_mode_record : option db_record;
  static_share_mode_record_talloced : bool;
  calls : list call
}.

Definition set_lock_db (v : option db_context) (s : state) : state :=
  mk_state v (heap s) (memcache s) (static_share_mode_data s)
    (static_share_mode_data_refcount s) (static_share_mode_record s)
    (static_share_mode_record_talloced s) (calls s).
Definition set_heap (v : gmap positive share_mode_data) (s : state) : state :=
  mk_state (lock_db s) v (memcache s) (static_share_mode_data s)
    (static_share_mode_data_refcount s) (static_share_mode_record s)
    (static_share_mode_record_talloced s) (calls s).
Definition set_memcache (v : gmap blob positive) (s : state) : state :=
  mk_state (lock_db s) (heap s) v (static_share_mode_data s)
    (static_share_mode_data_refcount s) (static_share_mode_record s)
    (static_share_mode_record_talloced s) (calls s).
Definition set_static_share_mode_data (v : option positive) (s : state) :=
  mk_state (lock_db s) (heap s) (memcache s) v
    (static_share_mode_data_refcount s) (static_share_mode_record s)
    (static_share_mode_record_talloced s) (calls s).
Definition set_refcount (v : Z) (s : state) : state :=
  mk_state (lock_db s) (heap s) (memcache s) (static_share_mode_data s) v
    (static_share_mode_record s) (static_share_mode_record_talloced s)
    (calls s).
Definition set_static_share_mode_record (v : option db_record) (s : state) :=
  mk_state (lock_db s) (heap s) (memcache s) (static_share_mode_data s)
    (static_share_mode_data_refcount s) v
    (static_share_mode_record_talloced s) (calls s).
Definition set_talloced (v : bool) (s : state) : state :=
  mk_state (lock_db s) (heap s) (memcache s) (static_share_mode_data s)
    (static_share_mode_data_refcount s) (static_share_mode_record s) v
    (calls s).
Definition add_call (c : call) (s : state) : state :=
  mk_state (lock_db s) (heap s) (memcache s) (static_share_mode_data s)
    (static_share_mode_data_refcount s) (static_share_mode_record s)
    (static_share_mode_record_talloced s) (c :: calls s).

(** Results of the environment for one call into the lock manager:
    allocation, the store's answers, the random source. *)
Record env : Type := mk_env {
  talloc_lck : bool;
  talloc_data : bool;
  talloc_req : bool;
  fetch_locked_ok : bool;
  store_status : NTSTATUS;
  delete_status : NTSTATUS;
  do_locked_status : NTSTATUS;
  parse_record_status : NTSTATUS;
  traverse_status : NTSTATUS;
  request_queued : bool;
  brl_cleanup_ok : bool;
  random_buffer : Z;
  talloc_subreq : bool
}.

(** ** A state monad with two abnormal exits

    [Panic] is smb_panic (a failed SMB_ASSERT included); [Fault] is the
    dereference of a NULL or freed pointer. *)
Inductive outcome (A : Type) : Type :=
| Done (a : A) (s : state)
| Panic
| Fault.
Arguments Done {A} a s.
Arguments Panic {A}.
Arguments Fault {A}.

Definition M (A : Type) : Type := state -> outcome A.

#[global] Instance M_ret : MRet M := fun A a s => Done a s.
#[global] Instance M_bind : MBind M := fun A B f m s =>
  match m s with
  | Done a s' => f a s'
  | Panic => Panic
  | Fault => Fault
  end.

Definition gets {A : Type} (f : state -> A) : M A := fun s => Done (f s) s.
Definition modify (f : state -> state) : M unit := fun s => Done tt (f s).
Definition smb_panic {A : Type} : M A := fun _ => Panic.
Definition null_deref {A : Type} : M A := fun _ => Fault.
Definition SMB_ASSERT (b : bool) : M unit :=
  if b then mret tt else smb_panic.
Definition log_call (c : call) : M unit := modify (add_call c).
Definition when (b : bool) (m : M unit) : M unit := if b then m else mret tt.

(** *** The talloc heap of share_mode_data objects *)

Definition talloc_new (d : share_mode_data) : M positive :=
  h ← gets heap;
  let p := talloc_addr h in
  modify (set_heap (<[p := d]> h));;
  mret p.

Definition deref (p : option positive) : M share_mode_data :=
  match p with
  | None => null_deref
  | Some a =>
      h ← gets heap;
      match h !! a with
      | Some d => mret d
      | None => null_deref
      end
  end.

Definition assign (a : positive) (d : share_mode_data) : M unit :=
  modify (fun s => set_heap (<[a := d]> (heap s)) s).

Definition talloc_free (a : positive) : M unit :=
  modify (fun s => set_heap (delete a (heap s)) s).

(** ** The external collaborators *)

(** locking_key / memcache_key: the bytes of the identity. *)
Definition locking_key (fid : file_id) : blob := fid.
Definition memcache_key (fid : file_id) : blob := fid.

Fixpoint memcmp (a b : blob) (n : nat) : Z :=
  match n, a, b with
  | S n', x :: a', y :: b' =>
      if decide (x = y) then memcmp a' b' n' else byte_to_Z x - byte_to_Z y
  | _, _, _ => 0
  end.

(** Modelled from the spec: tdb_data_cmp is a util_tdb function; keys are
    compared byte for byte, then by length. *)
Definition tdb_data_cmp (t1 t2 : blob) : Z :=
  let ret := memcmp t1 t2 (Nat.min (length t1) (length t2)) in
  if ret =? 0 then Z.of_nat (length t1) - Z.of_nat (length t2) else ret.

(** Modelled from the spec: the store's [fetch_locked(key) -> lock-handle];
    the handle carries the value found under the key (NULL when absent). *)
Definition dbwrap_fetch_locked (E : env) (key : blob) : M (option db_record) :=
  db ← gets lock_db;
  match db with
  | None => null_deref
  | Some db =>
      log_call (dbwrap_fetch_locked_call key);;
      if fetch_locked_ok E
      then mret (Some (mk_db_record key (db_data db !! key)))
      else mret None
  end.

(** Modelled from the spec: [record_store(handle, bytes, replace-policy)
    -> status]; a successful store replaces the value and advances the
    store's sequence number. *)
Definition dbwrap_record_store (E : env) (rec : db_record) (value : blob)
  : M NTSTATUS :=
  db ← gets lock_db;
  match db with
  | None => null_deref
  | Some db =>
      log_call (dbwrap_record_store_call (rec_key rec) value);;
      if NT_STATUS_IS_OK (store_status E)
      then
        modify (set_lock_db (Some (mk_db_context
                  (<[rec_key rec := value]> (db_data db)) (db_seqnum db + 1))));;
        mret NT_STATUS_OK
      else mret (store_status E)
  end.

(** Modelled from the spec: [record_delete(handle) -> status]. *)
Definition dbwrap_record_delete (E : env) (rec : db_record) : M NTSTATUS :=
  db ← gets lock_db;
  match db with
  | None => null_deref
  | Some db =>
      log_call (dbwrap_record_delete_call (rec_key rec));;
      if NT_STATUS_IS_OK (delete_status E)
      then
        modify (set_lock_db (Some (mk_db_context
                  (delete (rec_key rec) (db_data db)) (db_seqnum db + 1))));;
        mret NT_STATUS_OK
      else mret (delete_status E)
  end.

(** Modelled from the spec: [watched_wakeup(handle)]. *)
Definition dbwrap_watched_wakeup (rec : option db_record) : M unit :=
  match rec with
  | None => null_deref
  | Some r => log_call (dbwrap_watched_wakeup_call (rec_key r))
  end.

(** Modelled from the spec: [do_locked(key, fn)] runs [fn] on the locked
    record of [key]; when the lock cannot be taken [fn] is not run. *)
Definition dbwrap_do_locked {P : Type} (E : env) (key : blob)
    (fn : db_record -> P -> M P) (private_data : P) : M (NTSTATUS * P) :=
  db ← gets lock_db;
  match db with
  | None => null_deref
  | Some db =>
      log_call (dbwrap_do_locked_call key);;
      if NT_STATUS_IS_OK (do_locked_status E)
      then
        p ← fn (mk_db_record key (db_data db !! key)) private_data;
        mret (NT_STATUS_OK, p)
      else mret (do_locked_status E, private_data)
  end.

(** Modelled from the spec: [parse_record(key, visitor) -> status]
    (read-only, no lock); the visitor sees the stored value, an absent key
    is "not found". *)
Definition dbwrap_parse_record {P : Type} (E : env) (key : blob)
    (parser : blob -> blob -> P -> M P) (private_data : P)
  : M (NTSTATUS * P) :=
  db ← gets lock_db;
  match db with
  | None => null_deref
  | Some db =>
      log_call (dbwrap_parse_record_call key);;
      if NT_STATUS_IS_OK (parse_record_status E)
      then
        match db_data db !! key with
        | None => mret (NT_STATUS_NOT_FOUND, private_data)
        | Some v => p ← parser key v private_data; mret (NT_STATUS_OK, p)
        end
      else mret (parse_record_status E, private_data)
  end.

(** Modelled from the spec: [traverse_read(visitor) -> (status, count)];
    every record of the store is handed to the callback in the store's
    order until the callback returns non-zero, and [count] is the number
    of records handed over. *)
Fixpoint traverse_records {P : Type} (f : db_record -> P -> M (Z * P))
    (recs : list db_record) (count : Z) (private_data : P) : M (Z * P) :=
  match recs with
  | [] => mret (count, private_data)
  | r :: rs =>
      '(ret, p) ← f r private_data;
      if ret =? 0 then traverse_records f rs (count + 1) p
      else mret (count + 1, p)
  end.

Definition db_records (db : db_context) : list db_record :=
  (fun kv => mk_db_record kv.1 (Some kv.2)) <$> map_to_list (db_data db).

Definition dbwrap_traverse_read {P : Type} (E : env) (db : db_context)
    (f : db_record -> P -> M (Z * P)) (private_data : P)
  : M (NTSTATUS * Z * P) :=
  log_call dbwrap_traverse_read_call;;
  if NT_STATUS_IS_OK (traverse_status E)
  then
    '(count, p) ← traverse_records f (db_records db) 0 private_data;
    mret (NT_STATUS_OK, count, p)
  else mret (traverse_status E, 0, private_data).

(** Modelled from the spec: the memcache lookup by identity. *)
Definition memcache_lookup_talloc (key : blob) : M (option positive) :=
  gets (fun s => memcache s !! key).

(** Modelled from the spec: eviction removes the entry and frees the
    cached object, unless the object carries the no-free destructor
    ([nofree]), in which case the caller keeps it. *)
Definition memcache_delete (key : blob) (nofree : bool) : M unit :=
  c ← gets memcache;
  match c !! key with
  | None => mret tt
  | Some p =>
      modify (set_memcache (delete key c));;
      when (negb nofree) (talloc_free p)
  end.

(** Modelled from the spec: insertion under key = identity; the cache
    takes ownership and a previous entry under the key is released. *)
Definition memcache_add_talloc (key : blob) (p : positive) : M unit :=
  memcache_delete key false;;
  modify (fun s => set_memcache (<[key := p]> (memcache s)) s).

(** Modelled from the spec: [delete_lease(client_id, lease_key,
    file_identity) -> status]; the status is only logged by the caller. *)
Definition leases_db_del (guid lkey : Z) (fid : file_id) : M unit :=
  log_call (leases_db_del_call guid lkey fid).

(** Modelled from the spec: byte-range locks,
    [cleanup_disconnected(file_identity, open_id) -> bool]. *)
Definition brl_cleanup_disconnected (E : env) (fid : file_id)
    (open_persistent_id : Z) : M bool :=
  log_call (brl_cleanup_disconnected_call fid open_persistent_id);;
  mret (brl_cleanup_ok E).

(** ** The functions of share_mode_lock.c *)

Section share_mode_lock.
Context `{Externals}.

Definition share_mode_memcache_store (p : positive) : M unit :=
  d ← deref (Some p);
  let key := memcache_key (id d) in
  (* Ensure everything stored in the cache is pristine. *)
  assign p (set_fresh false (set_modified false d));;
  (* Cache will own d after this call. *)
  memcache_add_talloc key p.

Definition share_mode_memcache_fetch (id_key : blob) (b : blob)
  : M (option positive) :=
  (* Ensure this is a locking_key record. *)
  if negb (length id_key =? sizeof_file_id)%nat then mret None
  else
    let fid : file_id := id_key in
    let key := memcache_key fid in
    ptr ← memcache_lookup_talloc key;
    match ptr with
    | None => mret None
    | Some p =>
        (* sequence number key is at start of blob. *)
        let '(ndr_err, seq, _) := get_share_mode_blob_header b 0 0 in
        if negb (NDR_ERR_CODE_IS_SUCCESS ndr_err)
        then (* Bad blob. Remove entry. *)
          memcache_delete key false;; mret None
        else
          d ← deref (Some p);
          if negb (sequence_number d =? seq)
          then (* Cache out of date. Remove entry. *)
            memcache_delete key false;; mret None
          else
            (* Remove from the cache. We own it now. *)
            memcache_delete key true;;
            mret (Some p)
    end.

Definition parse_share_modes (E : env) (key : blob) (dbuf : blob)
  : M (option positive) :=
  (* See if we already have a cached copy of this key. *)
  d ← share_mode_memcache_fetch key dbuf;
  match d with
  | Some p => mret (Some p)
  | None =>
      if negb (talloc_data E) then mret None
      else
        p ← talloc_new share_mode_data_zero;
        match ndr_pull_share_mode_data dbuf with
        | None => talloc_free p;; mret None
        | Some d => assign p d;; mret (Some p)
        end
  end.

(** [d->sequence_number += 1; remove_stale_share_mode_entries(d);] *)
Definition data_to_store (d : share_mode_data) : share_mode_data :=
  set_share_modes (remove_stale_share_mode_entries (share_modes d))
    (set_sequence_number (wrap64 (sequence_number d + 1)) d).

Definition share_mode_data_store (E : env) (p : option positive)
  : M NTSTATUS :=
  d ← deref p;
  if negb (modified d) then mret NT_STATUS_OK
  else
    match p with
    | None => null_deref
    | Some a =>
        let d := data_to_store d in
        assign a d;;
        if (num_share_modes d =? 0)%nat
        then
          if fresh d then mret NT_STATUS_OK
          else
            match record d with
            | None => null_deref
            | Some rec => dbwrap_record_delete E rec
            end
        else
          match ndr_push_share_mode_data d with
          | inr ndr_err => mret (ndr_map_error2ntstatus ndr_err)
          | inl b =>
              match record d with
              | None => null_deref
              | Some rec => dbwrap_record_store E rec b
              end
          end
    end.

Definition fresh_share_mode_lock (E : env) (servicepath : option string)
    (smb_fname : option smb_filename) (old_write_time : option Z)
  : M (option positive) :=
  match servicepath, smb_fname, old_write_time with
  | Some sp, Some fname, Some owt =>
      if negb (talloc_data E) then mret None
      else
        (* New record - new sequence number. *)
        p ← talloc_new
              (mk_share_mode_data (wrap64 (random_buffer E)) 0 sp
                 (fname_base_name fname) (fname_stream_name fname) [] owt []
                 true false None);
        mret (Some p)
  | _, _, _ => mret None
  end.

Definition get_static_share_mode_data (E : env) (rec : db_record)
    (fid : file_id) (servicepath : option string)
    (smb_fname : option smb_filename) (old_write_time : option Z)
  : M NTSTATUS :=
  let value := dbwrap_record_get_value rec in
  sd ← gets static_share_mode_data;
  SMB_ASSERT (bool_decide (sd = None));;
  r ← match value with
      | None =>
          fresh_share_mode_lock E servicepath smb_fname old_write_time
      | Some v =>
          let key := locking_key fid in
          parse_share_modes E key v
      end;
  match r with
  | None =>
      mret (match value with
            | None => NT_STATUS_NO_MEMORY
            | Some _ => NT_STATUS_INTERNAL_DB_CORRUPTION
            end)
  | Some p =>
      d ← deref (Some p);
      assign p (set_record (Some rec) (set_id fid d));;
      modify (set_static_share_mode_data (Some p));;
      mret NT_STATUS_OK
  end.

(** Where the body of get_share_mode_lock leaves the if-cascade. *)
Inductive lock_exit : Type := goto_done | goto_fail | return_NULL.

Definition get_share_mode_lock (E : env) (fid : file_id)
    (servicepath : option string) (smb_fname : option smb_filename)
    (old_write_time : option Z) : M (option share_mode_lock) :=
  let key := locking_key fid in
  if negb (talloc_lck E) then mret None
  else
    sd ← gets static_share_mode_data;
    ex ← match sd with
         | Some p =>
             d ← deref (Some p);
             if negb (file_id_equal (id d) fid) then mret goto_fail
             else mret goto_done
         | None =>
             rc ← gets static_share_mode_data_refcount;
             SMB_ASSERT (rc =? 0);;
             sr ← gets static_share_mode_record;
             match sr with
             | None =>
                 rec ← dbwrap_fetch_locked E key;
                 modify (set_static_share_mode_record rec);;
                 match rec with
                 | None => mret goto_fail
                 | Some r =>
                     modify (set_talloced true);;
                     status ← get_static_share_mode_data E r fid servicepath
                                smb_fname old_write_time;
                     if negb (NT_STATUS_IS_OK status)
                     then
                       log_call (dbwrap_record_free_call (rec_key r));;
                       modify (set_static_share_mode_record None);;
                       mret goto_fail
                     else mret goto_done
                 end
             | Some r =>
                 let static_key := dbwrap_record_get_key r in
                 let cmp := tdb_data_cmp static_key key in
                 if negb (cmp =? 0) then mret return_NULL
                 else
                   status ← get_static_share_mode_data E r fid servicepath
                              smb_fname old_write_time;
                   if negb (NT_STATUS_IS_OK status) then mret goto_fail
                   else mret goto_done
             end
         end;
    match ex with
    | goto_done =>
        modify (fun s => set_refcount
                  (wrap64 (static_share_mode_data_refcount s + 1)) s);;
        sd ← gets static_share_mode_data;
        mret (Some (mk_share_mode_lock sd))
    | goto_fail | return_NULL => mret None
    end.

Definition share_mode_lock_destructor (E : env) : M Z :=
  rc ← gets static_share_mode_data_refcount;
  SMB_ASSERT (0 <? rc);;
  modify (set_refcount (wrap64 (rc - 1)));;
  rc ← gets static_share_mode_data_refcount;
  if 0 <? rc then mret 0
  else
    sd ← gets static_share_mode_data;
    status ← share_mode_data_store E sd;
    if negb (NT_STATUS_IS_OK status) then smb_panic
    else
      (* Drop the locking.tdb lock before moving the share_mode_data
         to memcache *)
      d ← deref sd;
      sr ← gets static_share_mode_record;
      SMB_ASSERT (bool_decide (record d = sr));;
      match sd with
      | None => null_deref
      | Some p =>
          assign p (set_record None d);;
          talloced ← gets static_share_mode_record_talloced;
          when talloced
            (match sr with
             | None => mret tt
             | Some r =>
                 log_call (dbwrap_record_free_call (rec_key r));;
                 modify (set_static_share_mode_record None)
             end);;
          (if negb (num_share_modes d =? 0)%nat
           then
             (* This is worth keeping. *)
             share_mode_memcache_store p;;
             modify (set_static_share_mode_data None)
           else
             talloc_free p;;
             modify (set_static_share_mode_data None));;
          mret 0
      end.

(** The callback of share_mode_do_locked: [fn rec modified_dependent
    private_data] returns the new contents of [*modified_dependent] and
    of [*private_data]; it runs in the process state like any other code. *)
Definition do_locked_fn (P : Type) : Type :=
  db_record -> bool -> P -> M (bool * P).

Definition share_mode_do_locked_fn {P : Type} (fn : do_locked_fn P)
    (rec : db_record) (private_data : P) : M P :=
  sr ← gets static_share_mode_record;
  reset_static_share_mode_record ←
    match sr with
    | None =>
        modify (set_static_share_mode_record (Some rec));;
        modify (set_talloced false);;
        mret true
    | Some r => SMB_ASSERT (bool_decide (r = rec));; mret false
    end;
  '(modified_dependent, p) ← fn rec false private_data;
  when modified_dependent (dbwrap_watched_wakeup (Some rec));;
  when reset_static_share_mode_record
    (modify (set_static_share_mode_record None));;
  mret p.

Definition share_mode_do_locked {P : Type} (E : env) (fid : file_id)
    (fn : do_locked_fn P) (private_data : P) : M (NTSTATUS * P) :=
  let key := locking_key fid in
  refcount ← gets static_share_mode_data_refcount;
  sr ← gets static_share_mode_record;
  r ← match sr with
      | Some rec =>
          let static_key := dbwrap_record_get_key rec in
          let cmp := tdb_data_cmp static_key key in
          if negb (cmp =? 0)
          then mret (Some NT_STATUS_INVALID_LOCK_SEQUENCE, private_data)
          else
            '(modified_dependent, p) ← fn rec false private_data;
            when modified_dependent
              (sr' ← gets static_share_mode_record;
               dbwrap_watched_wakeup sr');;
            mret (None, p)
      | None =>
          '(status, p) ← dbwrap_do_locked E key
                           (share_mode_do_locked_fn fn) private_data;
          if negb (NT_STATUS_IS_OK status) then mret (Some status, p)
          else mret (None, p)
      end;
  match r with
  | (Some status, p) => mret (status, p)
  | (None, p) =>
      rc ← gets static_share_mode_data_refcount;
      SMB_ASSERT (refcount =? rc);;
      mret (NT_STATUS_OK, p)
  end.

Definition share_mode_wakeup_waiters_fn : do_locked_fn unit :=
  fun rec modified_dependent private_data => mret (true, private_data).

Definition share_mode_wakeup_waiters (E : env) (fid : file_id) : M NTSTATUS :=
  '(status, _) ← share_mode_do_locked E fid share_mode_wakeup_waiters_fn tt;
  mret status.

(** *** The cached share-mode flags of an open file *)

Record files_struct : Type := mk_files_struct {
  fsp_file_id : file_id;
  share_mode_flags_seqnum : Z;
  share_mode_flags : Z
}.

Record fsp_update_share_mode_flags_state : Type := mk_flags_state {
  ndr_err : ndr_err_code;
  state_share_mode_flags : Z
}.

Definition fsp_update_share_mode_flags_fn
  : do_locked_fn fsp_update_share_mode_flags_state :=
  fun rec modified_dependent state =>
    let value := dbwrap_record_get_value rec in
    let b : blob := match value with Some v => v | None => [] end in
    let '(e, _, fl) :=
      get_share_mode_blob_header b 0 (state_share_mode_flags state) in
    mret (modified_dependent, mk_flags_state e fl).

Definition fsp_update_share_mode_flags (E : env) (fsp : files_struct)
  : M (NTSTATUS * files_struct) :=
  db ← gets lock_db;
  match db with
  | None => null_deref
  | Some db =>
      let seqnum := db_seqnum db in
      if seqnum =? share_mode_flags_seqnum fsp then mret (NT_STATUS_OK, fsp)
      else
        '(status, state) ← share_mode_do_locked E (fsp_file_id fsp)
            fsp_update_share_mode_flags_fn (mk_flags_state NDR_ERR_SUCCESS 0);
        if negb (NT_STATUS_IS_OK status) then mret (status, fsp)
        else if negb (NDR_ERR_CODE_IS_SUCCESS (ndr_err state))
        then mret (ndr_map_error2ntstatus (ndr_err state), fsp)
        else mret (NT_STATUS_OK,
                   mk_files_struct (fsp_file_id fsp) seqnum
                     (state_share_mode_flags state))
  end.

Definition file_has_read_lease (E : env) (fsp : files_struct)
  : M (bool * files_struct) :=
  '(status, fsp) ← fsp_update_share_mode_flags E fsp;
  if negb (NT_STATUS_IS_OK status)
  then (* Safe default for leases *) mret (true, fsp)
  else mret (negb (Z.land (share_mode_flags fsp) SHARE_MODE_HAS_READ_LEASE
                   =? 0), fsp).

(** *** Reading without the lock *)

(** [state] is [state->lck] of struct fetch_share_mode_unlocked_state. *)
Definition fetch_share_mode_unlocked_parser (E : env) (key : blob)
    (dat : blob) (lck : option share_mode_lock) : M (option share_mode_lock) :=
  if (length dat =? 0)%nat
  then (* Likely a ctdb tombstone record, ignore it *) mret lck
  else if negb (talloc_lck E) then mret None
  else
    d ← parse_share_modes E key dat;
    mret (Some (mk_share_mode_lock d)).

Definition fetch_share_mode_unlocked (E : env) (fid : file_id)
  : M (option share_mode_lock) :=
  let key := locking_key fid in
  '(status, lck) ← dbwrap_parse_record E key
                     (fetch_share_mode_unlocked_parser E) None;
  if negb (NT_STATUS_IS_OK status) then mret None
  else mret lck.

(** The request of fetch_share_mode_send: the tevent error state of the
    request and the parser state kept in struct fetch_share_mode_state. *)
Record fetch_share_mode_req : Type := mk_fetch_share_mode_req {
  subreq_status : NTSTATUS;
  req_error : option NTSTATUS;
  parser_state_lck : option share_mode_lock
}.

(** Modelled from the spec: dbwrap_parse_record_send is the asynchronous
    form of [parse_record]. It returns NULL when the subrequest cannot be
    allocated, and the store is then not read; otherwise it hands the
    parser to the store, and its answer is the status
    dbwrap_parse_record_recv will report. *)
Definition dbwrap_parse_record_send {P : Type} (E : env) (key : blob)
    (parser : blob -> blob -> P -> M P) (private_data : P)
  : M (option (NTSTATUS * P)) :=
  if negb (talloc_subreq E)
  then log_call (dbwrap_parse_record_call key);; mret None
  else
    r ← dbwrap_parse_record E key parser private_data;
    mret (Some r).

(** The second component of the result is [*queued]. When the subrequest
    is NULL, tevent_req_nomem fails the request with NT_STATUS_NO_MEMORY
    and the request is returned through tevent_req_post, with [*queued]
    still false. *)
Definition fetch_share_mode_send (E : env) (fid : file_id)
  : M (option fetch_share_mode_req * bool) :=
  if negb (talloc_req E) then mret (None, false)
  else
    let key := locking_key fid in
    subreq ← dbwrap_parse_record_send E key
               (fetch_share_mode_unlocked_parser E) None;
    match subreq with
    | None =>
        mret (Some (mk_fetch_share_mode_req NT_STATUS_NO_MEMORY
                      (Some NT_STATUS_NO_MEMORY) None), false)
    | Some (status, lck) =>
        mret (Some (mk_fetch_share_mode_req status None lck),
              request_queued E)
    end.

Definition fetch_share_mode_done (req : fetch_share_mode_req)
  : fetch_share_mode_req :=
  let status := subreq_status req in
  if negb (NT_STATUS_IS_OK status)
  then mk_fetch_share_mode_req status (Some status) (parser_state_lck req)
  else req.

Definition fetch_share_mode_recv (req : fetch_share_mode_req)
  : M (NTSTATUS * option share_mode_lock) :=
  match req_error req with
  | Some status => mret (status, None)
  | None =>
      match parser_state_lck req with
      | None => (* state->parser_state.lck->data *) null_deref
      | Some lck =>
          match data lck with
          | None => mret (NT_STATUS_NOT_FOUND, None)
          | Some _ => mret (NT_STATUS_OK, Some lck)
          end
      end
  end.

(** *** Traversal *)

Definition forall_fn (P : Type) : Type :=
  file_id -> share_mode_data -> P -> M (Z * P).

Definition share_mode_traverse_fn {P : Type} (E : env) (fn : forall_fn P)
    (rec : db_record) (private_data : P) : M (Z * P) :=
  let key := dbwrap_record_get_key rec in
  let value := dbwrap_record_get_value rec in
  (* Ensure this is a locking_key record. *)
  if negb (length key =? sizeof_file_id)%nat then mret (0, private_data)
  else
    let fid : file_id := key in
    if negb (talloc_data E) then mret (0, private_data)
    else
      let b : blob := match value with Some v => v | None => [] end in
      match ndr_pull_share_mode_data b with
      | None => mret (0, private_data)
      | Some d => fn fid d private_data
      end.

Definition share_mode_forall {P : Type} (E : env) (fn : forall_fn P)
    (private_data : P) : M (Z * P) :=
  db ← gets lock_db;
  match db with
  | None => mret (0, private_data)
  | Some db =>
      '(status, count, p) ← dbwrap_traverse_read E db
                              (share_mode_traverse_fn E fn) private_data;
      if negb (NT_STATUS_IS_OK status) then mret (-1, p)
      else mret (count, p)
  end.

Definition entry_fn (P : Type) : Type :=
  file_id -> share_mode_data -> share_mode_entry -> P -> M (Z * P).

Fixpoint share_entry_traverse_loop {P : Type} (fn : entry_fn P)
    (fid : file_id) (d : share_mode_data) (es : list share_mode_entry)
    (private_data : P) : M (Z * P) :=
  match es with
  | [] => mret (0, private_data)
  | e :: es' =>
      '(ret, p) ← fn fid d e private_data;
      if negb (ret =? 0) then mret (ret, p)
      else share_entry_traverse_loop fn fid d es' p
  end.

Definition share_entry_traverse_fn {P : Type} (fn : entry_fn P) : forall_fn P :=
  fun fid d private_data =>
    share_entry_traverse_loop fn fid d (share_modes d) private_data.

Definition share_entry_forall {P : Type} (E : env) (fn : entry_fn P)
    (private_data : P) : M (Z * P) :=
  share_mode_forall E (share_entry_traverse_fn fn) private_data.

(** *** Cleaning up after a disconnected durable handle *)

Definition cleanup_disconnected_lease (lck : share_mode_lock)
    (e : share_mode_entry) : M bool :=
  d ← deref (data lck);
  leases_db_del (client_guid e) (lease_key e) (id d);;
  mret false.

(** Modelled from the spec: share_mode_forall_leases lives in locking.c;
    the cleanup "instructs the lease-store collaborator to remove each
    entry's lease association", so the callback is run on every entry
    until it asks to stop. *)
Fixpoint share_mode_forall_leases_loop (lck : share_mode_lock)
    (fn : share_mode_lock -> share_mode_entry -> M bool)
    (es : list share_mode_entry) : M bool :=
  match es with
  | [] => mret true
  | e :: es' =>
      stop ← fn lck e;
      if (stop : bool) then mret true
      else share_mode_forall_leases_loop lck fn es'
  end.

Definition share_mode_forall_leases (lck : share_mode_lock)
    (fn : share_mode_lock -> share_mode_entry -> M bool) : M bool :=
  d ← deref (data lck);
  share_mode_forall_leases_loop lck fn (share_modes d).

(** Modelled from the spec: get_existing_share_mode_lock lives in
    locking.c; it acquires the record of an identity that must already
    exist, so it supplies none of the creation parameters. *)
Definition get_existing_share_mode_lock (E : env) (fid : file_id)
  : M (option share_mode_lock) :=
  get_share_mode_lock E fid None None None.

(** The loop over the entries: [true] when no entry sends the function
    to [done]. *)
Fixpoint cleanup_entries_ok (open_persistent_id : Z)
    (es : list share_mode_entry) : bool :=
  match es with
  | [] => true
  | entry :: es' =>
      if negb (server_id_is_disconnected (pid entry)) then false
      else if negb (open_persistent_id =? share_file_id entry) then false
      else cleanup_entries_ok open_persistent_id es'
  end.

(** The body of share_mode_cleanup_disconnected between the acquisition
    of [lck] and the label [done]. *)
Definition cleanup_disconnected_locked (E : env) (fid : file_id)
    (open_persistent_id : Z) (lck : share_mode_lock) : M bool :=
  d ← deref (data lck);
  if negb (cleanup_entries_ok open_persistent_id (share_modes d))
  then mret false
  else
    _ ← share_mode_forall_leases lck cleanup_disconnected_lease;
    ok ← brl_cleanup_disconnected E fid open_persistent_id;
    if negb ok then mret false
    else
      match data lck with
      | None => null_deref
      | Some p =>
          d ← deref (Some p);
          assign p (set_modified true (set_share_modes [] d));;
          mret true
      end.

(** talloc_free(frame) releases [lck], which runs its destructor. *)
Definition share_mode_cleanup_disconnected (E : env) (fid : file_id)
    (open_persistent_id : Z) : M bool :=
  lck ← get_existing_share_mode_lock E fid;
  match lck with
  | None => mret false
  | Some l =>
      ret ← cleanup_disconnected_locked E fid open_persistent_id l;
      share_mode_lock_destructor E;;
      mret ret
  end.

End share_mode_lock.

(** ** Call chains on one identity *)

Section call_chains.
Context `{Externals}.

(** One step of a call chain: an acquisition with its arguments, or the
    release of a handle. Each step comes with the environment's answers. *)
Inductive lock_op : Type :=
| op_acquire (E : env) (servicepath : option string)
    (smb_fname : option smb_filename) (old_write_time : option Z)
| op_release (E : env).

Fixpoint run_ops (fid : file_id) (ops : list lock_op)
  : M (list (option share_mode_lock)) :=
  match ops with
  | [] => mret []
  | op_acquire E sp fname owt :: ops' =>
      lck ← get_share_mode_lock E fid sp fname owt;
      lcks ← run_ops fid ops';
      mret (lck :: lcks)
  | op_release E :: ops' =>
      share_mode_lock_destructor E;;
      run_ops fid ops'
  end.

(** The nesting depth after a chain started at depth [rc]: [None] when a
    handle cannot be allocated, when the chain releases the outermost
    handle, or when the depth would leave the range of size_t. *)
Fixpoint nesting (ops : list lock_op) (rc : Z) : option Z :=
  match ops with
  | [] => Some rc
  | op_acquire E _ _ _ :: ops' =>
      if talloc_lck E && (rc + 1 <? 2 ^ 64) then nesting ops' (rc + 1)
      else None
  | op_release _ :: ops' =>
      if 1 <? rc then nesting ops' (rc - 1) else None
  end.

Definition acquisitions (ops : list lock_op) : nat :=
  length (List.filter (fun o => match o with op_acquire _ _ _ _ => true
                                | op_release _ => false end) ops).

End call_chains.

(** The state after the cache has evicted and freed the entry [p] kept
    under [key]. *)
Definition evicted (key : blob) (p : positive) (st : state) : state :=
  set_heap (delete p (heap st)) (set_memcache (delete key (memcache st)) st).

(** The state after the calls [cs] have been issued, in this order. *)
Definition issue (cs : list call) (st : state) : state :=
  foldl (fun s c => add_call c s) st cs.

(** The records a traversal can present to the visitor: the key has the
    size of an identity and the value decodes. *)
Definition decode_record `{Externals} (r : db_record)
  : option (file_id * share_mode_data) :=
  if (length (rec_key r) =? sizeof_file_id)%nat
  then (fun d => (rec_key r, d)) <$>
         ndr_pull_share_mode_data
           (match rec_value r with Some v => v | None => [] end)
  else None.

Definition decodable `{Externals} (recs : list db_record)
  : list (file_id * share_mode_data) :=
  omap decode_record recs.

(** A visitor that never asks to stop: it folds [visit] over what it is
    shown. *)
Definition counting_visitor {P : Type}
    (visit : file_id -> share_mode_data -> P -> P) : forall_fn P :=
  fun fid d private_data => mret (0, visit fid d private_data).

(** ** A concrete instance of the externals

    A small codec with the 9-byte header followed by the entries, used to
    run the model on concrete inputs. *)

Definition demo_push_entry (e : share_mode_entry) : blob :=
  le_encode 8 (pid e) ++ le_encode 8 (share_file_id e) ++
  le_encode 8 (client_guid e) ++ le_encode 8 (lease_key e) ++
  [byte_of_Z (if stale e then 1 else 0)].

Definition demo_push (d : share_mode_data) : blob + ndr_err_code :=
  inl (le_encode 8 (sequence_number d) ++ [byte_of_Z (flags d)] ++
       concat (demo_push_entry <$> share_modes d)).

Definition demo_pull_entry (b : blob) : share_mode_entry :=
  mk_share_mode_entry
    (le_decode (take 8 b)) (le_decode (take 8 (drop 8 b)))
    (le_decode (take 8 (drop 16 b))) (le_decode (take 8 (drop 24 b)))
    (negb (le_decode (take 1 (drop 32 b)) =? 0)).

Fixpoint demo_pull_entries (fuel : nat) (b : blob)
  : option (list share_mode_entry) :=
  match fuel with
  | O => None
  | S fuel' =>
      match b with
      | [] => Some []
      | _ :: _ =>
          if (length b <? 33)%nat then None
          else
            match demo_pull_entries fuel' (drop 33 b) with
            | None => None
            | Some es => Some (demo_pull_entry b :: es)
            end
      end
  end.

Definition demo_pull (b : blob) : option share_mode_data :=
  match blob_header b with
  | None => None
  | Some (seq, fl) =>
      match demo_pull_entries (S (length b)) (drop 9 b) with
      | None => None
      | Some es =>
          Some (mk_share_mode_data seq fl EmptyString EmptyString None es 0 []
                  false false None)
      end
  end.

Definition demo_remove_stale (es : list share_mode_entry)
  : list share_mode_entry :=
  List.filter (fun e => negb (stale e)) es.

Definition demo_externals : Externals := {|
  sizeof_file_id := 24;
  ndr_pull_share_mode_data := demo_pull;
  ndr_push_share_mode_data := demo_push;
  remove_stale_share_mode_entries := demo_remove_stale;
  server_id_is_disconnected := fun p => p =? 2 ^ 64 - 1;
  SHARE_MODE_HAS_READ_LEASE := 1
|}.

(** An identity made of three 64-bit fields. *)
Definition demo_file_id (devid inode extid : Z) : file_id :=
  le_encode 8 devid ++ le_encode 8 inode ++ le_encode 8 extid.

Definition demo_env : env :=
  mk_env true true true true NT_STATUS_OK NT_STATUS_OK NT_STATUS_OK
    NT_STATUS_OK NT_STATUS_OK false true 42 true.

Definition demo_entry (p ofid : Z) : share_mode_entry :=
  mk_share_mode_entry p ofid 7 9 false.

Definition demo_data (seq : Z) (es : list share_mode_entry)
    (fid : file_id) (fr md : bool) (rec : option db_record) : share_mode_data :=
  mk_share_mode_data seq 0 EmptyString EmptyString None es 0 fid fr md rec.

(** The state of a process that has opened the database and holds
    nothing. *)
Definition initial_state (db : gmap blob blob) : state :=
  mk_state (Some (mk_db_context db 0)) ∅ ∅ None 0 None false [].

(** Concrete inputs: two identities, stored values, and the states
    reached from a process that holds nothing. *)
Definition fidA : file_id := demo_file_id 1 2 0.
Definition fidB : file_id := demo_file_id 1 3 0.

Definition demo_blob (seq : Z) (es : list share_mode_entry) : blob :=
  match demo_push (demo_data seq es [] false false None) with
  | inl b => b
  | inr _ => []
  end.

(** seq 5, one entry of a disconnected owner with open id 42 *)
Definition blobA : blob := demo_blob 5 [demo_entry (2 ^ 64 - 1) 42].
(** the largest sequence number, one entry *)
Definition blob_max : blob := demo_blob (2 ^ 64 - 1) [demo_entry 100 42].
(** too short for the header *)
Definition blob_corrupt : blob := [Byte.x01; Byte.x02; Byte.x03].

Definition state_of {A : Type} (o : outcome A) (dflt : state) : state :=
  match o with Done _ s => s | _ => dflt end.

(** The state after the outermost acquisition of [fid] over store [db]. *)
Definition acquired (X : Externals) (db : gmap blob blob) (fid : file_id)
  : state :=
  state_of (get_share_mode_lock demo_env fid None None None (initial_state db))
    (initial_state db).

(** The holder marks the record it holds as modified. *)
Definition mark_modified (st : state) : state :=
  match static_share_mode_data st with
  | Some p => set_heap (alter (set_modified true) p (heap st)) st
  | None => st
  end.

(** The process holds the record of [fidA] (one handle). *)
Definition heldA : state := acquired demo_externals {[fidA := blobA]} fidA.
Definition recA : db_record := mk_db_record fidA (Some blobA).
Definition dbA : db_context := mk_db_context {[fidA := blobA]} 0.
Definition data_at (st : state) (p : positive) : share_mode_data :=
  default share_mode_data_zero (heap st !! p).

(** The record of [fidA] sits in the cache after its release. *)
Definition cachedA : state :=
  state_of (@share_mode_lock_destructor demo_externals demo_env heldA) heldA.

(** The stored record carries the largest sequence number. *)
Definition held_max : state := acquired demo_externals {[fidA := blob_max]} fidA.

(** A store with one valid record and one corrupt blob. *)
Definition db_mixed : db_context :=
  mk_db_context (<[fidB := blob_corrupt]> {[fidA := blobA]}) 0.
Definition st_mixed : state := initial_state (db_data db_mixed).

(** A store where the value of [fidA] has length zero. *)
Definition db_tombstone : db_context := mk_db_context {[fidA := []]} 0.
Definition st_tombstone : state := initial_state (db_data db_tombstone).

(** A store where the value of [fidA] is too short for the header. *)
Definition db_short : db_context := mk_db_context {[fidA := blob_corrupt]} 0.
Definition st_short : state := initial_state (db_data db_short).

Definition demo_chain : list lock_op :=
  [op_acquire demo_env None None None; op_acquire demo_env None None None;
   op_release demo_env; op_acquire demo_env None None None].

Definition count_visit (fid : file_id) (d : share_mode_data) (n : nat) : nat :=
  S n.

(** ** Opening and closing the locking database *)

(** What the environment answers while the database is opened: whether
    lock_path yields a path, the database db_open returns for the open
    flags chosen by [read_only] (NULL on failure), whether
    db_open_watched succeeds, and whether posix_locking_init succeeds
    for [read_only]. *)
Record init_env : Type := mk_init_env {
  lock_path_ok : bool;
  db_open_result : bool -> option db_context;
  db_open_watched_ok : bool;
  posix_locking_init_ok : bool -> bool
}.

(** brl_init, brl_shutdown and posix_locking_init act on databases that
    are no part of this state; the calls are recorded. *)
Definition locking_init_internal (I : init_env) (read_only : bool) : M bool :=
  log_call (brl_init_call read_only);;
  db ← gets lock_db;
  match db with
  | Some _ => mret true
  | None =>
      if negb (lock_path_ok I) then mret false
      else
        match db_open_result I read_only with
        | None => mret false
        | Some backend =>
            if negb (db_open_watched_ok I) then mret false
            else
              modify (set_lock_db (Some backend));;
              log_call (posix_locking_init_call read_only);;
              if negb (posix_locking_init_ok I read_only)
              then modify (set_lock_db None);; mret false
              else mret true
        end
  end.

Definition locking_init (I : init_env) : M bool :=
  locking_init_internal I false.

Definition locking_init_readonly (I : init_env) : M bool :=
  locking_init_internal I true.

Definition locking_end : M bool :=
  log_call brl_shutdown_call;;
  modify (set_lock_db None);; mret true.

(** An entry visitor that never asks to stop. *)
Definition counting_entry_visitor {P : Type}
    (visit : file_id -> share_mode_data -> share_mode_entry -> P -> P)
  : entry_fn P :=
  fun fid d e private_data => mret (0, visit fid d e private_data).

(** An entry visitor that returns [code e] for entry [e]. *)
Definition coded_entry_visitor {P : Type} (code : share_mode_entry -> Z)
    (visit : file_id -> share_mode_data -> share_mode_entry -> P -> P)
  : entry_fn P :=
  fun fid d e private_data => mret (code e, visit fid d e private_data).

(** A record as the cache keeps it: clean and without record lock. *)
Definition cache_clean (d : share_mode_data) : share_mode_data :=
  set_fresh false (set_modified false (set_record None d)).

(** The lock slot and the store are the same in two states. *)
Definition same_slot (st st' : state) : Prop :=
  lock_db st' = lock_db st
  /\ static_share_mode_data st' = static_share_mode_data st
  /\ static_share_mode_data_refcount st' = static_share_mode_data_refcount st
  /\ static_share_mode_record st' = static_share_mode_record st.

(** More concrete inputs: a process holding nothing over the store with
    the record of [fidA], over an empty store, and environments in which
    one of the store's answers is a failure. *)
Definition freeA : state := initial_state {[fidA := blobA]}.
Definition dataA : share_mode_data :=
  default share_mode_data_zero (demo_pull blobA).
Definition db_none : db_context := mk_db_context ∅ 0.
Definition st_none : state := initial_state ∅.
Definition demo_fname : smb_filename := mk_smb_filename "file.txt" None.

Definition demo_env_store_fails : env :=
  mk_env true true true true NT_STATUS_UNSUCCESSFUL NT_STATUS_UNSUCCESSFUL
    NT_STATUS_OK NT_STATUS_OK NT_STATUS_OK false true 42 true.
Definition demo_env_locked_fails : env :=
  mk_env true true true true NT_STATUS_OK NT_STATUS_OK
    NT_STATUS_UNSUCCESSFUL NT_STATUS_OK NT_STATUS_UNSUCCESSFUL false true 42
    true.
Definition demo_env_no_memory : env :=
  mk_env true false true true NT_STATUS_OK NT_STATUS_OK NT_STATUS_OK
    NT_STATUS_OK NT_STATUS_OK false true 42 true.
Definition demo_env_no_subreq : env :=
  mk_env true true true true NT_STATUS_OK NT_STATUS_OK NT_STATUS_OK
    NT_STATUS_OK NT_STATUS_OK false true 42 false.
Definition demo_env_brl_fails : env :=
  mk_env true true true true NT_STATUS_OK NT_STATUS_OK NT_STATUS_OK
    NT_STATUS_OK NT_STATUS_OK false false 42 true.

(** Three entries; the visitor code of an entry is its open id minus 42. *)
Definition data_three : share_mode_data :=
  demo_data 1 [demo_entry 1 42; demo_entry 2 43; demo_entry 3 42] fidA
    false false None.
Definition code_of (e : share_mode_entry) : Z := share_file_id e - 42.
Definition collect_pid (fid : file_id) (d : share_mode_data)
    (e : share_mode_entry) (acc : list Z) : list Z := acc ++ [pid e].

(** The process-local slot is occupied for identity [A]: the share mode
    data of [A] is held (a handle of get_share_mode_lock is live), or
    only the record lock of [A] is held, which is the state inside the
    callback of share_mode_do_locked; no handle is live then, so the
    refcount is 0, as get_share_mode_lock asserts. *)
Inductive slot_occupied (st : state) (A : file_id) : Prop :=
| data_held (p : positive) (d : share_mode_data) :
    static_share_mode_data st = Some p ->
    heap st !! p = Some d ->
    id d = A ->
    slot_occupied st A
| record_held (r : db_record) :
    static_share_mode_data st = None ->
    static_share_mode_data_refcount st = 0 ->
    static_share_mode_record st = Some r ->
    rec_key r = locking_key A ->
    slot_occupied st A.

(** A callback for share_mode_do_locked that tries to acquire the record
    of [B] and leaves the handle it gets in [*private_data]. *)
Definition acquire_in_callback `{Externals} (E : env) (B : file_id)
    (servicepath : option string) (smb_fname : option smb_filename)
    (old_write_time : option Z) : do_locked_fn (option share_mode_lock) :=
  fun rec modified_dependent private_data =>
    lck ← get_share_mode_lock E B servicepath smb_fname old_write_time;
    mret (modified_dependent, lck).

(** The process holds the record lock of [fidA] only. *)
Definition lockedA : state :=
  set_talloced false (set_static_share_mode_record (Some recA) freeA).

(** The holder empties the entry list of the record it holds, the way
    share_mode_cleanup_disconnected does:
    [data->num_share_modes = 0; data->modified = true;]. *)
Definition clear_share_modes : M unit :=
  sd ← gets static_share_mode_data;
  d ← deref sd;
  match sd with
  | None => null_deref
  | Some p => assign p (set_modified true (set_share_modes [] d))
  end.

(** The process holds a freshly created record of [fidA]. *)
Definition held_fresh : state :=
  state_of (@get_share_mode_lock demo_externals demo_env fidA
              (Some "/srv"%string) (Some demo_fname) (Some 7) st_none)
    st_none.

(** A process holding nothing over a store whose record of [fidA] has
    an entry of a live process. *)
Definition free_max : state := initial_state {[fidA := blob_max]}.
Definition data_max : share_mode_data :=
  default share_mode_data_zero (demo_pull blob_max).

(** Properties of the codec assumed where a statement needs them: the
    header of an encoded or decodable blob carries the record's sequence
    number and flags. *)
Definition pull_header_agreement `{Externals} : Prop :=
  forall (b : blob) (d : share_mode_data),
    ndr_pull_share_mode_data b = Some d ->
    blob_header b = Some (sequence_number d, flags d).

Definition push_header_agreement `{Externals} : Prop :=
  forall (b : blob) (d : share_mode_data),
    ndr_push_share_mode_data d = inl b ->
    0 <= sequence_number d < 2 ^ 64 ->
    0 <= flags d < 256 ->
    blob_header b = Some (sequence_number d, flags d).

(** Stale-entry removal only ever removes entries. *)
Definition remove_stale_shrinks `{Externals} : Prop :=
  forall es : list share_mode_entry,
    (length (remove_stale_share_mode_entries es) <= length es)%nat.

(** * Properties *)

(** ** Stepping through monadic code *)

Lemma bind_Done {A B : Type} (m : M A) (k : A -> M B) (s s' : state) (a : A) :
  m s = Done a s' -> (m ≫= k) s = k a s'.
Proof. intros Hm. unfold mbind, M_bind. by rewrite Hm. Qed.

Ltac munfold :=
  unfold mbind, M_bind, mret, M_ret, gets, modify, SMB_ASSERT, smb_panic,
    null_deref, log_call, when, deref, assign, talloc_free, talloc_new.

Ltac munfold_in H :=
  unfold mbind, M_bind, mret, M_ret, gets, modify, SMB_ASSERT, smb_panic,
    null_deref, log_call, when, deref, assign, talloc_free, talloc_new in H.

Ltac mrun := repeat (progress (munfold; simpl)).
Ltac setters :=
  unfold set_refcount, set_static_share_mode_data, set_heap, set_memcache,
    set_talloced, set_static_share_mode_record, set_lock_db, add_call;
  cbn [lock_db heap memcache static_share_mode_data
       static_share_mode_data_refcount static_share_mode_record
       static_share_mode_record_talloced calls].
Ltac mrun_in H := repeat (progress (munfold_in H; simpl in H)).

Section properties.
Context `{Externals}.

Lemma deref_Some (s : state) (p : positive) (d : share_mode_data) :
  heap s !! p = Some d -> deref (Some p) s = Done d s.
Proof.
  intros Hp. unfold deref, mbind, M_bind, gets, mret, M_ret. by rewrite Hp.
Qed.

(** *** Nested acquisition and release *)

Lemma wrap64_small (z : Z) : 0 <= z < 2 ^ 64 -> wrap64 z = z.
Proof. intros Hz. unfold wrap64. by apply Z.mod_small. Qed.

Lemma set_refcount_twice (a b : Z) (s : state) :
  set_refcount a (set_refcount b s) = set_refcount a s.
Proof. done. Qed.

Lemma set_refcount_same (s : state) :
  set_refcount (static_share_mode_data_refcount s) s = s.
Proof. by destruct s. Qed.

Lemma nested_acquire_step (E : env) (st : state) (p : positive)
    (d : share_mode_data) (servicepath : option string)
    (smb_fname : option smb_filename) (old_write_time : option Z) :
  talloc_lck E = true ->
  static_share_mode_data st = Some p ->
  heap st !! p = Some d ->
  get_share_mode_lock E (id d) servicepath smb_fname old_write_time st
  = Done (Some (mk_share_mode_lock (Some p)))
      (set_refcount (wrap64 (static_share_mode_data_refcount st + 1)) st).
Proof.
  intros HE Hsd Hp. unfold get_share_mode_lock. rewrite HE. simpl.
  munfold. rewrite Hsd, Hp.
  unfold file_id_equal. rewrite bool_decide_eq_true_2 by done. simpl.
  by rewrite Hsd.
Qed.

Lemma nested_release_step (E : env) (st : state) :
  1 < static_share_mode_data_refcount st < 2 ^ 64 ->
  share_mode_lock_destructor E st
  = Done 0 (set_refcount (static_share_mode_data_refcount st - 1) st).
Proof.
  intros Hrc. unfold share_mode_lock_destructor. munfold.
  assert ((0 <? static_share_mode_data_refcount st) = true) as ->
    by (apply Z.ltb_lt; lia).
  simpl. rewrite wrap64_small by lia.
  assert ((0 <? static_share_mode_data_refcount st - 1) = true) as ->
    by (apply Z.ltb_lt; lia).
  done.
Qed.

(** C1: in a call chain on the identity of the held record that never
    releases the outermost handle, every acquisition succeeds and returns
    a handle on the very heap record the slot holds; the chain changes
    nothing but the refcount, which counts the handles: no collaborator
    is called, the store and the record are untouched. In particular a
    release that leaves the refcount above zero writes nothing. *)
Theorem nested_acquire_release (ops : list lock_op) (st : state)
    (p : positive) (d : share_mode_data) (rc' : Z) :
  static_share_mode_data st = Some p ->
  heap st !! p = Some d ->
  1 <= static_share_mode_data_refcount st < 2 ^ 64 ->
  nesting ops (static_share_mode_data_refcount st) = Some rc' ->
  run_ops (id d) ops st
  = Done (replicate (acquisitions ops) (Some (mk_share_mode_lock (Some p))))
      (set_refcount rc' st)
  /\ 1 <= rc' < 2 ^ 64.
Proof.
  revert st. induction ops as [|o ops IH]; intros st Hsd Hp Hrc Hn.
  - simpl in Hn. injection Hn as <-. split; [|done].
    simpl. by rewrite set_refcount_same.
  - destruct o as [E sp fname owt|E]; simpl in Hn.
    + destruct (talloc_lck E) eqn:HE; [|done].
      destruct (Z.ltb_spec (static_share_mode_data_refcount st + 1) (2 ^ 64))
        as [Hlt|]; [|done].
      simpl in Hn.
      pose proof (nested_acquire_step E st p d sp fname owt HE Hsd Hp) as Hstep.
      rewrite wrap64_small in Hstep by lia.
      destruct (IH (set_refcount (static_share_mode_data_refcount st + 1) st))
        as [Hrun Hb]; [done|done|simpl; lia|done|].
      split; [|done].
      simpl. rewrite (bind_Done _ _ _ _ _ Hstep).
      rewrite (bind_Done _ _ _ _ _ Hrun). done.
    + destruct (Z.ltb_spec 1 (static_share_mode_data_refcount st))
        as [Hlt|]; [|done].
      pose proof (nested_release_step E st ltac:(lia)) as Hstep.
      destruct (IH (set_refcount (static_share_mode_data_refcount st - 1) st))
        as [Hrun Hb]; [done|done|simpl; lia|done|].
      split; [|done].
      simpl. rewrite (bind_Done _ _ _ _ _ Hstep). by rewrite Hrun.
Qed.

(** *** The final release *)

(** What the destructor does after share_mode_data_store has returned
    NT_STATUS_OK in state [st1], where the slot's record is [d1]. *)
Lemma destructor_after_store (E : env) (st st1 : state) (p : positive)
    (d1 : share_mode_data) (rec : db_record) :
  static_share_mode_data_refcount st = 1 ->
  static_share_mode_data st = Some p ->
  share_mode_data_store E (Some p) (set_refcount 0 st) = Done NT_STATUS_OK st1 ->
  heap st1 !! p = Some d1 ->
  static_share_mode_record st1 = Some rec ->
  record d1 = Some rec ->
  exists st' : state,
    share_mode_lock_destructor E st = Done 0 st'
    /\ lock_db st' = lock_db st1
    /\ calls st' =
       (if static_share_mode_record_talloced st1
        then [dbwrap_record_free_call (rec_key rec)] else []) ++ calls st1
    /\ static_share_mode_data st' = None
    /\ static_share_mode_data_refcount st' = static_share_mode_data_refcount st1.
Proof.
  intros Hrc Hsd Hstore Hp1 Hsr Hrec.
  unfold share_mode_lock_destructor. munfold. rewrite Hrc. simpl.
  rewrite Hsd. change (wrap64 (1 - 1)) with 0. rewrite Hstore. simpl.
  munfold. rewrite Hp1, Hsr, Hrec.
  rewrite bool_decide_eq_true_2 by done.
  destruct (num_share_modes d1 =? 0)%nat eqn:Hn; simpl.
  - destruct (static_share_mode_record_talloced st1); simpl;
      eexists; (split; [reflexivity|]); simpl; done.
  - unfold share_mode_memcache_store, memcache_add_talloc, memcache_delete.
    munfold.
    destruct (static_share_mode_record_talloced st1); mrun;
      rewrite lookup_insert_eq; mrun;
      (destruct (memcache st1 !! memcache_key (id d1)); mrun;
       eexists; (split; [reflexivity|]); simpl; done).
Qed.

Lemma store_unmodified (E : env) (st : state) (p : positive)
    (d : share_mode_data) :
  heap st !! p = Some d ->
  modified d = false ->
  share_mode_data_store E (Some p) st = Done NT_STATUS_OK st.
Proof.
  intros Hp Hm. unfold share_mode_data_store. mrun. by rewrite Hp, Hm.
Qed.

Lemma store_empty_fresh (E : env) (st : state) (p : positive)
    (d : share_mode_data) :
  heap st !! p = Some d ->
  modified d = true ->
  remove_stale_share_mode_entries (share_modes d) = [] ->
  fresh d = true ->
  share_mode_data_store E (Some p) st
  = Done NT_STATUS_OK (set_heap (<[p := data_to_store d]> (heap st)) st).
Proof.
  intros Hp Hm He Hf. unfold share_mode_data_store. mrun.
  rewrite Hp, Hm. simpl. unfold num_share_modes. simpl.
  by rewrite He, Hf.
Qed.

Lemma store_empty_delete (E : env) (st : state) (p : positive)
    (d : share_mode_data) (rec : db_record) (db : db_context) :
  heap st !! p = Some d ->
  modified d = true ->
  remove_stale_share_mode_entries (share_modes d) = [] ->
  fresh d = false ->
  record d = Some rec ->
  lock_db st = Some db ->
  delete_status E = NT_STATUS_OK ->
  share_mode_data_store E (Some p) st
  = Done NT_STATUS_OK
      (set_lock_db
         (Some (mk_db_context (delete (rec_key rec) (db_data db))
                  (db_seqnum db + 1)))
         (add_call (dbwrap_record_delete_call (rec_key rec))
            (set_heap (<[p := data_to_store d]> (heap st)) st))).
Proof.
  intros Hp Hm He Hf Hrec Hdb HE. unfold share_mode_data_store. mrun.
  rewrite Hp, Hm. simpl. unfold num_share_modes. simpl.
  rewrite He, Hf, Hrec. simpl. unfold dbwrap_record_delete. mrun.
  by rewrite Hdb, HE.
Qed.

Lemma store_write (E : env) (st : state) (p : positive)
    (d : share_mode_data) (rec : db_record) (db : db_context) (b : blob) :
  heap st !! p = Some d ->
  modified d = true ->
  remove_stale_share_mode_entries (share_modes d) <> [] ->
  ndr_push_share_mode_data (data_to_store d) = inl b ->
  record d = Some rec ->
  lock_db st = Some db ->
  store_status E = NT_STATUS_OK ->
  share_mode_data_store E (Some p) st
  = Done NT_STATUS_OK
      (set_lock_db
         (Some (mk_db_context (<[rec_key rec := b]> (db_data db))
                  (db_seqnum db + 1)))
         (add_call (dbwrap_record_store_call (rec_key rec) b)
            (set_heap (<[p := data_to_store d]> (heap st)) st))).
Proof.
  intros Hp Hm He Hpush Hrec Hdb HE. unfold share_mode_data_store. mrun.
  rewrite Hp, Hm. simpl. unfold num_share_modes. simpl.
  destruct (remove_stale_share_mode_entries (share_modes d)) eqn:Hes; [done|].
  simpl. unfold data_to_store in Hpush. rewrite Hes in Hpush.
  unfold data_to_store. rewrite Hes. simpl in *. rewrite Hpush, Hrec.
  unfold dbwrap_record_store. mrun. by rewrite Hdb, HE.
Qed.

Lemma remove_stale_nil :
  remove_stale_shrinks -> remove_stale_share_mode_entries [] = [].
Proof.
  intros Hs. specialize (Hs []).
  destruct (remove_stale_share_mode_entries []); [done|simpl in Hs; lia].
Qed.

(** C3: on the final release (the refcount goes from 1 to 0) of the
    held record [d]:
    - if [d] is fresh and its entry list is empty, no store and no delete
      call is made, whether the record is marked modified or not: the
      database is unchanged and the only call is the release of the
      record lock when the process owns it;
    - if [d] is not fresh and its entry list has become empty, the
      holder having set the modified flag with the change, the release
      deletes the record from the store by one delete call and stores
      nothing;
    - the same holds from any record that is not fresh once the holder
      empties its list the way share_mode_cleanup_disconnected does;
    - share_mode_data_store never hands a record without entries to the
      store: it makes no call, or one delete call for a record that is
      not fresh and has no entry left, or one store call with the
      encoding of a record that has at least one entry. *)
Theorem empty_record_release (E : env) (st : state) (p : positive)
    (d : share_mode_data) (rec : db_record) (db : db_context) :
  remove_stale_shrinks ->
  static_share_mode_data st = Some p ->
  heap st !! p = Some d ->
  static_share_mode_data_refcount st = 1 ->
  static_share_mode_record st = Some rec ->
  record d = Some rec ->
  lock_db st = Some db ->
  let freed := if static_share_mode_record_talloced st
               then [dbwrap_record_free_call (rec_key rec)] else [] in
  let deleted :=
    Some (mk_db_context (delete (rec_key rec) (db_data db))
            (db_seqnum db + 1)) in
  (fresh d = true -> share_modes d = [] ->
   exists st' : state,
     share_mode_lock_destructor E st = Done 0 st'
     /\ lock_db st' = Some db
     /\ calls st' = freed ++ calls st)
  /\ (fresh d = false -> share_modes d = [] -> modified d = true ->
      delete_status E = NT_STATUS_OK ->
      exists st' : state,
        share_mode_lock_destructor E st = Done 0 st'
        /\ lock_db st' = deleted
        /\ calls st' = freed ++ dbwrap_record_delete_call (rec_key rec)
                                 :: calls st)
  /\ (fresh d = false ->
      delete_status E = NT_STATUS_OK ->
      exists st' : state,
        (clear_share_modes;; share_mode_lock_destructor E) st = Done 0 st'
        /\ lock_db st' = deleted
        /\ calls st' = freed ++ dbwrap_record_delete_call (rec_key rec)
                                 :: calls st)
  /\ (forall (status : NTSTATUS) (st' : state),
      share_mode_data_store E (Some p) st = Done status st' ->
      calls st' = calls st
      \/ (calls st' = dbwrap_record_delete_call (rec_key rec) :: calls st
          /\ share_modes (data_to_store d) = [] /\ fresh d = false)
      \/ (exists b : blob,
            calls st' = dbwrap_record_store_call (rec_key rec) b :: calls st
            /\ ndr_push_share_mode_data (data_to_store d) = inl b
            /\ share_modes (data_to_store d) <> [])).
Proof.
  intros Hs Hsd Hp Hrc Hsr Hrec Hdb freed deleted.
  assert (forall (s : state) (x : share_mode_data),
             static_share_mode_data s = Some p ->
             static_share_mode_data_refcount s = 1 ->
             static_share_mode_record s = Some rec ->
             static_share_mode_record_talloced s
             = static_share_mode_record_talloced st ->
             lock_db s = Some db ->
             heap s !! p = Some x ->
             record x = Some rec -> fresh x = false -> modified x = true ->
             share_modes x = [] ->
             delete_status E = NT_STATUS_OK ->
             exists st' : state,
               share_mode_lock_destructor E s = Done 0 st'
               /\ lock_db st' = deleted
               /\ calls st' = freed ++ dbwrap_record_delete_call (rec_key rec)
                                        :: calls s) as Hdelete.
  { intros s x Hsd' Hrc' Hsr' Ht' Hdb' Hp' Hrec' Hf' Hm' Hes' HE.
    assert (remove_stale_share_mode_entries (share_modes x) = []) as Hnil
      by (rewrite Hes'; by apply remove_stale_nil).
    destruct (destructor_after_store E s _ p (data_to_store x) rec Hrc' Hsd'
                (store_empty_delete E (set_refcount 0 s) p x rec db
                   Hp' Hm' Hnil Hf' Hrec' Hdb' HE))
      as (st' & Hrun & Hdbs & Hcalls & _);
      [simpl; apply lookup_insert_eq|done|done|].
    exists st'. split_and!; [done|done|].
    rewrite Hcalls. simpl. subst freed. by rewrite Ht'. }
  split_and!.
  - intros Hf Hes.
    assert (remove_stale_share_mode_entries (share_modes d) = []) as Hes'
      by (rewrite Hes; by apply remove_stale_nil).
    destruct (modified d) eqn:Hm.
    + destruct (destructor_after_store E st _ p (data_to_store d) rec Hrc Hsd
                  (store_empty_fresh E (set_refcount 0 st) p d Hp Hm Hes' Hf))
        as (st' & Hrun & Hdb' & Hcalls & _);
        [simpl; apply lookup_insert_eq|done|done|].
      exists st'. by rewrite Hdb', <- Hdb.
    + destruct (destructor_after_store E st _ p d rec Hrc Hsd
                  (store_unmodified E (set_refcount 0 st) p d Hp Hm))
        as (st' & Hrun & Hdb' & Hcalls & _); [done..|].
      exists st'. by rewrite Hdb', <- Hdb.
  - intros Hf Hes Hm HE. by apply (Hdelete st d).
  - intros Hf HE.
    set (d' := set_modified true (set_share_modes [] d)).
    set (st1 := set_heap (<[p := d']> (heap st)) st).
    assert (clear_share_modes st = Done tt st1) as Hclear
      by (unfold clear_share_modes; mrun; rewrite Hsd; mrun;
          by rewrite Hp).
    rewrite (bind_Done _ _ _ _ _ Hclear).
    apply (Hdelete st1 d'); first [done | apply lookup_insert_eq].
  - intros status st'. unfold share_mode_data_store, dbwrap_record_delete,
      dbwrap_record_store. mrun. rewrite Hp.
    destruct (modified d); simpl; [|intros [= <- <-]; by left].
    unfold num_share_modes. simpl.
    destruct (remove_stale_share_mode_entries (share_modes d)) as [|e es]
      eqn:Hes; simpl.
    + destruct (fresh d) eqn:Hf; simpl; [intros [= <- <-]; by left|].
      rewrite Hrec. simpl. rewrite Hdb. simpl.
      destruct (NT_STATUS_IS_OK (delete_status E)); simpl;
        intros [= <- <-]; right; left; done.
    + destruct (ndr_push_share_mode_data (data_to_store d)) as [b|e']
        eqn:Hb; simpl; [|intros [= <- <-]; by left].
      rewrite Hrec. simpl. rewrite Hdb. simpl.
      destruct (NT_STATUS_IS_OK (store_status E)); simpl;
        intros [= <- <-]; right; right; exists b; done.
Qed.

(** *** Cache coherence *)

Lemma talloc_addr_fresh {V : Type} (h : gmap positive V) :
  h !! talloc_addr h = None.
Proof. apply not_elem_of_dom. unfold talloc_addr. apply is_fresh. Qed.

(** C4: with a record [d] cached for the identity, the fetch returns the
    cached record exactly when the header peek of the store value
    succeeds and reads the sequence number of [d]; the entry then leaves
    the cache and stays allocated. In every other case (peek failure or
    another sequence number) the entry is evicted and freed, the fetch
    reports a miss, and parse_share_modes goes on to the full decode of
    the store value, returning the decoded record in a new allocation, or
    NULL if the value does not decode. *)
Theorem memcache_fetch_coherence (E : env) (st : state) (fid : file_id)
    (p : positive) (d : share_mode_data) (b : blob) :
  length fid = sizeof_file_id ->
  memcache st !! memcache_key fid = Some p ->
  heap st !! p = Some d ->
  talloc_data E = true ->
  let key := locking_key fid in
  let valid :=
    match blob_header b with
    | Some (seq, _) => sequence_number d =? seq
    | None => false
    end in
  let st_miss := evicted key p st in
  share_mode_memcache_fetch key b st
  = (if valid then Done (Some p) (set_memcache (delete key (memcache st)) st)
     else Done None st_miss)
  /\ parse_share_modes E key b st
     = (if valid then Done (Some p) (set_memcache (delete key (memcache st)) st)
        else
          match ndr_pull_share_mode_data b with
          | Some d' =>
              Done (Some (talloc_addr (heap st_miss)))
                (set_heap (<[talloc_addr (heap st_miss) := d']> (heap st_miss))
                   st_miss)
          | None => Done None st_miss
          end).
Proof.
  intros Hlen Hc Hp HE key valid st_miss.
  assert (share_mode_memcache_fetch key b st
          = (if valid
             then Done (Some p) (set_memcache (delete key (memcache st)) st)
             else Done None st_miss)) as Hfetch.
  { unfold share_mode_memcache_fetch, key, locking_key.
    rewrite Hlen, Nat.eqb_refl. simpl.
    unfold memcache_lookup_talloc, memcache_delete. mrun. rewrite Hc.
    subst valid st_miss. unfold blob_header, evicted, key, locking_key.
    unfold memcache_key in *.
    destruct (get_share_mode_blob_header b 0 0) as [[e seq] fl].
    destruct e; simpl; rewrite ?Hc; try done.
    rewrite Hp. destruct (sequence_number d =? seq); simpl; by rewrite Hc. }
  split; [done|].
  unfold parse_share_modes. unfold mbind at 1, M_bind at 1. rewrite Hfetch.
  destruct valid; [done|]. rewrite HE. simpl.
  destruct (ndr_pull_share_mode_data b) as [d'|]; mrun.
  - by rewrite insert_insert_eq.
  - rewrite delete_insert_eq, delete_id by apply talloc_addr_fresh.
    by destruct st.
Qed.

(** *** The sequence number *)

Lemma memcache_fetch_header (st st' : state) (key v : blob) (p : positive) :
  share_mode_memcache_fetch key v st = Done (Some p) st' ->
  exists (d : share_mode_data) (f : Z),
    heap st' !! p = Some d /\ blob_header v = Some (sequence_number d, f).
Proof.
  unfold share_mode_memcache_fetch, memcache_lookup_talloc, memcache_delete.
  unfold blob_header.
  destruct (negb (length key =? sizeof_file_id)%nat); [done|].
  mrun. destruct (memcache st !! memcache_key key) as [q|] eqn:Hc; [|done].
  destruct (get_share_mode_blob_header v 0 0) as [[e seq] fl].
  destruct e; simpl; rewrite ?Hc; try done.
  destruct (heap st !! q) as [d|] eqn:Hq; [|done].
  destruct (Z.eqb_spec (sequence_number d) seq) as [<-|]; simpl;
    rewrite Hc; [|done].
  intros [= <- <-]. by exists d, fl.
Qed.

Lemma parse_share_modes_header (E : env) (st st' : state) (key v : blob)
    (p : positive) :
  pull_header_agreement ->
  parse_share_modes E key v st = Done (Some p) st' ->
  exists (d : share_mode_data) (f : Z),
    heap st' !! p = Some d /\ blob_header v = Some (sequence_number d, f).
Proof.
  intros Hpull. unfold parse_share_modes. unfold mbind at 1, M_bind at 1.
  destruct (share_mode_memcache_fetch key v st) as [[q|] s1| |] eqn:Hf;
    [| |done..].
  - intros [= <- <-]. by eapply memcache_fetch_header.
  - destruct (negb (talloc_data E)); [done|]. mrun.
    destruct (ndr_pull_share_mode_data v) as [d|] eqn:Hd; [|done].
    intros [= <- <-]. exists d, (flags d). simpl.
    rewrite lookup_insert_eq. split; [done|]. by apply Hpull.
Qed.

Lemma get_static_share_mode_data_header (E : env) (st st' : state)
    (rec : db_record) (v : blob) (fid : file_id)
    (servicepath : option string) (smb_fname : option smb_filename)
    (old_write_time : option Z) :
  pull_header_agreement ->
  rec_value rec = Some v ->
  get_static_share_mode_data E rec fid servicepath smb_fname old_write_time st
  = Done NT_STATUS_OK st' ->
  exists (p : positive) (d : share_mode_data) (f : Z),
    static_share_mode_data st' = Some p
    /\ heap st' !! p = Some d
    /\ record d = Some rec
    /\ blob_header v = Some (sequence_number d, f).
Proof.
  intros Hpull Hv. unfold get_static_share_mode_data, dbwrap_record_get_value.
  rewrite Hv. mrun.
  destruct (bool_decide (static_share_mode_data st = None)); [|done].
  destruct (parse_share_modes E (locking_key fid) v st) as [[p|] s1| |] eqn:Hp;
    [|done..].
  destruct (parse_share_modes_header E st s1 _ v p Hpull Hp) as (d & f & Hd & Hh).
  rewrite Hd. intros [= <-]. exists p, (set_record (Some rec) (set_id fid d)), f.
  simpl. by rewrite lookup_insert_eq.
Qed.

(** C5 (amended): a record created fresh takes its sequence number from
    the random source; a record obtained for a stored value carries the
    sequence number in the header of that value; and a write on the final
    release persists a blob whose header holds the held sequence number
    plus one modulo 2^64 -- strictly greater than the held number unless
    that was 2^64 - 1, in which case the persisted number wraps to 0. *)
Theorem sequence_number_protocol (E : env) :
  pull_header_agreement ->
  push_header_agreement ->
  (forall (st : state) (sp : string) (fname : smb_filename) (owt : Z),
      talloc_data E = true ->
      exists (p : positive) (d : share_mode_data),
        fresh_share_mode_lock E (Some sp) (Some fname) (Some owt) st
        = Done (Some p) (set_heap (<[p := d]> (heap st)) st)
        /\ sequence_number d = wrap64 (random_buffer E)
        /\ fresh d = true)
  /\ (forall (st st' : state) (rec : db_record) (v : blob) (fid : file_id)
        (sp : option string) (fname : option smb_filename) (owt : option Z),
      rec_value rec = Some v ->
      get_static_share_mode_data E rec fid sp fname owt st
      = Done NT_STATUS_OK st' ->
      exists (p : positive) (d : share_mode_data) (f : Z),
        static_share_mode_data st' = Some p
        /\ heap st' !! p = Some d
        /\ record d = Some rec
        /\ blob_header v = Some (sequence_number d, f))
  /\ (forall (st : state) (p : positive) (d : share_mode_data)
        (rec : db_record) (db : db_context) (b : blob),
      static_share_mode_data st = Some p ->
      heap st !! p = Some d ->
      static_share_mode_data_refcount st = 1 ->
      static_share_mode_record st = Some rec ->
      record d = Some rec ->
      lock_db st = Some db ->
      modified d = true ->
      remove_stale_share_mode_entries (share_modes d) <> [] ->
      ndr_push_share_mode_data (data_to_store d) = inl b ->
      store_status E = NT_STATUS_OK ->
      0 <= flags d < 256 ->
      exists st' : state,
        share_mode_lock_destructor E st = Done 0 st'
        /\ lock_db st' = Some (mk_db_context (<[rec_key rec := b]> (db_data db))
                                 (db_seqnum db + 1))
        /\ blob_header b = Some (wrap64 (sequence_number d + 1), flags d)
        /\ (0 <= sequence_number d < 2 ^ 64 - 1 ->
            sequence_number d < wrap64 (sequence_number d + 1))
        /\ (sequence_number d = 2 ^ 64 - 1 ->
            wrap64 (sequence_number d + 1) = 0)).
Proof.
  intros Hpull Hpush. split; [|split].
  - intros st sp fname owt HE. unfold fresh_share_mode_lock. rewrite HE.
    mrun. by eexists _, _.
  - intros st st' rec v fid sp fname owt Hv Hrun.
    by eapply get_static_share_mode_data_header.
  - intros st p d rec db b Hsd Hp Hrc Hsr Hrec Hdb Hm Hes Hb HE Hfl.
    destruct (destructor_after_store E st _ p (data_to_store d) rec Hrc Hsd
                (store_write E (set_refcount 0 st) p d rec db b
                   Hp Hm Hes Hb Hrec Hdb HE))
      as (st' & Hrun & Hdb' & _); [simpl; apply lookup_insert_eq|done|done|].
    exists st'. split; [done|]. split; [done|]. split; [|split].
    + apply (Hpush b (data_to_store d) Hb); simpl; [|done].
      unfold wrap64. apply Z.mod_pos_bound. lia.
    + intros Hr. rewrite wrap64_small; lia.
    + intros ->. done.
Qed.

(** *** Cleanup after a disconnected owner *)

Lemma cleanup_entries_ok_forallb (open_id : Z) (es : list share_mode_entry) :
  cleanup_entries_ok open_id es
  = forallb (fun e => server_id_is_disconnected (pid e)
                      && (share_file_id e =? open_id)) es.
Proof.
  induction es as [|e es IH]; [done|]. simpl.
  destruct (server_id_is_disconnected (pid e)); [|done]. simpl.
  rewrite (Z.eqb_sym (share_file_id e)).
  by destruct (open_id =? share_file_id e).
Qed.

Lemma calls_issue (cs : list call) (st : state) :
  calls (issue cs st) = rev cs ++ calls st.
Proof.
  unfold issue. revert st. induction cs as [|c cs IH]; intros st; [done|].
  simpl. rewrite IH. simpl. by rewrite <- app_assoc.
Qed.

Lemma heap_issue (cs : list call) (st : state) : heap (issue cs st) = heap st.
Proof.
  unfold issue. revert st. induction cs as [|c cs IH]; intros st; [done|].
  simpl. by rewrite IH.
Qed.

Lemma cleanup_disconnected_lease_run (st : state) (p : positive)
    (d : share_mode_data) (e : share_mode_entry) :
  heap st !! p = Some d ->
  cleanup_disconnected_lease (mk_share_mode_lock (Some p)) e st
  = Done false
      (add_call (leases_db_del_call (client_guid e) (lease_key e) (id d)) st).
Proof.
  intros Hp. unfold cleanup_disconnected_lease, leases_db_del. mrun.
  by rewrite Hp.
Qed.

Lemma forall_leases_loop_cleanup (st : state) (p : positive)
    (d : share_mode_data) (es : list share_mode_entry) :
  heap st !! p = Some d ->
  share_mode_forall_leases_loop (mk_share_mode_lock (Some p))
    cleanup_disconnected_lease es st
  = Done true
      (issue ((fun e => leases_db_del_call (client_guid e) (lease_key e) (id d))
                <$> es) st).
Proof.
  revert st. induction es as [|e es IH]; intros st Hp; [done|].
  simpl. unfold mbind, M_bind.
  rewrite (cleanup_disconnected_lease_run _ _ _ _ Hp). by rewrite IH.
Qed.

Lemma cleanup_locked_result (E : env) (fid : file_id)
    (open_persistent_id : Z) (st : state) (p : positive)
    (d : share_mode_data) :
  heap st !! p = Some d ->
  let lck := mk_share_mode_lock (Some p) in
  let all_ok :=
    forallb (fun e => server_id_is_disconnected (pid e)
                      && (share_file_id e =? open_persistent_id))
      (share_modes d) in
  let st_called :=
    issue (((fun e => leases_db_del_call (client_guid e) (lease_key e) (id d))
              <$> share_modes d)
           ++ [brl_cleanup_disconnected_call fid open_persistent_id]) st in
  cleanup_disconnected_locked E fid open_persistent_id lck st
  = (if all_ok
     then
       if brl_cleanup_ok E
       then Done true
              (set_heap (<[p := set_modified true (set_share_modes [] d)]>
                           (heap st)) st_called)
       else Done false st_called
     else Done false st).
Proof.
  intros Hp lck all_ok st_called.
  unfold cleanup_disconnected_locked, share_mode_forall_leases,
    brl_cleanup_disconnected. subst lck. mrun. rewrite Hp. simpl.
  rewrite cleanup_entries_ok_forallb. fold all_ok.
  destruct all_ok; [|done]. mrun. rewrite Hp.
  rewrite (forall_leases_loop_cleanup _ _ _ _ Hp).
  subst st_called. unfold issue. rewrite foldl_app. simpl.
  fold (issue ((fun e => leases_db_del_call (client_guid e) (lease_key e)
                           (id d)) <$> share_modes d) st).
  destruct (brl_cleanup_ok E); simpl; [|done].
  rewrite heap_issue, Hp. simpl. by rewrite heap_issue.
Qed.

(** *** Traversal *)

Lemma traverse_records_counting {P : Type} (E : env)
    (visit : file_id -> share_mode_data -> P -> P)
    (recs : list db_record) (count : Z) (pd : P) (st : state) :
  talloc_data E = true ->
  traverse_records (share_mode_traverse_fn E (counting_visitor visit)) recs
    count pd st
  = Done (count + Z.of_nat (length recs),
          foldl (fun p fd => visit fd.1 fd.2 p) pd (decodable recs)) st.
Proof.
  intros HE. revert count pd.
  induction recs as [|r recs IH]; intros count pd.
  - simpl. unfold mret, M_ret. do 2 f_equal. lia.
  - simpl. unfold mbind, M_bind.
    unfold share_mode_traverse_fn at 1, dbwrap_record_get_key,
      dbwrap_record_get_value, counting_visitor.
    unfold decodable, decode_record in *. rewrite HE. simpl.
    destruct (length (rec_key r) =? sizeof_file_id)%nat; simpl.
    + destruct (ndr_pull_share_mode_data _) as [d|]; simpl;
        unfold mret, M_ret; simpl; rewrite IH; do 2 f_equal; lia.
    + unfold mret, M_ret. simpl. rewrite IH. do 2 f_equal. lia.
Qed.

Lemma length_omap_all {A B : Type} (f : A -> option B) (l : list A) :
  Forall (fun a => is_Some (f a)) l -> length (omap f l) = length l.
Proof.
  induction 1 as [|a l [b Hb] _ IH]; [done|]. simpl. by rewrite Hb, <- IH.
Qed.

(** C7 (amended): with a visitor that never asks to stop, the traversal
    shows the visitor exactly the records that decode, once each and in
    the store's order, skipping every other record without stopping; the
    value returned is the count reported by the store's traversal, which
    counts every record handed to the callback, the skipped ones too. For
    a store made of N valid records and one corrupt blob the visitor sees
    N records and the value returned is N + 1. *)
Theorem traversal_skips_corrupt {P : Type} (E : env)
    (visit : file_id -> share_mode_data -> P -> P) (pd : P) (st : state)
    (db : db_context) :
  lock_db st = Some db ->
  talloc_data E = true ->
  traverse_status E = NT_STATUS_OK ->
  share_mode_forall E (counting_visitor visit) pd st
  = Done (Z.of_nat (length (db_records db)),
          foldl (fun p fd => visit fd.1 fd.2 p) pd (decodable (db_records db)))
      (add_call dbwrap_traverse_read_call st)
  /\ (forall (kc vc : blob) (m0 : gmap blob blob),
      db_data db = <[kc := vc]> m0 ->
      m0 !! kc = None ->
      ndr_pull_share_mode_data vc = None ->
      (forall (k v : blob), m0 !! k = Some v ->
         length k = sizeof_file_id /\ is_Some (ndr_pull_share_mode_data v)) ->
      length (decodable (db_records db)) = size m0
      /\ Z.of_nat (length (db_records db)) = Z.of_nat (size m0) + 1).
Proof.
  intros Hdb HE Hst. split.
  - unfold share_mode_forall, dbwrap_traverse_read. mrun.
    rewrite Hdb, Hst. simpl.
    by rewrite (traverse_records_counting E visit _ 0 pd _ HE).
  - intros kc vc m0 Hm Hkc Hvc Hvalid.
    pose proof (map_to_list_insert m0 kc vc Hkc) as Hperm.
    unfold db_records. rewrite Hm.
    split.
    + unfold decodable. rewrite Hperm. simpl.
      unfold decode_record at 1. simpl. rewrite Hvc.
      destruct (length kc =? sizeof_file_id)%nat; simpl.
      all: rewrite length_omap_all, length_fmap;
        [by rewrite length_map_to_list| ].
      all: apply Forall_fmap, Forall_forall; intros [k v] Hin;
        apply elem_of_map_to_list in Hin;
        destruct (Hvalid k v Hin) as [Hlen [d Hd]];
        unfold decode_record; simpl; rewrite Hlen, Nat.eqb_refl, Hd; by eexists.
    + rewrite length_fmap, Hperm. simpl. rewrite length_map_to_list. lia.
Qed.

(** *** Reading a zero-length value without the lock *)

(** C8: for an identity whose stored value has length zero the parser
    leaves [state->lck] NULL. The synchronous fetch then returns NULL (no
    record). The asynchronous request, once it and its subrequest are
    allocated, completes without error, and fetch_share_mode_recv
    evaluates [state->parser_state.lck->data] on the NULL handle: instead
    of NT_STATUS_NOT_FOUND the receive ends in a NULL pointer
    dereference. *)
Theorem tombstone_fetch (E : env) (st : state) (db : db_context)
    (fid : file_id) :
  lock_db st = Some db ->
  db_data db !! locking_key fid = Some [] ->
  parse_record_status E = NT_STATUS_OK ->
  talloc_req E = true ->
  talloc_subreq E = true ->
  let st' := add_call (dbwrap_parse_record_call (locking_key fid)) st in
  let req := mk_fetch_share_mode_req NT_STATUS_OK None None in
  fetch_share_mode_unlocked E fid st = Done None st'
  /\ fetch_share_mode_send E fid st = Done (Some req, request_queued E) st'
  /\ fetch_share_mode_done req = req
  /\ fetch_share_mode_recv (fetch_share_mode_done req) st' = Fault.
Proof.
  intros Hdb Hv HE Hreq Hsub. simpl.
  unfold fetch_share_mode_unlocked, fetch_share_mode_send,
    dbwrap_parse_record_send, dbwrap_parse_record.
  rewrite Hreq, Hsub. mrun. rewrite Hdb, HE, Hv. done.
Qed.

(** *** Comparing keys *)

Lemma byte_to_Z_inj (x y : byte) : byte_to_Z x = byte_to_Z y -> x = y.
Proof.
  unfold byte_to_Z. intros Hxy. apply N2Z.inj in Hxy.
  pose proof (Byte.of_to_N x) as Hx. rewrite Hxy, Byte.of_to_N in Hx.
  by injection Hx.
Qed.

Lemma memcmp_refl (a : blob) (n : nat) : memcmp a a n = 0.
Proof.
  revert n. induction a as [|x a IH]; intros [|n]; simpl; try done.
  by rewrite decide_True.
Qed.

Lemma memcmp_0 (a b : blob) (n : nat) :
  memcmp a b n = 0 -> (n <= length a)%nat -> (n <= length b)%nat ->
  take n a = take n b.
Proof.
  revert a b. induction n as [|n IH]; intros a b; [done|].
  destruct a as [|x a], b as [|y b]; simpl; try lia.
  destruct (decide (x = y)) as [->|Hne].
  - intros Hc Ha Hb. f_equal. apply IH; [done|lia..].
  - intros Hc. exfalso. apply Hne, byte_to_Z_inj. lia.
Qed.

Lemma tdb_data_cmp_0 (a b : blob) : tdb_data_cmp a b = 0 <-> a = b.
Proof.
  unfold tdb_data_cmp. split.
  - destruct (Z.eqb_spec (memcmp a b (Nat.min (length a) (length b))) 0)
      as [Hm|]; [|done].
    intros Hlen. apply memcmp_0 in Hm; [|lia..].
    assert (length a = length b) as Hl by lia.
    rewrite Hl, Nat.min_id in Hm. rewrite <- Hl in Hm at 1.
    by rewrite !firstn_all in Hm.
  - intros ->. rewrite memcmp_refl. simpl. lia.
Qed.

(** *** A second identity *)

Lemma acquire_other_identity (E : env) (st : state) (A B : file_id)
    (servicepath : option string) (smb_fname : option smb_filename)
    (old_write_time : option Z) :
  slot_occupied st A ->
  A <> B ->
  get_share_mode_lock E B servicepath smb_fname old_write_time st
  = Done None st.
Proof.
  intros [p d Hsd Hp Hid|r Hsd Hrc Hsr Hkey] Hne; unfold get_share_mode_lock;
    (destruct (talloc_lck E); simpl; [|done]); munfold.
  - rewrite Hsd, Hp.
    unfold file_id_equal. rewrite Hid, bool_decide_eq_false_2 by done.
    done.
  - rewrite Hsd, Hrc. mrun. rewrite Hsr. mrun. unfold dbwrap_record_get_key.
    destruct (Z.eqb_spec (tdb_data_cmp (rec_key r) (locking_key B)) 0)
      as [Hc|Hc]; [|done].
    apply tdb_data_cmp_0 in Hc. rewrite Hkey in Hc. done.
Qed.

(** C2: while the process-local slot is occupied for identity [A] --
    the share mode data of [A] is held (first rejection path), or only
    the record lock of [A] is held, as inside the callback of
    share_mode_do_locked (second rejection path) -- an acquisition for a
    different identity [B] fails (NULL handle) and leaves the whole
    process state unchanged, in particular the held record, the record
    lock and the refcount, whatever the store contains and whatever the
    environment answers. The second situation does arise: when
    share_mode_do_locked for [A], started on a free slot, runs a callback
    that tries to acquire [B], the callback gets NULL and the call
    returns NT_STATUS_OK with the slot free again. *)
Theorem cross_identity_exclusion (E : env) (st : state) (A B : file_id)
    (servicepath : option string) (smb_fname : option smb_filename)
    (old_write_time : option Z) :
  A <> B ->
  (slot_occupied st A ->
   get_share_mode_lock E B servicepath smb_fname old_write_time st
   = Done None st)
  /\ (forall db : db_context,
      lock_db st = Some db ->
      static_share_mode_data st = None ->
      static_share_mode_data_refcount st = 0 ->
      static_share_mode_record st = None ->
      do_locked_status E = NT_STATUS_OK ->
      share_mode_do_locked E A
        (acquire_in_callback E B servicepath smb_fname old_write_time)
        (Some (mk_share_mode_lock None)) st
      = Done (NT_STATUS_OK, None)
          (mk_state (lock_db st) (heap st) (memcache st) None 0 None false
             (dbwrap_do_locked_call (locking_key A) :: calls st))).
Proof.
  intros Hne. split; [intros Hocc; by apply (acquire_other_identity _ _ A)|].
  intros db Hdb Hsd Hrc Hsr HE.
  destruct st as [ldb hp mc sd rc sr tl cl]; simpl in * |-; subst.
  unfold share_mode_do_locked, dbwrap_do_locked, share_mode_do_locked_fn,
    acquire_in_callback.
  mrun. rewrite HE. mrun.
  match goal with
  | |- context [get_share_mode_lock E B ?sp ?fn ?owt ?s] =>
      rewrite (acquire_other_identity E s A B sp fn owt)
        by first [done | by eapply record_held]
  end.
  done.
Qed.

(** *** share_mode_do_locked *)

Lemma do_locked_refcount {P : Type} (E : env) (fid : file_id)
    (fn : do_locked_fn P) (pd pd' : P) (st st' : state) :
  share_mode_do_locked E fid fn pd st = Done (NT_STATUS_OK, pd') st' ->
  static_share_mode_data_refcount st' = static_share_mode_data_refcount st.
Proof.
  unfold share_mode_do_locked.
  unfold mbind at 1, M_bind at 1, gets at 1.
  unfold mbind at 1, M_bind at 1, gets at 1.
  unfold mbind at 1, M_bind at 1.
  match goal with |- context [match ?m st with _ => _ end] =>
    destruct (m st) as [[[s|] p] s1| |] eqn:Hr end; [| |done..].
  - (* an early return never carries NT_STATUS_OK *)
    intros [= -> <- <-]. exfalso.
    destruct (static_share_mode_record st) as [rec|].
    + destruct (negb (tdb_data_cmp (dbwrap_record_get_key rec)
                        (locking_key fid) =? 0)); [done|].
      unfold mbind, M_bind in Hr.
      destruct (fn rec false pd st) as [[md q] s2| |]; [|done..].
      by destruct (when md _ s2).
    + unfold mbind, M_bind in Hr.
      destruct (dbwrap_do_locked E (locking_key fid) _ pd st)
        as [[s q] s2| |]; [|done..].
      by destruct s.
  - mrun.
    destruct (Z.eqb_spec (static_share_mode_data_refcount st)
                (static_share_mode_data_refcount s1)); [|done].
    by intros [= <- <-].
Qed.

(** C9: with a record held (static_share_mode_record set), a call for the
    identity of the held record runs [fn] on that record, wakes the
    watchers if [fn] asks for it and returns NT_STATUS_OK, provided [fn]
    itself leaves the refcount as it found it; a call for another
    identity returns NT_STATUS_INVALID_LOCK_SEQUENCE without running
    [fn] and without any change of state; and whenever the call returns
    NT_STATUS_OK the refcount is what it was before the call. *)
Theorem do_locked_reentrant {P : Type} (E : env) (fid : file_id)
    (fn : do_locked_fn P) (pd : P) (st : state) (rec : db_record) :
  static_share_mode_record st = Some rec ->
  (rec_key rec = locking_key fid ->
   forall (md : bool) (pd' : P) (s1 : state),
     fn rec false pd st = Done (md, pd') s1 ->
     static_share_mode_data_refcount s1 = static_share_mode_data_refcount st ->
     static_share_mode_record s1 = Some rec ->
     share_mode_do_locked E fid fn pd st
     = Done (NT_STATUS_OK, pd')
         (if md then add_call (dbwrap_watched_wakeup_call (rec_key rec)) s1
          else s1))
  /\ (rec_key rec <> locking_key fid ->
      share_mode_do_locked E fid fn pd st
      = Done (NT_STATUS_INVALID_LOCK_SEQUENCE, pd) st)
  /\ (forall (pd' : P) (st' : state),
      share_mode_do_locked E fid fn pd st = Done (NT_STATUS_OK, pd') st' ->
      static_share_mode_data_refcount st'
      = static_share_mode_data_refcount st).
Proof.
  intros Hsr. split; [|split].
  - intros Hkey md pd' s1 Hfn Hrc Hsr1.
    unfold share_mode_do_locked, dbwrap_record_get_key.
    unfold mbind at 1, M_bind at 1, gets at 1.
    unfold mbind at 1, M_bind at 1, gets at 1. rewrite Hsr.
    assert (tdb_data_cmp (rec_key rec) (locking_key fid) = 0) as ->
      by by apply tdb_data_cmp_0.
    simpl. unfold mbind, M_bind. rewrite Hfn.
    destruct md; mrun; rewrite ?Hsr1; simpl; rewrite Hrc, Z.eqb_refl; done.
  - intros Hkey.
    unfold share_mode_do_locked, dbwrap_record_get_key.
    unfold mbind at 1, M_bind at 1, gets at 1.
    unfold mbind at 1, M_bind at 1, gets at 1. rewrite Hsr.
    destruct (Z.eqb_spec (tdb_data_cmp (rec_key rec) (locking_key fid)) 0)
      as [Hc|]; [by apply tdb_data_cmp_0 in Hc|].
    done.
  - intros pd' st'. apply do_locked_refcount.
Qed.

(** *** The cached read-lease flag *)

(** C10: file_has_read_lease answers from the cached flags when the
    store's sequence number is the one remembered for the open file.
    Otherwise it refreshes through share_mode_do_locked: if that call
    does not return NT_STATUS_OK, or if the header peek made under the
    lock reports an error, the answer is true and the cached flags are
    left as they were; only when both succeed are the flags replaced by
    the byte read from the header and the read-lease bit of that byte
    returned. *)
Theorem read_lease_safe_default (E : env) (fsp : files_struct) (st : state)
    (db : db_context) :
  lock_db st = Some db ->
  let bit := fun fl : Z => negb (Z.land fl SHARE_MODE_HAS_READ_LEASE =? 0) in
  (db_seqnum db = share_mode_flags_seqnum fsp ->
   file_has_read_lease E fsp st = Done (bit (share_mode_flags fsp), fsp) st)
  /\ (db_seqnum db <> share_mode_flags_seqnum fsp ->
      forall (status : NTSTATUS) (fs : fsp_update_share_mode_flags_state)
        (st' : state),
        share_mode_do_locked E (fsp_file_id fsp)
          fsp_update_share_mode_flags_fn (mk_flags_state NDR_ERR_SUCCESS 0) st
        = Done (status, fs) st' ->
        file_has_read_lease E fsp st
        = (if NT_STATUS_IS_OK status
              && NDR_ERR_CODE_IS_SUCCESS (ndr_err fs)
           then Done (bit (state_share_mode_flags fs),
                      mk_files_struct (fsp_file_id fsp) (db_seqnum db)
                        (state_share_mode_flags fs)) st'
           else Done (true, fsp) st')).
Proof.
  intros Hdb bit. split.
  - intros Hseq. unfold file_has_read_lease, fsp_update_share_mode_flags.
    mrun. rewrite Hdb, Hseq, Z.eqb_refl. done.
  - intros Hseq status fs st' Hrun.
    unfold file_has_read_lease, fsp_update_share_mode_flags.
    unfold mbind at 1, M_bind at 1. unfold mbind at 1, M_bind at 1, gets at 1.
    rewrite Hdb.
    destruct (Z.eqb_spec (db_seqnum db) (share_mode_flags_seqnum fsp));
      [done|].
    unfold mbind at 1, M_bind at 1. rewrite Hrun.
    destruct status; simpl; try done.
    destruct (ndr_err fs); simpl; done.
Qed.

End properties.

(** * Further properties of the lock manager *)

Section further_properties.
Context `{Externals}.

(** ** Acquisition on a free slot *)

Lemma memcache_fetch_absent (st : state) (key v : blob) :
  memcache st !! memcache_key key = None ->
  share_mode_memcache_fetch key v st = Done None st.
Proof.
  intros Hc. unfold share_mode_memcache_fetch, memcache_lookup_talloc.
  destruct (negb (length key =? sizeof_file_id)%nat); [done|].
  mrun. by rewrite Hc.
Qed.

Lemma acquire_existing_run (E : env) (st : state) (db : db_context)
    (fid : file_id) (v : blob) (d0 : share_mode_data)
    (sp : option string) (fname : option smb_filename) (owt : option Z) :
  talloc_lck E = true -> talloc_data E = true -> fetch_locked_ok E = true ->
  lock_db st = Some db ->
  db_data db !! locking_key fid = Some v ->
  static_share_mode_data st = None ->
  static_share_mode_data_refcount st = 0 ->
  static_share_mode_record st = None ->
  memcache st !! memcache_key fid = None ->
  ndr_pull_share_mode_data v = Some d0 ->
  let p := talloc_addr (heap st) in
  let rec := mk_db_record (locking_key fid) (Some v) in
  get_share_mode_lock E fid sp fname owt st
  = Done (Some (mk_share_mode_lock (Some p)))
      (mk_state (lock_db st)
         (<[p := set_record (Some rec) (set_id fid d0)]> (heap st))
         (memcache st) (Some p) 1 (Some rec) true
         (dbwrap_fetch_locked_call (locking_key fid) :: calls st)).
Proof.
  intros Hl Hd Hf Hdb Hv Hsd Hrc Hsr Hc Hpull p rec.
  destruct st as [ldb hp mc sd rc sr tl cl]; simpl in * |-; subst.
  unfold get_share_mode_lock, dbwrap_fetch_locked, get_static_share_mode_data,
    dbwrap_record_get_value, parse_share_modes.
  rewrite Hl.
  repeat (progress (mrun; rewrite ?Hsd, ?Hrc, ?Hsr, ?Hdb, ?Hf, ?Hv, ?Hd,
                      ?Hpull, ?lookup_insert_eq, ?insert_insert_eq;
                    try rewrite memcache_fetch_absent by exact Hc)).
  done.
Qed.

Lemma acquire_fresh_run (E : env) (st : state) (db : db_context)
    (fid : file_id) (sp : string) (fname : smb_filename) (owt : Z) :
  talloc_lck E = true -> talloc_data E = true -> fetch_locked_ok E = true ->
  lock_db st = Some db ->
  db_data db !! locking_key fid = None ->
  static_share_mode_data st = None ->
  static_share_mode_data_refcount st = 0 ->
  static_share_mode_record st = None ->
  let p := talloc_addr (heap st) in
  let rec := mk_db_record (locking_key fid) None in
  get_share_mode_lock E fid (Some sp) (Some fname) (Some owt) st
  = Done (Some (mk_share_mode_lock (Some p)))
      (mk_state (lock_db st)
         (<[p := mk_share_mode_data (wrap64 (random_buffer E)) 0 sp
                   (fname_base_name fname) (fname_stream_name fname) [] owt
                   fid true false (Some rec)]> (heap st))
         (memcache st) (Some p) 1 (Some rec) true
         (dbwrap_fetch_locked_call (locking_key fid) :: calls st)).
Proof.
  intros Hl Hd Hf Hdb Hv Hsd Hrc Hsr p rec.
  destruct st as [ldb hp mc sd rc sr tl cl]; simpl in * |-; subst.
  unfold get_share_mode_lock, dbwrap_fetch_locked, get_static_share_mode_data,
    dbwrap_record_get_value, fresh_share_mode_lock.
  rewrite Hl.
  repeat (progress (mrun; rewrite ?Hsd, ?Hrc, ?Hsr, ?Hdb, ?Hf, ?Hv, ?Hd,
                      ?lookup_insert_eq, ?insert_insert_eq)).
  done.
Qed.

Lemma acquire_missing_run (E : env) (st : state) (db : db_context)
    (fid : file_id) (sp : option string) (fname : option smb_filename)
    (owt : option Z) :
  talloc_lck E = true -> fetch_locked_ok E = true ->
  lock_db st = Some db ->
  db_data db !! locking_key fid = None ->
  static_share_mode_data st = None ->
  static_share_mode_data_refcount st = 0 ->
  static_share_mode_record st = None ->
  sp = None \/ fname = None \/ owt = None ->
  get_share_mode_lock E fid sp fname owt st
  = Done None
      (mk_state (lock_db st) (heap st) (memcache st) None 0 None true
         (dbwrap_record_free_call (locking_key fid)
          :: dbwrap_fetch_locked_call (locking_key fid) :: calls st)).
Proof.
  intros Hl Hf Hdb Hv Hsd Hrc Hsr Hnone.
  destruct st as [ldb hp mc sd rc sr tl cl]; simpl in * |-; subst.
  unfold get_share_mode_lock, dbwrap_fetch_locked, get_static_share_mode_data,
    dbwrap_record_get_value, fresh_share_mode_lock.
  rewrite Hl.
  repeat (progress (mrun; rewrite ?Hsd, ?Hrc, ?Hsr, ?Hdb, ?Hf, ?Hv)).
  assert (match sp, fname, owt with
          | Some _, Some _, Some _ => False
          | _, _, _ => True
          end) as Hcase
    by (destruct Hnone as [->|[->| ->]]; [done|by destruct sp|
        by destruct sp, fname]).
  destruct sp, fname, owt; try done; mrun; done.
Qed.

(** ** The final release *)

Lemma release_unmodified_run (E : env) (st : state) (p : positive)
    (d : share_mode_data) (rec : db_record) :
  static_share_mode_data st = Some p ->
  heap st !! p = Some d ->
  static_share_mode_data_refcount st = 1 ->
  static_share_mode_record st = Some rec ->
  static_share_mode_record_talloced st = true ->
  record d = Some rec ->
  modified d = false ->
  share_modes d <> [] ->
  memcache st !! memcache_key (id d) = None ->
  share_mode_lock_destructor E st
  = Done 0
      (mk_state (lock_db st) (<[p := cache_clean d]> (heap st))
         (<[memcache_key (id d) := p]> (memcache st)) None 0 None true
         (dbwrap_record_free_call (rec_key rec) :: calls st)).
Proof.
  intros Hsd Hp Hrc Hsr Ht Hrec Hm Hes Hc.
  destruct st as [ldb hp mc sd rc sr tl cl]; simpl in * |-; subst.
  unfold share_mode_lock_destructor, share_mode_data_store,
    share_mode_memcache_store, memcache_add_talloc, memcache_delete.
  assert ((num_share_modes d =? 0)%nat = false) as Hn
    by (unfold num_share_modes; destruct (share_modes d); done).
  repeat (progress (mrun; rewrite ?Hrc, ?Hsd, ?Hp, ?Hm, ?Hsr, ?Hrec, ?Ht, ?Hn,
                      ?Hc, ?lookup_insert_eq, ?insert_insert_eq;
                    rewrite ?bool_decide_eq_true_2 by done)).
  done.
Qed.

Lemma release_unmodified_empty_run (E : env) (st : state) (p : positive)
    (d : share_mode_data) (rec : db_record) :
  static_share_mode_data st = Some p ->
  heap st !! p = Some d ->
  static_share_mode_data_refcount st = 1 ->
  static_share_mode_record st = Some rec ->
  static_share_mode_record_talloced st = true ->
  record d = Some rec ->
  modified d = false ->
  share_modes d = [] ->
  share_mode_lock_destructor E st
  = Done 0
      (mk_state (lock_db st) (delete p (heap st)) (memcache st) None 0 None
         true (dbwrap_record_free_call (rec_key rec) :: calls st)).
Proof.
  intros Hsd Hp Hrc Hsr Ht Hrec Hm Hes.
  destruct st as [ldb hp mc sd rc sr tl cl]; simpl in * |-; subst.
  unfold share_mode_lock_destructor, share_mode_data_store.
  assert ((num_share_modes d =? 0)%nat = true) as Hn
    by (unfold num_share_modes; by rewrite Hes).
  repeat (progress (mrun; rewrite ?Hrc, ?Hsd, ?Hp, ?Hm, ?Hsr, ?Hrec, ?Ht, ?Hn,
                      ?lookup_insert_eq, ?insert_insert_eq;
                    rewrite ?bool_decide_eq_true_2 by done)).
  by rewrite delete_insert_eq.
Qed.

Lemma release_modified_delete_run (E : env) (st : state) (p : positive)
    (d : share_mode_data) (rec : db_record) (db : db_context) :
  static_share_mode_data st = Some p ->
  heap st !! p = Some d ->
  static_share_mode_data_refcount st = 1 ->
  static_share_mode_record st = Some rec ->
  static_share_mode_record_talloced st = true ->
  record d = Some rec ->
  lock_db st = Some db ->
  modified d = true ->
  remove_stale_share_mode_entries (share_modes d) = [] ->
  fresh d = false ->
  delete_status E = NT_STATUS_OK ->
  share_mode_lock_destructor E st
  = Done 0
      (mk_state
         (Some (mk_db_context (delete (rec_key rec) (db_data db))
                  (db_seqnum db + 1)))
         (delete p (heap st)) (memcache st) None 0 None true
         (dbwrap_record_free_call (rec_key rec)
          :: dbwrap_record_delete_call (rec_key rec) :: calls st)).
Proof.
  intros Hsd Hp Hrc Hsr Ht Hrec Hdb Hm Hes Hf HE.
  destruct st as [ldb hp mc sd rc sr tl cl]; simpl in * |-; subst.
  unfold share_mode_lock_destructor, share_mode_data_store,
    dbwrap_record_delete.
  assert ((num_share_modes (data_to_store d) =? 0)%nat = true) as Hn
    by (unfold num_share_modes, data_to_store; simpl; by rewrite Hes).
  assert (fresh (data_to_store d) = false) as Hf' by done.
  assert (record (data_to_store d) = Some rec) as Hrec' by done.
  repeat (progress (mrun; rewrite ?Hrc, ?Hsd, ?Hp, ?Hm, ?Hsr, ?Ht, ?Hn, ?Hf',
                      ?Hrec', ?Hf, ?Hrec, ?Hdb, ?HE, ?lookup_insert_eq,
                      ?insert_insert_eq;
                    rewrite ?bool_decide_eq_true_2 by done)).
  by rewrite delete_insert_eq.
Qed.

Lemma release_modified_write_run (E : env) (st : state) (p : positive)
    (d : share_mode_data) (rec : db_record) (db : db_context) (b : blob) :
  static_share_mode_data st = Some p ->
  heap st !! p = Some d ->
  static_share_mode_data_refcount st = 1 ->
  static_share_mode_record st = Some rec ->
  static_share_mode_record_talloced st = true ->
  record d = Some rec ->
  lock_db st = Some db ->
  modified d = true ->
  remove_stale_share_mode_entries (share_modes d) <> [] ->
  ndr_push_share_mode_data (data_to_store d) = inl b ->
  store_status E = NT_STATUS_OK ->
  memcache st !! memcache_key (id d) = None ->
  share_mode_lock_destructor E st
  = Done 0
      (mk_state
         (Some (mk_db_context (<[rec_key rec := b]> (db_data db))
                  (db_seqnum db + 1)))
         (<[p := cache_clean (data_to_store d)]> (heap st))
         (<[memcache_key (id d) := p]> (memcache st)) None 0 None true
         (dbwrap_record_free_call (rec_key rec)
          :: dbwrap_record_store_call (rec_key rec) b :: calls st)).
Proof.
  intros Hsd Hp Hrc Hsr Ht Hrec Hdb Hm Hes Hb HE Hc.
  destruct st as [ldb hp mc sd rc sr tl cl]; simpl in * |-; subst.
  unfold share_mode_lock_destructor, share_mode_data_store,
    dbwrap_record_store, share_mode_memcache_store, memcache_add_talloc,
    memcache_delete.
  assert ((num_share_modes (data_to_store d) =? 0)%nat = false) as Hn.
  { unfold num_share_modes, data_to_store. simpl.
    by destruct (remove_stale_share_mode_entries (share_modes d)). }
  assert (record (data_to_store d) = Some rec) as Hrec' by done.
  assert (id (data_to_store d) = id d) as Hid by done.
  repeat (progress (mrun; rewrite ?Hrc, ?Hsd, ?Hp, ?Hm, ?Hsr, ?Ht, ?Hn, ?Hb,
                      ?Hrec', ?Hid, ?Hrec, ?Hdb, ?HE, ?Hc, ?lookup_insert_eq,
                      ?insert_insert_eq;
                    rewrite ?bool_decide_eq_true_2 by done)).
  done.
Qed.

Lemma memcache_fetch_hit (st : state) (fid : file_id) (v : blob)
    (p : positive) (d : share_mode_data) (f : Z) :
  length fid = sizeof_file_id ->
  memcache st !! memcache_key fid = Some p ->
  heap st !! p = Some d ->
  blob_header v = Some (sequence_number d, f) ->
  share_mode_memcache_fetch (locking_key fid) v st
  = Done (Some p) (set_memcache (delete (memcache_key fid) (memcache st)) st).
Proof.
  intros Hlen Hc Hp Hh.
  unfold share_mode_memcache_fetch, memcache_lookup_talloc, memcache_delete,
    locking_key, memcache_key in *.
  rewrite Hlen, Nat.eqb_refl. mrun. rewrite Hc.
  unfold blob_header in Hh.
  destruct (get_share_mode_blob_header v 0 0) as [[e seq] fl].
  destruct e; try done. injection Hh as -> ->. simpl.
  rewrite Hp, Z.eqb_refl. simpl. by rewrite Hc.
Qed.

Lemma acquire_cached_run (E : env) (st : state) (db : db_context)
    (fid : file_id) (v : blob) (p : positive) (d : share_mode_data) (f : Z)
    (sp : option string) (fname : option smb_filename) (owt : option Z) :
  talloc_lck E = true -> fetch_locked_ok E = true ->
  lock_db st = Some db ->
  db_data db !! locking_key fid = Some v ->
  static_share_mode_data st = None ->
  static_share_mode_data_refcount st = 0 ->
  static_share_mode_record st = None ->
  length fid = sizeof_file_id ->
  memcache st !! memcache_key fid = Some p ->
  heap st !! p = Some d ->
  blob_header v = Some (sequence_number d, f) ->
  let rec := mk_db_record (locking_key fid) (Some v) in
  get_share_mode_lock E fid sp fname owt st
  = Done (Some (mk_share_mode_lock (Some p)))
      (mk_state (lock_db st)
         (<[p := set_record (Some rec) (set_id fid d)]> (heap st))
         (delete (memcache_key fid) (memcache st)) (Some p) 1 (Some rec) true
         (dbwrap_fetch_locked_call (locking_key fid) :: calls st)).
Proof.
  intros Hl Hf Hdb Hv Hsd Hrc Hsr Hlen Hc Hp Hh rec.
  destruct st as [ldb hp mc sd rc sr tl cl]; simpl in * |-; subst.
  unfold get_share_mode_lock, dbwrap_fetch_locked, get_static_share_mode_data,
    dbwrap_record_get_value, parse_share_modes.
  rewrite Hl.
  repeat (progress (mrun; rewrite ?Hsd, ?Hrc, ?Hsr, ?Hdb, ?Hf, ?Hv,
                      ?lookup_insert_eq, ?insert_insert_eq;
                    try rewrite (memcache_fetch_hit _ fid v p d f Hlen)
                      by first [exact Hc | exact Hp | exact Hh];
                    rewrite ?Hp)).
  done.
Qed.

(** ** Acquisition and release composed *)

(** X1: on a free slot, acquiring the stored record of an identity that
    is not cached and releasing the handle without a change leaves the
    slot free and the store as it was: the only calls are the locked
    fetch and the release of the record lock, and the decoded record,
    stamped with the identity, clean and without record lock, ends up in
    the cache. *)
Theorem acquire_release_round_trip (E1 E2 : env) (st : state)
    (db : db_context) (fid : file_id) (v : blob) (d0 : share_mode_data)
    (sp : option string) (fname : option smb_filename) (owt : option Z) :
  talloc_lck E1 = true -> talloc_data E1 = true -> fetch_locked_ok E1 = true ->
  lock_db st = Some db ->
  db_data db !! locking_key fid = Some v ->
  static_share_mode_data st = None ->
  static_share_mode_data_refcount st = 0 ->
  static_share_mode_record st = None ->
  memcache st !! memcache_key fid = None ->
  ndr_pull_share_mode_data v = Some d0 ->
  modified d0 = false ->
  share_modes d0 <> [] ->
  let p := talloc_addr (heap st) in
  (lck ← get_share_mode_lock E1 fid sp fname owt;
   share_mode_lock_destructor E2;; mret lck) st
  = Done (Some (mk_share_mode_lock (Some p)))
      (mk_state (lock_db st) (<[p := cache_clean (set_id fid d0)]> (heap st))
         (<[memcache_key fid := p]> (memcache st)) None 0 None true
         (dbwrap_record_free_call (locking_key fid)
          :: dbwrap_fetch_locked_call (locking_key fid) :: calls st)).
Proof.
  intros Hl Hd Hf Hdb Hv Hsd Hrc Hsr Hc Hpull Hm Hes p.
  rewrite (bind_Done _ _ _ _ _
             (acquire_existing_run E1 st db fid v d0 sp fname owt
                Hl Hd Hf Hdb Hv Hsd Hrc Hsr Hc Hpull)).
  fold p. unfold mbind, M_bind.
  rewrite (release_unmodified_run E2 _ p
             (set_record (Some (mk_db_record (locking_key fid) (Some v)))
                (set_id fid d0))
             (mk_db_record (locking_key fid) (Some v)))
    by (simpl; first [done | apply lookup_insert_eq]).
  simpl. by rewrite insert_insert_eq.
Qed.

(** X2: releasing an unmodified record with entries and acquiring the
    same identity again, while the stored value still carries the
    record's sequence number, hands back the very same heap record: it
    comes out of the cache, nothing is allocated or decoded, and the
    cache is as before. *)
Theorem release_reacquire_reuses_cache (E1 E2 : env) (st : state)
    (db : db_context) (p : positive) (d : share_mode_data) (rec : db_record)
    (v : blob) (f : Z) (sp : option string) (fname : option smb_filename)
    (owt : option Z) :
  static_share_mode_data st = Some p ->
  heap st !! p = Some d ->
  static_share_mode_data_refcount st = 1 ->
  static_share_mode_record st = Some rec ->
  static_share_mode_record_talloced st = true ->
  record d = Some rec ->
  modified d = false ->
  share_modes d <> [] ->
  memcache st !! memcache_key (id d) = None ->
  lock_db st = Some db ->
  db_data db !! locking_key (id d) = Some v ->
  blob_header v = Some (sequence_number d, f) ->
  length (id d) = sizeof_file_id ->
  talloc_lck E2 = true -> fetch_locked_ok E2 = true ->
  let rec' := mk_db_record (locking_key (id d)) (Some v) in
  (share_mode_lock_destructor E1;;
   get_share_mode_lock E2 (id d) sp fname owt) st
  = Done (Some (mk_share_mode_lock (Some p)))
      (mk_state (lock_db st)
         (<[p := set_record (Some rec') (set_id (id d) (cache_clean d))]>
            (heap st))
         (memcache st) (Some p) 1 (Some rec') true
         (dbwrap_fetch_locked_call (locking_key (id d))
          :: dbwrap_record_free_call (rec_key rec) :: calls st)).
Proof.
  intros Hsd Hp Hrc Hsr Ht Hrec Hm Hes Hc Hdb Hv Hh Hlen Hl Hf rec'.
  rewrite (bind_Done _ _ _ _ _
             (release_unmodified_run E1 st p d rec
                Hsd Hp Hrc Hsr Ht Hrec Hm Hes Hc)).
  rewrite (acquire_cached_run E2 _ db (id d) v p (cache_clean d) f)
    by (simpl; first [done | apply lookup_insert_eq]).
  simpl. by rewrite insert_insert_eq, delete_insert_eq, delete_id.
Qed.

(** X3: acquiring an identity that has no record in the store creates a
    fresh record; releasing the handle without adding an entry writes
    nothing, caches nothing and frees the record: the heap, the cache and
    the store are as before, and the slot is free. *)
Theorem fresh_record_release_leaves_no_trace (E1 E2 : env) (st : state)
    (db : db_context) (fid : file_id) (sp : string) (fname : smb_filename)
    (owt : Z) :
  talloc_lck E1 = true -> talloc_data E1 = true -> fetch_locked_ok E1 = true ->
  lock_db st = Some db ->
  db_data db !! locking_key fid = None ->
  static_share_mode_data st = None ->
  static_share_mode_data_refcount st = 0 ->
  static_share_mode_record st = None ->
  (lck ← get_share_mode_lock E1 fid (Some sp) (Some fname) (Some owt);
   share_mode_lock_destructor E2;; mret lck) st
  = Done (Some (mk_share_mode_lock (Some (talloc_addr (heap st)))))
      (mk_state (lock_db st) (heap st) (memcache st) None 0 None true
         (dbwrap_record_free_call (locking_key fid)
          :: dbwrap_fetch_locked_call (locking_key fid) :: calls st)).
Proof.
  intros Hl Hd Hf Hdb Hv Hsd Hrc Hsr.
  rewrite (bind_Done _ _ _ _ _
             (acquire_fresh_run E1 st db fid sp fname owt
                Hl Hd Hf Hdb Hv Hsd Hrc Hsr)).
  unfold mbind, M_bind.
  rewrite (release_unmodified_empty_run E2 _ (talloc_addr (heap st))
             (mk_share_mode_data (wrap64 (random_buffer E1)) 0 sp
                (fname_base_name fname) (fname_stream_name fname) [] owt fid
                true false (Some (mk_db_record (locking_key fid) None)))
             (mk_db_record (locking_key fid) None))
    by (simpl; first [done | apply lookup_insert_eq]).
  simpl. by rewrite delete_insert_eq, delete_id by apply talloc_addr_fresh.
Qed.

(** X4: for an identity without a record in the store,
    share_mode_cleanup_disconnected returns false: the acquisition
    without creation parameters fails after the locked fetch, the record
    lock is released again, the slot stays free, and no lease or
    byte-range-lock call is made. *)
Theorem cleanup_without_record (E : env) (st : state) (db : db_context)
    (fid : file_id) (open_persistent_id : Z) :
  talloc_lck E = true -> fetch_locked_ok E = true ->
  lock_db st = Some db ->
  db_data db !! locking_key fid = None ->
  static_share_mode_data st = None ->
  static_share_mode_data_refcount st = 0 ->
  static_share_mode_record st = None ->
  share_mode_cleanup_disconnected E fid open_persistent_id st
  = Done false
      (mk_state (lock_db st) (heap st) (memcache st) None 0 None true
         (dbwrap_record_free_call (locking_key fid)
          :: dbwrap_fetch_locked_call (locking_key fid) :: calls st)).
Proof.
  intros Hl Hf Hdb Hv Hsd Hrc Hsr.
  unfold share_mode_cleanup_disconnected, get_existing_share_mode_lock.
  by rewrite (bind_Done _ _ _ _ _
                (acquire_missing_run E st db fid None None None
                   Hl Hf Hdb Hv Hsd Hrc Hsr (or_introl eq_refl))).
Qed.

Lemma issue_fields (cs : list call) (st : state) :
  issue cs st
  = mk_state (lock_db st) (heap st) (memcache st) (static_share_mode_data st)
      (static_share_mode_data_refcount st) (static_share_mode_record st)
      (static_share_mode_record_talloced st) (rev cs ++ calls st).
Proof.
  unfold issue. revert st. induction cs as [|c cs IH]; intros st.
  - by destruct st.
  - simpl. rewrite IH. simpl. by rewrite <- app_assoc.
Qed.

Lemma cleanup_locked_run (E : env) (fid : file_id) (open_persistent_id : Z)
    (st : state) (p : positive) (d : share_mode_data) :
  heap st !! p = Some d ->
  cleanup_entries_ok open_persistent_id (share_modes d) = true ->
  brl_cleanup_ok E = true ->
  cleanup_disconnected_locked E fid open_persistent_id
    (mk_share_mode_lock (Some p)) st
  = Done true
      (set_heap (<[p := set_modified true (set_share_modes [] d)]> (heap st))
         (issue (((fun e => leases_db_del_call (client_guid e) (lease_key e)
                              (id d)) <$> share_modes d)
                 ++ [brl_cleanup_disconnected_call fid open_persistent_id])
            st)).
Proof.
  intros Hp Hok Hbrl.
  unfold cleanup_disconnected_locked, share_mode_forall_leases,
    brl_cleanup_disconnected. mrun. rewrite Hp. simpl. rewrite Hok. mrun.
  rewrite Hp. rewrite (forall_leases_loop_cleanup _ _ _ _ Hp).
  rewrite Hbrl. simpl. rewrite heap_issue, Hp. simpl. rewrite heap_issue.
  unfold issue. by rewrite foldl_app.
Qed.

(** C6: on a free slot, for the stored record [d0] of [fid] (it has
    entries and is not cached), share_mode_cleanup_disconnected acquires
    the handle on the record and then:
    - as soon as one entry is owned by a process not marked disconnected
      or has another share_file_id than [open_persistent_id], the body
      changes nothing and the function returns false: no lease or
      byte-range-lock call is made, the store is as before and the
      record, released unmodified, keeps its entry list;
    - otherwise the body issues one lease delete per entry and then one
      byte-range-lock cleanup call; if that call fails the function
      returns false, again with the store and the entry list unchanged;
    - if it succeeds the body clears the entry list and marks the record
      modified, and the function returns true after the release of the
      handle, which is where the change is persisted: the destructor
      deletes the emptied record from the store and frees it.
    The function returns true in this last case only. *)
Theorem cleanup_disconnected_correct (E : env) (st : state)
    (db : db_context) (fid : file_id) (v : blob) (d0 : share_mode_data)
    (open_persistent_id : Z) :
  remove_stale_shrinks ->
  talloc_lck E = true -> talloc_data E = true -> fetch_locked_ok E = true ->
  delete_status E = NT_STATUS_OK ->
  lock_db st = Some db ->
  db_data db !! locking_key fid = Some v ->
  static_share_mode_data st = None ->
  static_share_mode_data_refcount st = 0 ->
  static_share_mode_record st = None ->
  memcache st !! memcache_key fid = None ->
  ndr_pull_share_mode_data v = Some d0 ->
  modified d0 = false -> fresh d0 = false -> share_modes d0 <> [] ->
  let p := talloc_addr (heap st) in
  let lck := mk_share_mode_lock (Some p) in
  let rec := mk_db_record (locking_key fid) (Some v) in
  let d := set_record (Some rec) (set_id fid d0) in
  let all_ok :=
    forallb (fun e => server_id_is_disconnected (pid e)
                      && (share_file_id e =? open_persistent_id))
      (share_modes d0) in
  let fetched := dbwrap_fetch_locked_call (locking_key fid) :: calls st in
  let cleaned :=
    brl_cleanup_disconnected_call fid open_persistent_id
    :: rev ((fun e => leases_db_del_call (client_guid e) (lease_key e) fid)
              <$> share_modes d0)
    ++ fetched in
  let held := fun cs : list call =>
    mk_state (lock_db st) (<[p := d]> (heap st)) (memcache st) (Some p) 1
      (Some rec) true cs in
  let kept := fun cs : list call =>
    mk_state (lock_db st) (<[p := cache_clean (set_id fid d0)]> (heap st))
      (<[memcache_key fid := p]> (memcache st)) None 0 None true cs in
  let gone := fun cs : list call =>
    mk_state
      (Some (mk_db_context (delete (locking_key fid) (db_data db))
               (db_seqnum db + 1)))
      (heap st) (memcache st) None 0 None true cs in
  get_existing_share_mode_lock E fid st = Done (Some lck) (held fetched)
  /\ cleanup_disconnected_locked E fid open_persistent_id lck (held fetched)
     = (if all_ok
        then
          if brl_cleanup_ok E
          then Done true
                 (set_heap (<[p := set_modified true (set_share_modes [] d)]>
                              (heap st)) (held cleaned))
          else Done false (held cleaned)
        else Done false (held fetched))
  /\ share_mode_cleanup_disconnected E fid open_persistent_id st
     = (if all_ok
        then
          if brl_cleanup_ok E
          then Done true
                 (gone (dbwrap_record_free_call (locking_key fid)
                        :: dbwrap_record_delete_call (locking_key fid)
                        :: cleaned))
          else Done false
                 (kept (dbwrap_record_free_call (locking_key fid) :: cleaned))
        else Done false
               (kept (dbwrap_record_free_call (locking_key fid) :: fetched))).
Proof.
  intros Hs Hl Hd Hf HE Hdb Hv Hsd Hrc Hsr Hc Hpull Hm Hfr Hes.
  intros p lck rec d all_ok fetched cleaned held kept gone.
  pose proof (acquire_existing_run E st db fid v d0 None None None
                Hl Hd Hf Hdb Hv Hsd Hrc Hsr Hc Hpull) as Hacq.
  cbn zeta in Hacq. fold p rec d fetched in Hacq.
  change (get_share_mode_lock E fid None None None st
          = Done (Some lck) (held fetched)) in Hacq.
  assert (heap (held fetched) !! p = Some d) as Hp
    by apply lookup_insert_eq.
  pose proof (cleanup_locked_result E fid open_persistent_id (held fetched)
                p d Hp) as Hbody.
  cbn zeta in Hbody. rewrite issue_fields in Hbody.
  change (share_modes d) with (share_modes d0) in Hbody.
  change (id d) with fid in Hbody. fold all_ok in Hbody.
  assert (held cleaned
          = mk_state (lock_db (held fetched)) (heap (held fetched))
              (memcache (held fetched))
              (static_share_mode_data (held fetched))
              (static_share_mode_data_refcount (held fetched))
              (static_share_mode_record (held fetched))
              (static_share_mode_record_talloced (held fetched))
              (rev (((fun e => leases_db_del_call (client_guid e)
                                 (lease_key e) fid) <$> share_modes d0)
                    ++ [brl_cleanup_disconnected_call fid
                          open_persistent_id])
               ++ calls (held fetched))) as Hcleaned
    by (subst cleaned held; simpl; by rewrite rev_app_distr).
  rewrite <- Hcleaned in Hbody.
  assert (set_heap (<[p := set_modified true (set_share_modes [] d)]>
                      (heap (held fetched))) (held cleaned)
          = set_heap (<[p := set_modified true (set_share_modes [] d)]>
                        (heap st)) (held cleaned)) as Hheap
    by (subst held; simpl; unfold set_heap; simpl;
        by rewrite insert_insert_eq).
  rewrite Hheap in Hbody.
  split_and!; [exact Hacq|exact Hbody|].
  unfold share_mode_cleanup_disconnected, get_existing_share_mode_lock.
  rewrite (bind_Done _ _ _ _ _ Hacq).
  assert (forall cs : list call,
             share_mode_lock_destructor E (held cs)
             = Done 0 (kept (dbwrap_record_free_call (locking_key fid) :: cs)))
    as Hkept.
  { intros cs.
    rewrite (release_unmodified_run E (held cs) p d rec)
      by (simpl; first [done | apply lookup_insert_eq]).
    subst held kept. simpl. by rewrite insert_insert_eq. }
  destruct all_ok; [destruct (brl_cleanup_ok E)|];
    rewrite (bind_Done _ _ _ _ _ Hbody).
  - unfold mbind, M_bind.
    rewrite (release_modified_delete_run E _ p
               (set_modified true (set_share_modes [] d)) rec db)
      by (simpl; first [done | apply lookup_insert_eq
                       | by apply remove_stale_nil]).
    subst gone. simpl. unfold mret, M_ret. do 2 f_equal.
    rewrite !delete_insert_eq.
    by rewrite delete_id by apply talloc_addr_fresh.
  - unfold mbind, M_bind. by rewrite Hkept.
  - unfold mbind, M_bind. by rewrite Hkept.
Qed.

(** X5: on a free slot, for a stored record that is not cached and
    whose entries all belong to disconnected processes with the expected
    open id, share_mode_cleanup_disconnected returns true and the record
    is gone from the store when it returns: the calls are, in this order,
    the locked fetch, one lease delete per entry, the byte-range-lock
    cleanup, the delete of the record and the release of the record lock;
    nothing stays in the heap or in the cache and the slot is free. *)
Theorem cleanup_disconnected_end_to_end (E : env) (st : state)
    (db : db_context) (fid : file_id) (v : blob) (d0 : share_mode_data)
    (open_persistent_id : Z) :
  remove_stale_shrinks ->
  talloc_lck E = true -> talloc_data E = true -> fetch_locked_ok E = true ->
  brl_cleanup_ok E = true -> delete_status E = NT_STATUS_OK ->
  lock_db st = Some db ->
  db_data db !! locking_key fid = Some v ->
  static_share_mode_data st = None ->
  static_share_mode_data_refcount st = 0 ->
  static_share_mode_record st = None ->
  memcache st !! memcache_key fid = None ->
  ndr_pull_share_mode_data v = Some d0 ->
  fresh d0 = false ->
  cleanup_entries_ok open_persistent_id (share_modes d0) = true ->
  share_mode_cleanup_disconnected E fid open_persistent_id st
  = Done true
      (mk_state
         (Some (mk_db_context (delete (locking_key fid) (db_data db))
                  (db_seqnum db + 1)))
         (heap st) (memcache st) None 0 None true
         (dbwrap_record_free_call (locking_key fid)
          :: dbwrap_record_delete_call (locking_key fid)
          :: brl_cleanup_disconnected_call fid open_persistent_id
          :: rev ((fun e => leases_db_del_call (client_guid e) (lease_key e) fid)
                    <$> share_modes d0)
          ++ dbwrap_fetch_locked_call (locking_key fid) :: calls st)).
Proof.
  intros Hs Hl Hd Hf Hbrl HE Hdb Hv Hsd Hrc Hsr Hc Hpull Hfr Hok.
  unfold share_mode_cleanup_disconnected, get_existing_share_mode_lock.
  rewrite (bind_Done _ _ _ _ _
             (acquire_existing_run E st db fid v d0 None None None
                Hl Hd Hf Hdb Hv Hsd Hrc Hsr Hc Hpull)).
  set (p := talloc_addr (heap st)).
  set (rec := mk_db_record (locking_key fid) (Some v)).
  set (d1 := set_record (Some rec) (set_id fid d0)).
  match goal with |- (_ ≫= _) ?s = _ =>
    rewrite (bind_Done _ _ s _ _
               (cleanup_locked_run E fid open_persistent_id s p d1
                  (lookup_insert_eq _ _ _) Hok Hbrl))
  end.
  rewrite issue_fields. simpl.
  unfold mbind, M_bind.
  rewrite (release_modified_delete_run E _ p
             (set_modified true (set_share_modes [] d1)) rec db)
    by (simpl; first [done | apply lookup_insert_eq
                     | by apply remove_stale_nil]).
  simpl. unfold mret, M_ret. do 2 f_equal.
  - rewrite !delete_insert_eq.
    by rewrite delete_id by apply talloc_addr_fresh.
  - rewrite rev_app_distr. simpl. done.
Qed.

(** X6: a failure to persist a modified record on the final release
    ends the process: when the store of the encoded record fails, when
    the record does not encode, or when the delete of an emptied record
    fails, share_mode_lock_destructor calls smb_panic. *)
Theorem persistence_failure_is_fatal (E : env) (st : state) (p : positive)
    (d : share_mode_data) (rec : db_record) (db : db_context) :
  static_share_mode_data st = Some p ->
  heap st !! p = Some d ->
  static_share_mode_data_refcount st = 1 ->
  record d = Some rec ->
  lock_db st = Some db ->
  modified d = true ->
  (forall b : blob,
      remove_stale_share_mode_entries (share_modes d) <> [] ->
      ndr_push_share_mode_data (data_to_store d) = inl b ->
      store_status E <> NT_STATUS_OK ->
      share_mode_lock_destructor E st = Panic)
  /\ (forall e : ndr_err_code,
      remove_stale_share_mode_entries (share_modes d) <> [] ->
      ndr_push_share_mode_data (data_to_store d) = inr e ->
      e <> NDR_ERR_SUCCESS ->
      share_mode_lock_destructor E st = Panic)
  /\ (remove_stale_share_mode_entries (share_modes d) = [] ->
      fresh d = false ->
      delete_status E <> NT_STATUS_OK ->
      share_mode_lock_destructor E st = Panic).
Proof.
  intros Hsd Hp Hrc Hrec Hdb Hm.
  destruct st as [ldb hp mc sd rc sr tl cl]; simpl in * |-; subst.
  assert (forall es : list share_mode_entry,
             es <> [] -> (length es =? 0)%nat = false) as Hlen
    by (by intros [|]).
  split; [|split].
  - intros b Hes Hb HE.
    unfold share_mode_lock_destructor, share_mode_data_store,
      dbwrap_record_store, num_share_modes.
    repeat (progress (mrun; rewrite ?Hp, ?Hm, ?Hb, ?Hrec, ?(Hlen _ Hes),
                        ?lookup_insert_eq)).
    by destruct (store_status E).
  - intros e Hes Hb He.
    unfold share_mode_lock_destructor, share_mode_data_store, num_share_modes.
    repeat (progress (mrun; rewrite ?Hp, ?Hm, ?Hb, ?Hrec, ?(Hlen _ Hes),
                        ?lookup_insert_eq)).
    by destruct e.
  - intros Hes Hfr HE.
    unfold share_mode_lock_destructor, share_mode_data_store,
      dbwrap_record_delete, num_share_modes.
    repeat (progress (mrun; rewrite ?Hp, ?Hm, ?Hes, ?Hfr, ?Hrec,
                        ?lookup_insert_eq)).
    by destruct (delete_status E).
Qed.

(** ** What an acquisition leaves behind *)

Lemma memcache_fetch_frame (key v : blob) (st st' : state)
    (r : option positive) :
  share_mode_memcache_fetch key v st = Done r st' ->
  same_slot st st' /\ calls st' = calls st
  /\ static_share_mode_record_talloced st' = static_share_mode_record_talloced st
  /\ (forall p : positive, r = Some p -> is_Some (heap st' !! p)).
Proof.
  unfold share_mode_memcache_fetch, memcache_lookup_talloc, memcache_delete,
    same_slot.
  destruct (negb (length key =? sizeof_file_id)%nat);
    [by intros [= <- <-]|].
  mrun. destruct (memcache st !! memcache_key key) as [q|] eqn:Hc;
    [|by intros [= <- <-]].
  destruct (get_share_mode_blob_header v 0 0) as [[e seq] fl].
  destruct e; simpl; rewrite ?Hc; try by intros [= <- <-].
  destruct (heap st !! q) as [d|] eqn:Hq; [|done].
  destruct (sequence_number d =? seq); simpl; rewrite Hc;
    intros [= <- <-]; simpl; split_and!; try done.
  intros p [= <-]. by eexists.
Qed.

Lemma parse_share_modes_frame (E : env) (key v : blob) (st st' : state)
    (r : option positive) :
  parse_share_modes E key v st = Done r st' ->
  same_slot st st' /\ calls st' = calls st
  /\ static_share_mode_record_talloced st' = static_share_mode_record_talloced st
  /\ (forall p : positive, r = Some p -> is_Some (heap st' !! p)).
Proof.
  unfold parse_share_modes. unfold mbind at 1, M_bind at 1.
  destruct (share_mode_memcache_fetch key v st) as [[q|] s1| |] eqn:Hf;
    [| |done..];
    destruct (memcache_fetch_frame _ _ _ _ _ Hf) as (Hs & Hcl & Htl & Hh).
  - by intros [= <- <-].
  - destruct Hs as (? & ? & ? & ?). unfold same_slot.
    destruct (negb (talloc_data E)); [by intros [= <- <-]|]. mrun.
    destruct (ndr_pull_share_mode_data v); intros [= <- <-]; simpl;
      split_and!; try done.
    intros p [= <-]. rewrite lookup_insert_eq. by eexists.
Qed.

Lemma fresh_share_mode_lock_frame (E : env) (sp : option string)
    (fname : option smb_filename) (owt : option Z) (st st' : state)
    (r : option positive) :
  fresh_share_mode_lock E sp fname owt st = Done r st' ->
  same_slot st st' /\ calls st' = calls st
  /\ static_share_mode_record_talloced st' = static_share_mode_record_talloced st
  /\ (forall p : positive, r = Some p -> is_Some (heap st' !! p)).
Proof.
  unfold fresh_share_mode_lock, same_slot.
  destruct sp, fname, owt; try by intros [= <- <-].
  destruct (negb (talloc_data E)); [by intros [= <- <-]|]. mrun.
  intros [= <- <-]. simpl. split_and!; try done.
  intros p [= <-]. rewrite lookup_insert_eq. by eexists.
Qed.

(** The two outcomes of get_static_share_mode_data: a failure status with
    the slot untouched, or NT_STATUS_OK with the slot pointing at a record
    stamped with the identity and the record lock. *)
Lemma get_static_share_mode_data_inv (E : env) (rec : db_record)
    (fid : file_id) (sp : option string) (fname : option smb_filename)
    (owt : option Z) (st st' : state) (status : NTSTATUS) :
  get_static_share_mode_data E rec fid sp fname owt st = Done status st' ->
  lock_db st' = lock_db st
  /\ static_share_mode_data_refcount st' = static_share_mode_data_refcount st
  /\ static_share_mode_record st' = static_share_mode_record st
  /\ calls st' = calls st
  /\ static_share_mode_data st = None
  /\ (status <> NT_STATUS_OK -> static_share_mode_data st' = None)
  /\ (status = NT_STATUS_OK ->
      exists (p : positive) (d : share_mode_data),
        static_share_mode_data st' = Some p /\ heap st' !! p = Some d
        /\ id d = fid /\ record d = Some rec).
Proof.
  unfold get_static_share_mode_data, dbwrap_record_get_value.
  unfold mbind at 1, M_bind at 1, gets at 1.
  unfold mbind at 1, M_bind at 1.
  destruct (static_share_mode_data st) eqn:Hsd; [done|]. simpl.
  unfold mbind at 1, M_bind at 1.
  match goal with |- context [match ?m st with _ => _ end] =>
    destruct (m st) as [r s1| |] eqn:Hr end; [|done..].
  assert (same_slot st s1 /\ calls s1 = calls st
          /\ static_share_mode_record_talloced s1
              = static_share_mode_record_talloced st
          /\ (forall p : positive, r = Some p -> is_Some (heap s1 !! p)))
    as ((Hdb & Hsd1 & Hrc & Hsr) & Hcl & _ & Hh).
  { destruct (rec_value rec).
    - by eapply parse_share_modes_frame.
    - by eapply fresh_share_mode_lock_frame. }
  destruct r as [p|].
  - destruct (Hh p eq_refl) as [d Hd]. mrun. rewrite Hd.
    intros [= <- <-]. simpl. split_and!; try done.
    intros _. eexists p, _. rewrite lookup_insert_eq. done.
  - mrun. intros [= <- <-]. split_and!; try done;
      [by rewrite Hsd1|by destruct (rec_value rec)].
Qed.

Lemma get_share_mode_lock_inv (E : env) (fid : file_id) (sp : option string)
    (fname : option smb_filename) (owt : option Z) (st st' : state)
    (r : option share_mode_lock) :
  get_share_mode_lock E fid sp fname owt st = Done r st' ->
  lock_db st' = lock_db st
  /\ match r with
     | None =>
         static_share_mode_data st' = static_share_mode_data st
         /\ static_share_mode_data_refcount st'
            = static_share_mode_data_refcount st
         /\ static_share_mode_record st' = static_share_mode_record st
     | Some lck =>
         exists (p : positive) (d : share_mode_data),
           data lck = Some p
           /\ static_share_mode_data st' = Some p
           /\ heap st' !! p = Some d
           /\ id d = fid
           /\ static_share_mode_data_refcount st'
              = wrap64 (static_share_mode_data_refcount st + 1)
           /\ (static_share_mode_data st = None ->
               static_share_mode_data_refcount st = 0
               /\ record d = static_share_mode_record st'
               /\ static_share_mode_record st' <> None)
     end.
Proof.
  unfold get_share_mode_lock.
  destruct (negb (talloc_lck E)); [by intros [= <- <-]|].
  unfold mbind at 1, M_bind at 1, gets at 1.
  unfold mbind at 1, M_bind at 1.
  destruct (static_share_mode_data st) as [p|] eqn:Hsd.
  - (* the slot is held *)
    mrun. destruct (heap st !! p) as [d|] eqn:Hp; [|done].
    unfold file_id_equal. destruct (bool_decide_reflect (id d = fid)); simpl.
    + rewrite Hsd. intros [= <- <-]. simpl. split; [done|].
      by exists p, d.
    + by intros [= <- <-].
  - (* the slot is free *)
    unfold mbind at 1, M_bind at 1, gets at 1.
    unfold mbind at 1, M_bind at 1.
    destruct (Z.eqb_spec (static_share_mode_data_refcount st) 0) as [Hrc|];
      [|done].
    simpl. unfold mbind at 1, M_bind at 1, gets at 1.
    destruct (static_share_mode_record st) as [r0|] eqn:Hsr.
    + (* inside share_mode_do_locked *)
      destruct (negb (tdb_data_cmp (dbwrap_record_get_key r0)
                        (locking_key fid) =? 0)); [by intros [= <- <-]|].
      unfold mbind at 1 2, M_bind at 1 2.
      destruct (get_static_share_mode_data E r0 fid sp fname owt st)
        as [status s1| |] eqn:Hg; [|done..].
      destruct (get_static_share_mode_data_inv _ _ _ _ _ _ _ _ _ Hg)
        as (Hdb & Hrc1 & Hsr1 & _ & _ & Hfail & Hok).
      destruct status; simpl;
        try (unfold mret, M_ret; intros [= <- <-]; simpl; split_and!;
             first [done | by apply Hfail | congruence]).
      destruct (Hok eq_refl) as (p & d & Hsd1 & Hp & Hid & Hrec).
      mrun. rewrite Hsd1. intros [= <- <-]. simpl. split; [done|].
      exists p, d. split_and!; try done; [by rewrite Hrc1|].
      intros _. split_and!; [done|by rewrite Hsr1, Hsr|by rewrite Hsr1, Hsr].
    + (* the record is fetched and locked here *)
      unfold dbwrap_fetch_locked. mrun.
      destruct (lock_db st) as [db|] eqn:Hdb0; [|done].
      destruct (fetch_locked_ok E); simpl; [|by intros [= <- <-]].
      match goal with |- context [get_static_share_mode_data E ?r0 _ _ _ _ ?s] =>
        destruct (get_static_share_mode_data E r0 fid sp fname owt s)
          as [status s1| |] eqn:Hg; [|done..];
        destruct (get_static_share_mode_data_inv _ _ _ _ _ _ _ _ _ Hg)
          as (Hdb & Hrc1 & Hsr1 & _ & _ & Hfail & Hok)
      end.
      simpl in Hdb, Hrc1, Hsr1.
      destruct status; simpl;
        try (unfold mret, M_ret; intros [= <- <-]; simpl; split_and!;
             first [done | by apply Hfail | congruence]).
      destruct (Hok eq_refl) as (p & d & Hsd1 & Hp & Hid & Hrec).
      mrun. rewrite Hsd1. intros [= <- <-]. simpl. split; [by rewrite Hdb|].
      exists p, d. split_and!; try done; [by rewrite Hrc1|].
      intros _. split_and!; [done|by rewrite Hsr1|by rewrite Hsr1].
Qed.

(** X7: an acquisition that returns NULL, for whatever reason (no memory
    for the handle, another identity held, the locked fetch failing, the
    stored value not decoding, creation parameters missing), leaves the
    store, the slot's record pointer, the refcount and the held record
    lock exactly as they were. *)
Theorem failed_acquisition_keeps_slot (E : env) (fid : file_id)
    (sp : option string) (fname : option smb_filename) (owt : option Z)
    (st st' : state) :
  get_share_mode_lock E fid sp fname owt st = Done None st' ->
  same_slot st st'.
Proof.
  intros Hrun. apply get_share_mode_lock_inv in Hrun as (Hdb & Hsd & Hrc & Hsr).
  by split_and!.
Qed.

(** X8: an acquisition that returns a handle leaves the slot pointing at
    the handle's record, a live heap record stamped with the requested
    identity, and the refcount one higher (modulo 2^64); if the slot was
    free before, the refcount was 0 and the record's lock pointer is the
    held record lock, which is what the destructor asserts on release. *)
Theorem acquired_handle_invariant (E : env) (fid : file_id)
    (sp : option string) (fname : option smb_filename) (owt : option Z)
    (st st' : state) (lck : share_mode_lock) :
  get_share_mode_lock E fid sp fname owt st = Done (Some lck) st' ->
  exists (p : positive) (d : share_mode_data),
    data lck = Some p
    /\ static_share_mode_data st' = Some p
    /\ heap st' !! p = Some d
    /\ id d = fid
    /\ static_share_mode_data_refcount st'
       = wrap64 (static_share_mode_data_refcount st + 1)
    /\ (static_share_mode_data st = None ->
        static_share_mode_data_refcount st = 0
        /\ record d = static_share_mode_record st'
        /\ static_share_mode_record st' <> None).
Proof.
  intros Hrun. by apply get_share_mode_lock_inv in Hrun as [_ Hinv].
Qed.

(** X9: when a modified record is written back on the final release,
    the copy that goes into the cache is valid against the value just
    stored: a following acquisition of the identity finds the stored
    header carrying the cached sequence number and takes the same heap
    record out of the cache. *)
Theorem write_back_keeps_cache_coherent (E1 E2 : env) (st : state)
    (db : db_context) (p : positive) (d : share_mode_data) (rec : db_record)
    (b : blob) (sp : option string) (fname : option smb_filename)
    (owt : option Z) :
  push_header_agreement ->
  static_share_mode_data st = Some p ->
  heap st !! p = Some d ->
  static_share_mode_data_refcount st = 1 ->
  static_share_mode_record st = Some rec ->
  static_share_mode_record_talloced st = true ->
  record d = Some rec ->
  rec_key rec = locking_key (id d) ->
  lock_db st = Some db ->
  modified d = true ->
  remove_stale_share_mode_entries (share_modes d) <> [] ->
  ndr_push_share_mode_data (data_to_store d) = inl b ->
  store_status E1 = NT_STATUS_OK ->
  0 <= flags d < 256 ->
  memcache st !! memcache_key (id d) = None ->
  length (id d) = sizeof_file_id ->
  talloc_lck E2 = true -> fetch_locked_ok E2 = true ->
  let rec' := mk_db_record (locking_key (id d)) (Some b) in
  (share_mode_lock_destructor E1;;
   get_share_mode_lock E2 (id d) sp fname owt) st
  = Done (Some (mk_share_mode_lock (Some p)))
      (mk_state
         (Some (mk_db_context (<[locking_key (id d) := b]> (db_data db))
                  (db_seqnum db + 1)))
         (<[p := set_record (Some rec')
                   (set_id (id d) (cache_clean (data_to_store d)))]> (heap st))
         (memcache st) (Some p) 1 (Some rec') true
         (dbwrap_fetch_locked_call (locking_key (id d))
          :: dbwrap_record_free_call (locking_key (id d))
          :: dbwrap_record_store_call (locking_key (id d)) b :: calls st)).
Proof.
  intros Hpush Hsd Hp Hrc Hsr Ht Hrec Hkey Hdb Hm Hes Hb HE Hfl Hc Hlen Hl Hf
    rec'.
  rewrite (bind_Done _ _ _ _ _
             (release_modified_write_run E1 st p d rec db b
                Hsd Hp Hrc Hsr Ht Hrec Hdb Hm Hes Hb HE Hc)).
  rewrite Hkey.
  assert (blob_header b
          = Some (sequence_number (cache_clean (data_to_store d)), flags d))
    as Hh.
  { apply (Hpush b (data_to_store d) Hb); simpl; [|done].
    unfold wrap64. apply Z.mod_pos_bound. lia. }
  rewrite (acquire_cached_run E2 _
             (mk_db_context (<[locking_key (id d) := b]> (db_data db))
                (db_seqnum db + 1))
             (id d) b p (cache_clean (data_to_store d)) (flags d))
    by (simpl; first [done | apply lookup_insert_eq]).
  simpl. by rewrite insert_insert_eq, delete_insert_eq, delete_id.
Qed.

(** ** share_mode_do_locked on a free slot *)

Lemma do_locked_free_run {P : Type} (E : env) (fid : file_id)
    (fn : do_locked_fn P) (pd pd' : P) (md : bool) (st : state)
    (db : db_context) :
  lock_db st = Some db ->
  static_share_mode_record st = None ->
  do_locked_status E = NT_STATUS_OK ->
  (forall s : state,
      fn (mk_db_record (locking_key fid) (db_data db !! locking_key fid))
        false pd s = Done (md, pd') s) ->
  share_mode_do_locked E fid fn pd st
  = Done (NT_STATUS_OK, pd')
      (mk_state (lock_db st) (heap st) (memcache st)
         (static_share_mode_data st) (static_share_mode_data_refcount st)
         None false
         ((if md then [dbwrap_watched_wakeup_call (locking_key fid)] else [])
          ++ dbwrap_do_locked_call (locking_key fid) :: calls st)).
Proof.
  intros Hdb Hsr HE Hfn.
  destruct st as [ldb hp mc sd rc sr tl cl]; simpl in * |-; subst.
  unfold share_mode_do_locked, dbwrap_do_locked, share_mode_do_locked_fn,
    dbwrap_watched_wakeup.
  repeat (progress (mrun; rewrite ?HE, ?Hfn)).
  destruct md; mrun; by rewrite Z.eqb_refl.
Qed.

(** X10: share_mode_wakeup_waiters on a process that holds no record
    lock takes the record lock through dbwrap_do_locked, wakes the
    watchers and returns NT_STATUS_OK, leaving no record lock behind; if
    the lock cannot be taken it returns the store's status and wakes
    nobody. In both cases the slot's record and refcount are untouched. *)
Theorem wakeup_waiters_free_slot (E : env) (fid : file_id) (st : state)
    (db : db_context) :
  lock_db st = Some db ->
  static_share_mode_record st = None ->
  share_mode_wakeup_waiters E fid st
  = (if NT_STATUS_IS_OK (do_locked_status E)
     then Done NT_STATUS_OK
            (mk_state (lock_db st) (heap st) (memcache st)
               (static_share_mode_data st)
               (static_share_mode_data_refcount st) None false
               (dbwrap_watched_wakeup_call (locking_key fid)
                :: dbwrap_do_locked_call (locking_key fid) :: calls st))
     else Done (do_locked_status E)
            (add_call (dbwrap_do_locked_call (locking_key fid)) st)).
Proof.
  intros Hdb Hsr. unfold share_mode_wakeup_waiters.
  destruct (NT_STATUS_IS_OK (do_locked_status E)) eqn:HE.
  - assert (do_locked_status E = NT_STATUS_OK) as HE'
      by (by destruct (do_locked_status E)).
    by rewrite (bind_Done _ _ _ _ _
                  (do_locked_free_run E fid share_mode_wakeup_waiters_fn tt tt
                     true st db Hdb Hsr HE' (fun s => eq_refl))).
  - unfold share_mode_do_locked, dbwrap_do_locked. mrun.
    rewrite Hsr, Hdb. simpl. rewrite HE. simpl.
    by destruct (do_locked_status E).
Qed.

(** ** The cached read-lease flag, from the store *)

(** X11: for a process that holds no record lock and whose remembered
    sequence number is out of date, file_has_read_lease peeks the header
    of the stored value under the record lock: a value with a header
    yields the read-lease bit of its flags byte and updates the cached
    flags and sequence number, and a missing or too short value yields
    true and leaves the cache alone. After a successful refresh the next
    call answers the same from the cache without any call to the store. *)
Theorem read_lease_from_store (E E' : env) (fsp : files_struct) (st : state)
    (db : db_context) :
  lock_db st = Some db ->
  static_share_mode_record st = None ->
  do_locked_status E = NT_STATUS_OK ->
  db_seqnum db <> share_mode_flags_seqnum fsp ->
  let bit := fun fl : Z => negb (Z.land fl SHARE_MODE_HAS_READ_LEASE =? 0) in
  let st1 :=
    mk_state (lock_db st) (heap st) (memcache st) (static_share_mode_data st)
      (static_share_mode_data_refcount st) None false
      (dbwrap_do_locked_call (locking_key (fsp_file_id fsp)) :: calls st) in
  match blob_header (default [] (db_data db !! locking_key (fsp_file_id fsp)))
  with
  | Some (_, fl) =>
      let fsp' := mk_files_struct (fsp_file_id fsp) (db_seqnum db) fl in
      file_has_read_lease E fsp st = Done (bit fl, fsp') st1
      /\ file_has_read_lease E' fsp' st1 = Done (bit fl, fsp') st1
  | None => file_has_read_lease E fsp st = Done (true, fsp) st1
  end.
Proof.
  intros Hdb Hsr HE Hseq bit st1.
  set (b := default [] (db_data db !! locking_key (fsp_file_id fsp))).
  unfold blob_header.
  destruct (get_share_mode_blob_header b 0 0) as [[e seq] fl] eqn:Hh.
  assert (forall s : state,
             fsp_update_share_mode_flags_fn
               (mk_db_record (locking_key (fsp_file_id fsp))
                  (db_data db !! locking_key (fsp_file_id fsp)))
               false (mk_flags_state NDR_ERR_SUCCESS 0) s
             = Done (false, mk_flags_state e fl) s) as Hfn.
  { intros s. unfold fsp_update_share_mode_flags_fn, dbwrap_record_get_value.
    cbn [rec_value state_share_mode_flags].
    replace (match db_data db !! locking_key (fsp_file_id fsp) with
             | Some v => v
             | None => []
             end) with b by (subst b; by destruct (db_data db !! _)).
    by rewrite Hh. }
  pose proof (do_locked_free_run E (fsp_file_id fsp)
                fsp_update_share_mode_flags_fn _ _ false st db
                Hdb Hsr HE Hfn) as Hrun.
  simpl in Hrun. fold st1 in Hrun.
  assert (file_has_read_lease E fsp st
          = (if NDR_ERR_CODE_IS_SUCCESS e
             then Done (bit fl,
                        mk_files_struct (fsp_file_id fsp) (db_seqnum db) fl)
                    st1
             else Done (true, fsp) st1)) as Hfirst.
  { unfold file_has_read_lease, fsp_update_share_mode_flags.
    unfold mbind at 1, M_bind at 1. unfold mbind at 1, M_bind at 1, gets at 1.
    rewrite Hdb.
    destruct (Z.eqb_spec (db_seqnum db) (share_mode_flags_seqnum fsp));
      [done|].
    unfold mbind at 1, M_bind at 1. rewrite Hrun.
    by destruct e. }
  destruct e; simpl in Hfirst; try done.
  split; [done|].
  unfold file_has_read_lease, fsp_update_share_mode_flags. mrun.
  rewrite Hdb. simpl. by rewrite Z.eqb_refl.
Qed.

(** ** Reading without the lock *)


(** X13: for an identity without a record in the store the synchronous
    fetch returns NULL. The asynchronous request, when its subrequest is
    allocated, completes with NT_STATUS_NOT_FOUND, which
    fetch_share_mode_recv hands to the caller without a handle; when the
    subrequest cannot be allocated the request comes back already failed,
    not queued, and fetch_share_mode_recv returns NT_STATUS_NO_MEMORY. *)
Theorem unlocked_fetch_missing_key (E : env) (fid : file_id) (st : state)
    (db : db_context) :
  lock_db st = Some db ->
  db_data db !! locking_key fid = None ->
  parse_record_status E = NT_STATUS_OK ->
  talloc_req E = true ->
  let st1 := add_call (dbwrap_parse_record_call (locking_key fid)) st in
  let req := mk_fetch_share_mode_req NT_STATUS_NOT_FOUND None None in
  let req_nomem := mk_fetch_share_mode_req NT_STATUS_NO_MEMORY
                     (Some NT_STATUS_NO_MEMORY) None in
  fetch_share_mode_unlocked E fid st = Done None st1
  /\ fetch_share_mode_send E fid st
     = (if talloc_subreq E then Done (Some req, request_queued E) st1
        else Done (Some req_nomem, false) st1)
  /\ fetch_share_mode_recv (fetch_share_mode_done req) st1
     = Done (NT_STATUS_NOT_FOUND, None) st1
  /\ fetch_share_mode_recv req_nomem st1
     = Done (NT_STATUS_NO_MEMORY, None) st1.
Proof.
  intros Hdb Hv HE Hreq. simpl.
  unfold fetch_share_mode_unlocked, fetch_share_mode_send,
    dbwrap_parse_record_send, dbwrap_parse_record.
  rewrite Hreq. destruct (talloc_subreq E); mrun; by rewrite ?Hdb, ?HE, ?Hv.
Qed.

(** X14: for a stored value that is not empty and not cached, the
    synchronous fetch always returns a handle: on the decoded record in a
    new allocation if the value decodes, and with a NULL record if it
    does not (the heap is then as before). When the subrequest of the
    asynchronous fetch is allocated, the receive returns NT_STATUS_OK
    with the same handle in the first case and NT_STATUS_NOT_FOUND
    without a handle in the second; when it cannot be allocated, the
    request comes back already failed, not queued, the store is not read
    and the receive returns NT_STATUS_NO_MEMORY. *)
Theorem unlocked_fetch_stored_value (E : env) (fid : file_id) (st : state)
    (db : db_context) (v : blob) :
  lock_db st = Some db ->
  db_data db !! locking_key fid = Some v ->
  v <> [] ->
  memcache st !! memcache_key fid = None ->
  parse_record_status E = NT_STATUS_OK ->
  talloc_req E = true -> talloc_lck E = true -> talloc_data E = true ->
  let st0 := add_call (dbwrap_parse_record_call (locking_key fid)) st in
  let p := talloc_addr (heap st) in
  let r := match ndr_pull_share_mode_data v with
           | Some _ => Some p
           | None => None
           end in
  let st1 := match ndr_pull_share_mode_data v with
             | Some d => set_heap (<[p := d]> (heap st)) st0
             | None => st0
             end in
  let req := mk_fetch_share_mode_req NT_STATUS_OK None
               (Some (mk_share_mode_lock r)) in
  let req_nomem := mk_fetch_share_mode_req NT_STATUS_NO_MEMORY
                     (Some NT_STATUS_NO_MEMORY) None in
  fetch_share_mode_unlocked E fid st = Done (Some (mk_share_mode_lock r)) st1
  /\ fetch_share_mode_send E fid st
     = (if talloc_subreq E then Done (Some req, request_queued E) st1
        else Done (Some req_nomem, false) st0)
  /\ fetch_share_mode_recv (fetch_share_mode_done req) st1
     = match r with
       | Some _ => Done (NT_STATUS_OK, Some (mk_share_mode_lock r)) st1
       | None => Done (NT_STATUS_NOT_FOUND, None) st1
       end
  /\ fetch_share_mode_recv req_nomem st0
     = Done (NT_STATUS_NO_MEMORY, None) st0.
Proof.
  intros Hdb Hv Hne Hc HE Hreq Hl Hd. simpl.
  destruct st as [ldb hp mc sd rc sr tl cl]; simpl in * |-; subst.
  assert ((length v =? 0)%nat = false) as Hlen by (by destruct v).
  unfold fetch_share_mode_unlocked, fetch_share_mode_send,
    dbwrap_parse_record_send, dbwrap_parse_record,
    fetch_share_mode_unlocked_parser, parse_share_modes.
  rewrite Hreq.
  destruct (talloc_subreq E);
    repeat (progress (mrun; rewrite ?HE, ?Hv, ?Hlen, ?Hl, ?Hd;
                      try rewrite memcache_fetch_absent by exact Hc));
    (destruct (ndr_pull_share_mode_data v) as [d|]; mrun;
     [by rewrite insert_insert_eq
     |by rewrite delete_insert_eq, delete_id by apply talloc_addr_fresh]).
Qed.

(** ** Traversals *)

Lemma traverse_records_pure {P : Type} (E : env) (fn : forall_fn P)
    (g : file_id -> share_mode_data -> P -> P)
    (recs : list db_record) (count : Z) (pd : P) (st : state) :
  talloc_data E = true ->
  (forall fid d p s, fn fid d p s = Done (0, g fid d p) s) ->
  traverse_records (share_mode_traverse_fn E fn) recs count pd st
  = Done (count + Z.of_nat (length recs),
          foldl (fun p fd => g fd.1 fd.2 p) pd (decodable recs)) st.
Proof.
  intros HE Hfn. revert count pd.
  induction recs as [|r recs IH]; intros count pd.
  - simpl. unfold mret, M_ret. do 2 f_equal. lia.
  - simpl. unfold mbind, M_bind.
    unfold share_mode_traverse_fn at 1, dbwrap_record_get_key,
      dbwrap_record_get_value.
    unfold decodable, decode_record in *. rewrite HE. simpl.
    destruct (length (rec_key r) =? sizeof_file_id)%nat; simpl.
    + destruct (ndr_pull_share_mode_data _) as [d|]; simpl;
        rewrite ?Hfn; unfold mret, M_ret; simpl; rewrite IH; do 2 f_equal; lia.
    + unfold mret, M_ret. simpl. rewrite IH. do 2 f_equal. lia.
Qed.

Lemma entry_loop_counting {P : Type}
    (visit : file_id -> share_mode_data -> share_mode_entry -> P -> P)
    (fid : file_id) (d : share_mode_data) (es : list share_mode_entry)
    (pd : P) (st : state) :
  share_entry_traverse_loop (counting_entry_visitor visit) fid d es pd st
  = Done (0, foldl (fun p e => visit fid d e p) pd es) st.
Proof.
  revert pd. induction es as [|e es IH]; intros pd; [done|].
  simpl. unfold mbind, M_bind, counting_entry_visitor at 1, mret, M_ret.
  simpl. apply IH.
Qed.

(** X15: share_mode_forall does nothing and returns 0 when the locking
    database is not open, and returns -1 when the store's traversal
    reports an error. *)
Theorem share_mode_forall_errors {P : Type} (E : env) (fn : forall_fn P)
    (pd : P) (st : state) :
  (lock_db st = None -> share_mode_forall E fn pd st = Done (0, pd) st)
  /\ (forall db : db_context,
      lock_db st = Some db ->
      NT_STATUS_IS_OK (traverse_status E) = false ->
      share_mode_forall E fn pd st
      = Done (-1, pd) (add_call dbwrap_traverse_read_call st)).
Proof.
  split.
  - intros Hdb. unfold share_mode_forall. mrun. by rewrite Hdb.
  - intros db Hdb HE. unfold share_mode_forall, dbwrap_traverse_read. mrun.
    rewrite Hdb. simpl. rewrite HE. simpl. by rewrite HE.
Qed.

(** X16: share_entry_forall with a visitor that never asks to stop
    calls it on every entry of every record that decodes, record by
    record in the store's order and entry by entry in the record's
    order, and returns the store's traversal count. *)
Theorem share_entry_forall_visits_all {P : Type} (E : env)
    (visit : file_id -> share_mode_data -> share_mode_entry -> P -> P)
    (pd : P) (st : state) (db : db_context) :
  lock_db st = Some db ->
  talloc_data E = true ->
  traverse_status E = NT_STATUS_OK ->
  share_entry_forall E (counting_entry_visitor visit) pd st
  = Done (Z.of_nat (length (db_records db)),
          foldl (fun p fd =>
                   foldl (fun q e => visit fd.1 fd.2 e q) p (share_modes fd.2))
            pd (decodable (db_records db)))
      (add_call dbwrap_traverse_read_call st).
Proof.
  intros Hdb HE Hst.
  unfold share_entry_forall, share_mode_forall, dbwrap_traverse_read. mrun.
  rewrite Hdb, Hst. simpl.
  by rewrite (traverse_records_pure E _
                (fun fid d p =>
                   foldl (fun q e => visit fid d e q) p (share_modes d))
                _ 0 pd _ HE
                (fun fid d p s =>
                   entry_loop_counting visit fid d (share_modes d) p s)).
Qed.

(** X17: share_entry_traverse_fn stops at the first entry for which the
    visitor returns a non-zero value and returns that value: the entries
    before it and the entry itself have been visited, the entries after
    it have not. When the visitor returns 0 for all entries the result
    is 0. *)
Theorem entry_traversal_stops_early {P : Type}
    (code : share_mode_entry -> Z)
    (visit : file_id -> share_mode_data -> share_mode_entry -> P -> P)
    (fid : file_id) (d : share_mode_data) (pd : P) (st : state) :
  (forall (before after : list share_mode_entry) (e : share_mode_entry),
      share_modes d = before ++ e :: after ->
      Forall (fun x => code x = 0) before ->
      code e <> 0 ->
      share_entry_traverse_fn (coded_entry_visitor code visit) fid d pd st
      = Done (code e,
              foldl (fun p x => visit fid d x p) pd (before ++ [e])) st)
  /\ (Forall (fun x => code x = 0) (share_modes d) ->
      share_entry_traverse_fn (coded_entry_visitor code visit) fid d pd st
      = Done (0, foldl (fun p x => visit fid d x p) pd (share_modes d)) st).
Proof.
  unfold share_entry_traverse_fn.
  assert (forall (es : list share_mode_entry) (q : P),
             Forall (fun x => code x = 0) es ->
             forall rest,
               share_entry_traverse_loop (coded_entry_visitor code visit)
                 fid d (es ++ rest) q st
               = share_entry_traverse_loop (coded_entry_visitor code visit)
                   fid d rest (foldl (fun p x => visit fid d x p) q es) st)
    as Hskip.
  { intros es q Hes. revert q.
    induction Hes as [|x es Hx _ IH]; intros q rest; [done|].
    simpl. unfold mbind, M_bind, coded_entry_visitor at 1, mret, M_ret.
    rewrite Hx. simpl. apply IH. }
  split.
  - intros before after e -> Hbefore He. rewrite (Hskip _ _ Hbefore).
    simpl. unfold mbind, M_bind, coded_entry_visitor at 1, mret, M_ret.
    destruct (Z.eqb_spec (code e) 0); [done|]. simpl.
    by rewrite foldl_app.
  - intros Hall.
    rewrite <- (app_nil_r (share_modes d)) at 1.
    by rewrite (Hskip _ _ Hall).
Qed.

(** ** Opening and closing the database *)

(** X18: locking_init_internal first calls brl_init with its
    [read_only] argument, whatever the state. It returns true exactly
    when the locking database is open afterwards; a database that is
    already open is kept and nothing but the brl_init call happens; every
    failure on the way (no path, db_open or db_open_watched failing,
    posix_locking_init failing) leaves the database closed; apart from
    the calls to brl_init and posix_locking_init only the database handle
    changes, and a newly opened database is the one db_open returned for
    [read_only], after posix_locking_init was called with [read_only].
    locking_end calls brl_shutdown, closes the database and returns
    true. *)
Theorem locking_init_result (I : init_env) (read_only : bool) (st : state) :
  exists (b : bool) (st' : state),
    locking_init_internal I read_only st = Done b st'
    /\ (b = true <-> lock_db st' <> None)
    /\ (lock_db st <> None ->
        b = true /\ st' = add_call (brl_init_call read_only) st)
    /\ (exists cs : list call,
          (cs = [] \/ cs = [posix_locking_init_call read_only])
          /\ st' = set_lock_db (lock_db st')
                     (issue (brl_init_call read_only :: cs) st))
    /\ (b = true -> lock_db st = None ->
        lock_db st' = db_open_result I read_only
        /\ calls st' = posix_locking_init_call read_only
                       :: brl_init_call read_only :: calls st)
    /\ locking_end st'
       = Done true (set_lock_db None (add_call brl_shutdown_call st')).
Proof.
  unfold locking_init_internal, locking_end. mrun.
  destruct st as [ldb hp mc sd rc sr tl cl]. simpl.
  destruct ldb as [db|]; simpl.
  - eexists _, _. split; [done|]. simpl. split_and!; try done.
    exists []. by split; [left|].
  - destruct (lock_path_ok I), (db_open_result I read_only) as [backend|],
      (db_open_watched_ok I), (posix_locking_init_ok I read_only); simpl;
      eexists _, _; (split; [reflexivity|]); simpl; split_and!;
      try done;
      first [by (exists []; split; [left|])
            |by (exists [posix_locking_init_call read_only]; split; [right|])].
Qed.

(** ** The header peek and the cache *)

Lemma byte_to_Z_range (x : byte) : 0 <= byte_to_Z x < 256.
Proof.
  unfold byte_to_Z. pose proof (Byte.to_N_bounded x). lia.
Qed.

Lemma le_decode_range (l : blob) :
  0 <= le_decode l < 256 ^ Z.of_nat (length l).
Proof.
  induction l as [|x l IH]; [simpl; lia|].
  cbn [le_decode length]. rewrite Nat2Z.inj_succ, Z.pow_succ_r by lia.
  pose proof (byte_to_Z_range x). lia.
Qed.

(** X19: the header peek succeeds exactly on blobs of at least nine
    bytes; it then returns a sequence number below 2^64 and a flags byte
    below 256 that depend on the first nine bytes only. On a shorter blob
    it reports a buffer-size error and leaves [*pflags] alone; [*pseq] is
    left alone too unless the blob has exactly eight bytes, in which case
    the sequence number has already been written. *)
Theorem header_peek_first_nine_bytes (b : blob) (pseq pflags : Z) :
  ((length b < 8)%nat ->
   get_share_mode_blob_header b pseq pflags = (NDR_ERR_BUFSIZE, pseq, pflags))
  /\ (length b = 8%nat ->
      get_share_mode_blob_header b pseq pflags
      = (NDR_ERR_BUFSIZE, le_decode b, pflags))
  /\ ((9 <= length b)%nat ->
      exists seq fl : Z,
        get_share_mode_blob_header b pseq pflags = (NDR_ERR_SUCCESS, seq, fl)
        /\ get_share_mode_blob_header (take 9 b) pseq pflags
           = (NDR_ERR_SUCCESS, seq, fl)
        /\ 0 <= seq < 2 ^ 64 /\ 0 <= fl < 256).
Proof.
  unfold get_share_mode_blob_header, ndr_pull_hyper, ndr_pull_uint8.
  cbn [ndr_offset ndr_data]. rewrite !drop_0.
  split; [|split].
  - intros Hlen. by rewrite (proj2 (Nat.ltb_lt _ _) Hlen).
  - intros Hlen. rewrite (proj2 (Nat.ltb_ge _ _)) by lia.
    cbn [ndr_offset ndr_data]. change (0 + 8)%nat with 8%nat.
    by rewrite take_ge, drop_ge by lia.
  - intros Hlen.
    rewrite (proj2 (Nat.ltb_ge _ _)) by lia.
    rewrite (proj2 (Nat.ltb_ge _ _)) by (rewrite length_take; lia).
    cbn [ndr_offset ndr_data]. change (0 + 8)%nat with 8%nat.
    rewrite take_take. change (8 `min` 9)%nat with 8%nat.
    replace (drop 8 (take 9 b)) with (take 1 (drop 8 b))
      by apply (take_drop_commute b 1 8).
    destruct (drop 8 b) as [|x rest] eqn:Hd.
    { apply (f_equal length) in Hd. rewrite length_drop in Hd.
      simpl in Hd. lia. }
    simpl. eexists _, _. split; [done|]. split; [done|].
    split; [|apply byte_to_Z_range].
    pose proof (le_decode_range (take 8 b)) as Hr.
    rewrite length_take in Hr.
    replace (8 `min` length b)%nat with 8%nat in Hr by lia.
    change (256 ^ Z.of_nat 8) with (2 ^ 64) in Hr. lia.
Qed.

(** X20: the cache fetch reports a miss and changes nothing when the
    key does not have the size of an identity or when the cache holds no
    entry under it. *)
Theorem memcache_fetch_miss (key v : blob) (st : state) :
  length key <> sizeof_file_id \/ memcache st !! memcache_key key = None ->
  share_mode_memcache_fetch key v st = Done None st.
Proof.
  intros [Hlen|Hc]; [|by apply memcache_fetch_absent].
  unfold share_mode_memcache_fetch.
  by rewrite (proj2 (Nat.eqb_neq _ _) Hlen).
Qed.

(** X21: a record put into the cache and fetched again against a stored
    value that carries its sequence number comes back as the same heap
    record, clean (neither modified nor fresh), and the cache no longer
    holds it. *)
Theorem memcache_store_fetch_round_trip (st : state) (p : positive)
    (d : share_mode_data) (v : blob) (f : Z) :
  heap st !! p = Some d ->
  memcache st !! memcache_key (id d) = None ->
  length (id d) = sizeof_file_id ->
  blob_header v = Some (sequence_number d, f) ->
  (share_mode_memcache_store p;;
   share_mode_memcache_fetch (locking_key (id d)) v) st
  = Done (Some p)
      (set_heap (<[p := set_fresh false (set_modified false d)]> (heap st)) st).
Proof.
  intros Hp Hc Hlen Hh.
  destruct st as [ldb hp mc sd rc sr tl cl]; simpl in * |-.
  assert (share_mode_memcache_store p
            (mk_state ldb hp mc sd rc sr tl cl)
          = Done tt
              (mk_state ldb (<[p := set_fresh false (set_modified false d)]> hp)
                 (<[memcache_key (id d) := p]> mc) sd rc sr tl cl)) as Hstore.
  { unfold share_mode_memcache_store, memcache_add_talloc, memcache_delete.
    repeat (progress (mrun; rewrite ?Hp, ?Hc)). done. }
  rewrite (bind_Done _ _ _ _ _ Hstore).
  rewrite (memcache_fetch_hit _ (id d) v p
             (set_fresh false (set_modified false d)) f)
    by (simpl; first [done | apply lookup_insert_eq]).
  simpl. unfold set_memcache, set_heap. simpl.
  by rewrite delete_insert_eq, delete_id.
Qed.

(** X22: when the cache holds nothing for the key, parse_share_modes
    that cannot produce a record -- the allocation fails or the value
    does not decode -- returns NULL and leaves the whole state as it
    was, the heap included. *)
Theorem parse_share_modes_failure_is_clean (E : env) (key v : blob)
    (st : state) :
  memcache st !! memcache_key key = None ->
  talloc_data E = false \/ ndr_pull_share_mode_data v = None ->
  parse_share_modes E key v st = Done None st.
Proof.
  intros Hc Hfail. unfold parse_share_modes.
  rewrite (bind_Done _ _ _ _ _ (memcache_fetch_absent st key v Hc)).
  destruct (talloc_data E) eqn:HE; simpl; [|done].
  destruct Hfail as [|Hpull]; [done|]. rewrite Hpull. mrun.
  rewrite delete_insert_eq, delete_id by apply talloc_addr_fresh.
  by destruct st.
Qed.

End further_properties.

(** * The model at work on concrete inputs *)

Section examples.
#[local] Existing Instance demo_externals.

(** ** The demonstration codec satisfies the codec properties *)

Lemma byte_to_of_Z (z : Z) : byte_to_Z (byte_of_Z z) = z mod 256.
Proof.
  unfold byte_to_Z, byte_of_Z.
  pose proof (Z.mod_pos_bound z 256 ltac:(lia)) as Hz.
  destruct (Byte.of_N (Z.to_N (z mod 256))) as [b|] eqn:Hb.
  - apply Byte.to_of_N in Hb. rewrite Hb. lia.
  - apply Byte.of_N_None_iff in Hb. lia.
Qed.

Lemma length_le_encode (n : nat) (z : Z) : length (le_encode n z) = n.
Proof. revert z. induction n as [|n IH]; intros z; simpl; [done|]. by rewrite IH. Qed.

Lemma le_decode_encode (n : nat) (z : Z) :
  0 <= z < 256 ^ Z.of_nat n -> le_decode (le_encode n z) = z.
Proof.
  revert z. induction n as [|n IH]; intros z Hz.
  - simpl in *. lia.
  - cbn [le_encode le_decode]. rewrite byte_to_of_Z.
    rewrite Nat2Z.inj_succ, Z.pow_succ_r in Hz by lia.
    rewrite IH.
    + pose proof (Z.div_mod z 256 ltac:(lia)). lia.
    + split; [apply Z.div_pos; lia|apply Z.div_lt_upper_bound; lia].
Qed.

Lemma demo_pull_header : pull_header_agreement.
Proof.
  intros b d. simpl. unfold demo_pull.
  destruct (blob_header b) as [[seq fl]|]; [|done].
  destruct (demo_pull_entries _ _); [|done]. by intros [= <-].
Qed.

Lemma blob_header_encoded (seq fl : Z) (rest : blob) :
  0 <= seq < 2 ^ 64 -> 0 <= fl < 256 ->
  blob_header (le_encode 8 seq ++ [byte_of_Z fl] ++ rest) = Some (seq, fl).
Proof.
  intros Hseq Hfl.
  unfold blob_header, get_share_mode_blob_header, ndr_pull_hyper,
    ndr_pull_uint8.
  cbn [ndr_offset ndr_data]. rewrite !drop_0.
  rewrite length_app, length_le_encode.
  replace (8 + _ <? 8)%nat with false by (symmetry; apply Nat.ltb_ge; lia).
  rewrite take_app_length' by by rewrite length_le_encode.
  rewrite le_decode_encode by (simpl; lia).
  cbn [ndr_offset ndr_data]. change (0 + 8)%nat with 8%nat.
  rewrite drop_app_length' by by rewrite length_le_encode.
  cbn [app]. rewrite byte_to_of_Z, Z.mod_small by lia. done.
Qed.

Lemma demo_push_header : push_header_agreement.
Proof.
  intros b d Hpush Hseq Hfl. change (demo_push d = inl b) in Hpush.
  unfold demo_push in Hpush. injection Hpush as <-.
  by apply blob_header_encoded.
Qed.

Lemma demo_remove_stale_shrinks : remove_stale_shrinks.
Proof. intros es. simpl. apply List.filter_length_le. Qed.

(** ** Instances of the theorems *)

Ltac concrete := vm_compute; repeat split; first [reflexivity | done].
Ltac by_instance H := vm_compute in H; vm_compute; exact H.
Ltac discharge Hw :=
  repeat match type of Hw with
         | ?A -> _ =>
             let HA := fresh in
             assert A as HA
               by first [exact demo_pull_header | exact demo_push_header
                        | exact demo_remove_stale_shrinks | concrete
                        | (simpl; lia)];
             specialize (Hw HA); clear HA
         end.

Lemma nested_acquire_release_witness :
  run_ops (id (data_at heldA 1)) demo_chain heldA
  = Done (replicate (acquisitions demo_chain)
            (Some (mk_share_mode_lock (Some 1%positive))))
      (set_refcount 3 heldA)
  /\ 1 <= 3 < 2 ^ 64.
Proof.
  apply (nested_acquire_release demo_chain heldA 1%positive (data_at heldA 1) 3);
    concrete.
Defined.

Lemma cross_identity_exclusion_witness :
  get_share_mode_lock demo_env fidB None None None heldA = Done None heldA
  /\ get_share_mode_lock demo_env fidB None None None lockedA
     = Done None lockedA
  /\ share_mode_do_locked demo_env fidA
       (acquire_in_callback demo_env fidB None None None)
       (Some (mk_share_mode_lock None)) freeA
     = Done (NT_STATUS_OK, None)
         (mk_state (lock_db freeA) ∅ ∅ None 0 None false
            [dbwrap_do_locked_call fidA]).
Proof.
  assert (fidA <> fidB) as Hne by done.
  destruct (cross_identity_exclusion demo_env heldA fidA fidB None None None
              Hne) as [Hdata _].
  destruct (cross_identity_exclusion demo_env lockedA fidA fidB None None None
              Hne) as [Hrecord _].
  destruct (cross_identity_exclusion demo_env freeA fidA fidB None None None
              Hne) as [_ Hcallback].
  split_and!.
  - apply Hdata.
    by apply (data_held heldA fidA 1%positive (data_at heldA 1)).
  - apply Hrecord. by apply (record_held lockedA fidA recA).
  - by apply (Hcallback dbA).
Defined.

Lemma empty_record_release_witness :
  (exists st' : state,
      share_mode_lock_destructor demo_env held_fresh = Done 0 st'
      /\ lock_db st' = Some db_none
      /\ calls st' = [dbwrap_record_free_call fidA;
                      dbwrap_fetch_locked_call fidA])
  /\ (exists st' : state,
        (clear_share_modes;; share_mode_lock_destructor demo_env) heldA
        = Done 0 st'
        /\ lock_db st' = Some (mk_db_context ∅ 1)
        /\ calls st' = [dbwrap_record_free_call fidA;
                        dbwrap_record_delete_call fidA;
                        dbwrap_fetch_locked_call fidA]).
Proof.
  pose proof (empty_record_release demo_env held_fresh 1%positive
                (data_at held_fresh 1) (mk_db_record fidA None) db_none)
    as Hfresh.
  pose proof (empty_record_release demo_env heldA 1%positive
                (data_at heldA 1) recA dbA) as Hgone.
  discharge Hfresh. discharge Hgone.
  cbv zeta in Hfresh, Hgone.
  destruct Hfresh as (Hfresh & _). destruct Hgone as (_ & _ & Hgone & _).
  discharge Hfresh. discharge Hgone.
  destruct Hfresh as (s1 & Hrun1 & Hdb1 & Hcalls1).
  destruct Hgone as (s2 & Hrun2 & Hdb2 & Hcalls2).
  split; [exists s1|exists s2]; split_and!;
    first [exact Hrun1 | exact Hrun2 | by_instance Hdb1 | by_instance Hdb2
          | by_instance Hcalls1 | by_instance Hcalls2].
Defined.

Lemma memcache_fetch_coherence_witness :
  share_mode_memcache_fetch fidA blobA cachedA
  = Done (Some 1%positive) (set_memcache (delete fidA (memcache cachedA)) cachedA)
  /\ share_mode_memcache_fetch fidA blob_max cachedA
     = Done None (evicted fidA 1%positive cachedA).
Proof.
  split.
  - apply (memcache_fetch_coherence demo_env cachedA fidA 1%positive
             (data_at cachedA 1) blobA); concrete.
  - apply (memcache_fetch_coherence demo_env cachedA fidA 1%positive
             (data_at cachedA 1) blob_max); concrete.
Defined.

(** C5, the claim as stated fails: the stored value of [fidA] has
    sequence number 2^64 - 1; the process acquires the record, marks it
    modified and releases it. The value written back has sequence number
    0, which is not greater than the one it replaces. *)
Lemma persisted_sequence_number_wraps :
  blob_header blob_max = Some (2 ^ 64 - 1, 0)
  /\ (db ← lock_db held_max; v ← db_data db !! fidA; blob_header v)
     = Some (2 ^ 64 - 1, 0)
  /\ match share_mode_lock_destructor demo_env (mark_modified held_max) with
     | Done _ s =>
         Some (existsb is_store_write (calls s),
               db ← lock_db s; v ← db_data db !! fidA; blob_header v)
     | _ => None
     end
     = Some (true, Some (0, 0)).
Proof. concrete. Qed.

Lemma sequence_number_protocol_witness :
  exists st' : state,
    share_mode_lock_destructor demo_env (mark_modified heldA) = Done 0 st'
    /\ lock_db st'
       = Some (mk_db_context
                 (<[rec_key recA := demo_blob 6 [demo_entry (2 ^ 64 - 1) 42]]>
                    (db_data dbA))
                 (db_seqnum dbA + 1))
    /\ blob_header (demo_blob 6 [demo_entry (2 ^ 64 - 1) 42])
       = Some (wrap64 (sequence_number (data_at (mark_modified heldA) 1) + 1),
               flags (data_at (mark_modified heldA) 1))
    /\ (0 <= sequence_number (data_at (mark_modified heldA) 1) < 2 ^ 64 - 1 ->
        sequence_number (data_at (mark_modified heldA) 1)
        < wrap64 (sequence_number (data_at (mark_modified heldA) 1) + 1))
    /\ (sequence_number (data_at (mark_modified heldA) 1) = 2 ^ 64 - 1 ->
        wrap64 (sequence_number (data_at (mark_modified heldA) 1) + 1) = 0).
Proof.
  destruct (sequence_number_protocol demo_env demo_pull_header demo_push_header)
    as (_ & _ & Hwrite).
  apply (Hwrite (mark_modified heldA) 1%positive
           (data_at (mark_modified heldA) 1) recA dbA); concrete.
Defined.

Lemma cleanup_disconnected_correct_witness :
  share_mode_cleanup_disconnected demo_env fidA 42 freeA
  = Done true
      (mk_state (Some (mk_db_context ∅ 1)) ∅ ∅ None 0 None true
         [dbwrap_record_free_call fidA; dbwrap_record_delete_call fidA;
          brl_cleanup_disconnected_call fidA 42; leases_db_del_call 7 9 fidA;
          dbwrap_fetch_locked_call fidA])
  /\ share_mode_cleanup_disconnected demo_env fidA 7 freeA
     = Done false
         (mk_state (lock_db freeA)
            {[1%positive := cache_clean (set_id fidA dataA)]}
            {[fidA := 1%positive]} None 0 None true
            [dbwrap_record_free_call fidA; dbwrap_fetch_locked_call fidA])
  /\ share_mode_cleanup_disconnected demo_env_brl_fails fidA 42 freeA
     = Done false
         (mk_state (lock_db freeA)
            {[1%positive := cache_clean (set_id fidA dataA)]}
            {[fidA := 1%positive]} None 0 None true
            [dbwrap_record_free_call fidA;
             brl_cleanup_disconnected_call fidA 42;
             leases_db_del_call 7 9 fidA; dbwrap_fetch_locked_call fidA])
  /\ share_mode_cleanup_disconnected demo_env fidA 42 free_max
     = Done false
         (mk_state (lock_db free_max)
            {[1%positive := cache_clean (set_id fidA data_max)]}
            {[fidA := 1%positive]} None 0 None true
            [dbwrap_record_free_call fidA; dbwrap_fetch_locked_call fidA]).
Proof.
  pose proof (cleanup_disconnected_correct demo_env freeA dbA fidA blobA dataA
                42) as Hclean.
  pose proof (cleanup_disconnected_correct demo_env freeA dbA fidA blobA dataA
                7) as Hother.
  pose proof (cleanup_disconnected_correct demo_env_brl_fails freeA dbA fidA
                blobA dataA 42) as Hbrl.
  pose proof (cleanup_disconnected_correct demo_env free_max
                (mk_db_context {[fidA := blob_max]} 0) fidA blob_max data_max
                42) as Hlive.
  discharge Hclean. discharge Hother. discharge Hbrl. discharge Hlive.
  cbv zeta in Hclean, Hother, Hbrl, Hlive.
  destruct Hclean as (_ & _ & Hclean). destruct Hother as (_ & _ & Hother).
  destruct Hbrl as (_ & _ & Hbrl). destruct Hlive as (_ & _ & Hlive).
  split_and!; [by_instance Hclean|by_instance Hother|by_instance Hbrl
              |by_instance Hlive].
Defined.

(** C7, the claim as stated fails: the store holds one valid record and
    one corrupt blob (N = 1). The visitor is called once, and the value
    returned is 2. *)
Lemma traversal_count_includes_corrupt_record :
  db_data db_mixed !! fidA = Some blobA
  /\ db_data db_mixed !! fidB = Some blob_corrupt
  /\ size (db_data db_mixed) = 2%nat
  /\ is_Some (ndr_pull_share_mode_data blobA)
  /\ ndr_pull_share_mode_data blob_corrupt = None
  /\ match share_mode_forall demo_env (counting_visitor count_visit) 0%nat
             st_mixed with
     | Done (ret, visits) _ => Some (ret, visits)
     | _ => None
     end
     = Some (2, 1%nat).
Proof. vm_compute. repeat split; try reflexivity. by eexists. Qed.

Lemma traversal_skips_corrupt_witness :
  share_mode_forall demo_env (counting_visitor count_visit) 0%nat st_mixed
  = Done (Z.of_nat (length (db_records db_mixed)),
          foldl (fun p fd => count_visit fd.1 fd.2 p) 0%nat
            (decodable (db_records db_mixed)))
      (add_call dbwrap_traverse_read_call st_mixed)
  /\ length (decodable (db_records db_mixed)) = size ({[fidA := blobA]} : gmap blob blob)
  /\ Z.of_nat (length (db_records db_mixed))
     = Z.of_nat (size ({[fidA := blobA]} : gmap blob blob)) + 1.
Proof.
  destruct (traversal_skips_corrupt demo_env count_visit 0%nat st_mixed db_mixed)
    as [Hrun Hcount]; [reflexivity..|].
  split; [exact Hrun|].
  apply (Hcount fidB blob_corrupt {[fidA := blobA]}).
  - reflexivity.
  - vm_compute. reflexivity.
  - vm_compute. reflexivity.
  - intros k v [<- <-]%lookup_singleton_Some.
    split; [vm_compute; reflexivity|]. vm_compute. by eexists.
Defined.

Lemma tombstone_fetch_witness :
  fetch_share_mode_unlocked demo_env fidA st_tombstone
  = Done None (add_call (dbwrap_parse_record_call (locking_key fidA))
                 st_tombstone)
  /\ fetch_share_mode_send demo_env fidA st_tombstone
     = Done (Some (mk_fetch_share_mode_req NT_STATUS_OK None None),
             request_queued demo_env)
         (add_call (dbwrap_parse_record_call (locking_key fidA)) st_tombstone)
  /\ fetch_share_mode_done (mk_fetch_share_mode_req NT_STATUS_OK None None)
     = mk_fetch_share_mode_req NT_STATUS_OK None None
  /\ fetch_share_mode_recv
       (fetch_share_mode_done (mk_fetch_share_mode_req NT_STATUS_OK None None))
       (add_call (dbwrap_parse_record_call (locking_key fidA)) st_tombstone)
     = Fault.
Proof.
  apply (tombstone_fetch demo_env st_tombstone db_tombstone fidA); concrete.
Defined.

Lemma do_locked_reentrant_witness :
  share_mode_do_locked demo_env fidA share_mode_wakeup_waiters_fn tt heldA
  = Done (NT_STATUS_OK, tt)
      (add_call (dbwrap_watched_wakeup_call (rec_key recA)) heldA)
  /\ share_mode_do_locked demo_env fidB share_mode_wakeup_waiters_fn tt heldA
     = Done (NT_STATUS_INVALID_LOCK_SEQUENCE, tt) heldA.
Proof.
  destruct (do_locked_reentrant demo_env fidA share_mode_wakeup_waiters_fn tt
              heldA recA) as (Hsame & _ & _); [concrete|].
  destruct (do_locked_reentrant demo_env fidB share_mode_wakeup_waiters_fn tt
              heldA recA) as (_ & Hother & _); [concrete|].
  split.
  - apply (Hsame ltac:(concrete) true tt heldA); concrete.
  - apply Hother. concrete.
Defined.

Lemma read_lease_safe_default_witness :
  file_has_read_lease demo_env (mk_files_struct fidA (-1) 0) st_short
  = Done (true, mk_files_struct fidA (-1) 0)
      (set_talloced false
         (add_call (dbwrap_do_locked_call fidA) st_short))
  /\ file_has_read_lease demo_env (mk_files_struct fidA 0 1) st_short
     = Done (true, mk_files_struct fidA 0 1) st_short.
Proof.
  destruct (read_lease_safe_default demo_env (mk_files_struct fidA (-1) 0)
              st_short db_short) as [_ Hrefresh]; [concrete|].
  destruct (read_lease_safe_default demo_env (mk_files_struct fidA 0 1)
              st_short db_short) as [Hcached _]; [concrete|].
  split.
  - apply (Hrefresh ltac:(concrete) NT_STATUS_OK
             (mk_flags_state NDR_ERR_BUFSIZE 0)). concrete.
  - apply Hcached. concrete.
Defined.

(** ** Instances of the further properties *)

Lemma acquire_release_round_trip_witness :
  (lck ← get_share_mode_lock demo_env fidA None None None;
   share_mode_lock_destructor demo_env;; mret lck) freeA
  = Done (Some (mk_share_mode_lock (Some 1%positive)))
      (mk_state (lock_db freeA) {[1%positive := cache_clean (set_id fidA dataA)]}
         {[fidA := 1%positive]} None 0 None true
         [dbwrap_record_free_call fidA; dbwrap_fetch_locked_call fidA]).
Proof.
  pose proof (acquire_release_round_trip demo_env demo_env freeA dbA fidA
                blobA dataA None None None) as Hw.
  discharge Hw. by_instance Hw.
Defined.

Lemma release_reacquire_reuses_cache_witness :
  (share_mode_lock_destructor demo_env;;
   get_share_mode_lock demo_env fidA None None None) heldA
  = Done (Some (mk_share_mode_lock (Some 1%positive)))
      (mk_state (lock_db heldA)
         {[1%positive := set_record (Some recA)
                           (set_id fidA (cache_clean (data_at heldA 1)))]}
         ∅ (Some 1%positive) 1 (Some recA) true
         [dbwrap_fetch_locked_call fidA; dbwrap_record_free_call fidA;
          dbwrap_fetch_locked_call fidA]).
Proof.
  pose proof (release_reacquire_reuses_cache demo_env demo_env heldA dbA
                1%positive (data_at heldA 1) recA blobA 0 None None None)
    as Hw.
  discharge Hw. by_instance Hw.
Defined.

Lemma fresh_record_release_leaves_no_trace_witness :
  (lck ← get_share_mode_lock demo_env fidA (Some "/srv"%string)
           (Some demo_fname) (Some 7);
   share_mode_lock_destructor demo_env;; mret lck) st_none
  = Done (Some (mk_share_mode_lock (Some 1%positive)))
      (mk_state (lock_db st_none) ∅ ∅ None 0 None true
         [dbwrap_record_free_call fidA; dbwrap_fetch_locked_call fidA]).
Proof.
  pose proof (fresh_record_release_leaves_no_trace demo_env demo_env st_none
                db_none fidA "/srv"%string demo_fname 7) as Hw.
  discharge Hw. by_instance Hw.
Defined.

Lemma cleanup_without_record_witness :
  share_mode_cleanup_disconnected demo_env fidA 42 st_none
  = Done false
      (mk_state (lock_db st_none) ∅ ∅ None 0 None true
         [dbwrap_record_free_call fidA; dbwrap_fetch_locked_call fidA]).
Proof.
  pose proof (cleanup_without_record demo_env st_none db_none fidA 42) as Hw.
  discharge Hw. by_instance Hw.
Defined.

Lemma cleanup_disconnected_end_to_end_witness :
  share_mode_cleanup_disconnected demo_env fidA 42 freeA
  = Done true
      (mk_state (Some (mk_db_context ∅ 1)) ∅ ∅ None 0 None true
         [dbwrap_record_free_call fidA; dbwrap_record_delete_call fidA;
          brl_cleanup_disconnected_call fidA 42; leases_db_del_call 7 9 fidA;
          dbwrap_fetch_locked_call fidA]).
Proof.
  pose proof (cleanup_disconnected_end_to_end demo_env freeA dbA fidA blobA
                dataA 42) as Hw.
  discharge Hw. by_instance Hw.
Defined.

Lemma persistence_failure_is_fatal_witness :
  share_mode_lock_destructor demo_env_store_fails (mark_modified heldA)
  = Panic.
Proof.
  pose proof (persistence_failure_is_fatal demo_env_store_fails
                (mark_modified heldA) 1%positive
                (data_at (mark_modified heldA) 1) recA dbA) as Hw.
  discharge Hw. destruct Hw as [Hstore _].
  specialize (Hstore (demo_blob 6 [demo_entry (2 ^ 64 - 1) 42])).
  discharge Hstore. exact Hstore.
Defined.

Lemma failed_acquisition_keeps_slot_witness :
  same_slot heldA heldA
  /\ same_slot st_none
       (state_of (get_share_mode_lock demo_env fidA None None None st_none)
          st_none).
Proof.
  split.
  - apply (failed_acquisition_keeps_slot demo_env fidB None None None heldA
             heldA). concrete.
  - apply (failed_acquisition_keeps_slot demo_env fidA None None None st_none).
    concrete.
Defined.

Lemma acquired_handle_invariant_witness :
  exists (p : positive) (d : share_mode_data),
    data (mk_share_mode_lock (Some 1%positive)) = Some p
    /\ static_share_mode_data heldA = Some p
    /\ heap heldA !! p = Some d
    /\ id d = fidA
    /\ static_share_mode_data_refcount heldA
       = wrap64 (static_share_mode_data_refcount freeA + 1)
    /\ (static_share_mode_data freeA = None ->
        static_share_mode_data_refcount freeA = 0
        /\ record d = static_share_mode_record heldA
        /\ static_share_mode_record heldA <> None).
Proof.
  apply (acquired_handle_invariant demo_env fidA None None None freeA heldA).
  concrete.
Defined.

Lemma write_back_keeps_cache_coherent_witness :
  (share_mode_lock_destructor demo_env;;
   get_share_mode_lock demo_env fidA None None None) (mark_modified heldA)
  = Done (Some (mk_share_mode_lock (Some 1%positive)))
      (mk_state
         (Some (mk_db_context
                  {[fidA := demo_blob 6 [demo_entry (2 ^ 64 - 1) 42]]}
                  (db_seqnum dbA + 1)))
         {[1%positive :=
             set_record
               (Some (mk_db_record fidA
                        (Some (demo_blob 6 [demo_entry (2 ^ 64 - 1) 42]))))
               (cache_clean
                  (data_to_store (data_at (mark_modified heldA) 1)))]}
         ∅ (Some 1%positive) 1
         (Some (mk_db_record fidA
                  (Some (demo_blob 6 [demo_entry (2 ^ 64 - 1) 42]))))
         true
         [dbwrap_fetch_locked_call fidA; dbwrap_record_free_call fidA;
          dbwrap_record_store_call fidA
            (demo_blob 6 [demo_entry (2 ^ 64 - 1) 42]);
          dbwrap_fetch_locked_call fidA]).
Proof.
  pose proof (write_back_keeps_cache_coherent demo_env demo_env
                (mark_modified heldA) dbA 1%positive
                (data_at (mark_modified heldA) 1) recA
                (demo_blob 6 [demo_entry (2 ^ 64 - 1) 42]) None None None)
    as Hw.
  discharge Hw. by_instance Hw.
Defined.

Lemma wakeup_waiters_free_slot_witness :
  share_mode_wakeup_waiters demo_env fidA freeA
  = Done NT_STATUS_OK
      (mk_state (lock_db freeA) ∅ ∅ None 0 None false
         [dbwrap_watched_wakeup_call fidA; dbwrap_do_locked_call fidA])
  /\ share_mode_wakeup_waiters demo_env_locked_fails fidA freeA
     = Done NT_STATUS_UNSUCCESSFUL
         (add_call (dbwrap_do_locked_call fidA) freeA).
Proof.
  pose proof (wakeup_waiters_free_slot demo_env fidA freeA dbA) as Hok.
  pose proof (wakeup_waiters_free_slot demo_env_locked_fails fidA freeA dbA)
    as Hfail.
  discharge Hok. discharge Hfail. split; [by_instance Hok|by_instance Hfail].
Defined.

Lemma read_lease_from_store_witness :
  file_has_read_lease demo_env (mk_files_struct fidA (-1) 1) freeA
  = Done (false, mk_files_struct fidA 0 0)
      (mk_state (lock_db freeA) ∅ ∅ None 0 None false
         [dbwrap_do_locked_call fidA])
  /\ file_has_read_lease demo_env (mk_files_struct fidA (-1) 1) st_none
     = Done (true, mk_files_struct fidA (-1) 1)
         (mk_state (lock_db st_none) ∅ ∅ None 0 None false
            [dbwrap_do_locked_call fidA]).
Proof.
  pose proof (read_lease_from_store demo_env demo_env
                (mk_files_struct fidA (-1) 1) freeA dbA) as Hfound.
  pose proof (read_lease_from_store demo_env demo_env
                (mk_files_struct fidA (-1) 1) st_none db_none) as Hnone.
  discharge Hfound. discharge Hnone.
  vm_compute in Hfound, Hnone. destruct Hfound as [Hfound _].
  split; vm_compute; [exact Hfound|exact Hnone].
Defined.


Lemma unlocked_fetch_missing_key_witness :
  fetch_share_mode_unlocked demo_env fidA st_none
  = Done None (add_call (dbwrap_parse_record_call fidA) st_none)
  /\ fetch_share_mode_send demo_env fidA st_none
     = Done (Some (mk_fetch_share_mode_req NT_STATUS_NOT_FOUND None None),
             false)
         (add_call (dbwrap_parse_record_call fidA) st_none)
  /\ fetch_share_mode_recv
       (fetch_share_mode_done
          (mk_fetch_share_mode_req NT_STATUS_NOT_FOUND None None))
       (add_call (dbwrap_parse_record_call fidA) st_none)
     = Done (NT_STATUS_NOT_FOUND, None)
         (add_call (dbwrap_parse_record_call fidA) st_none)
  /\ fetch_share_mode_send demo_env_no_subreq fidA st_none
     = Done (Some (mk_fetch_share_mode_req NT_STATUS_NO_MEMORY
                     (Some NT_STATUS_NO_MEMORY) None), false)
         (add_call (dbwrap_parse_record_call fidA) st_none)
  /\ fetch_share_mode_recv
       (mk_fetch_share_mode_req NT_STATUS_NO_MEMORY
          (Some NT_STATUS_NO_MEMORY) None)
       (add_call (dbwrap_parse_record_call fidA) st_none)
     = Done (NT_STATUS_NO_MEMORY, None)
         (add_call (dbwrap_parse_record_call fidA) st_none).
Proof.
  pose proof (unlocked_fetch_missing_key demo_env fidA st_none db_none) as Hw.
  pose proof (unlocked_fetch_missing_key demo_env_no_subreq fidA st_none
                db_none) as Hn.
  discharge Hw. discharge Hn.
  destruct Hw as (Hsync & Hsend & Hrecv & _).
  destruct Hn as (_ & Hsend' & _ & Hrecv').
  split_and!; [by_instance Hsync|by_instance Hsend|by_instance Hrecv
              |by_instance Hsend'|by_instance Hrecv'].
Defined.

Lemma unlocked_fetch_stored_value_witness :
  fetch_share_mode_unlocked demo_env fidA freeA
  = Done (Some (mk_share_mode_lock (Some 1%positive)))
      (set_heap {[1%positive := dataA]}
         (add_call (dbwrap_parse_record_call fidA) freeA))
  /\ fetch_share_mode_send demo_env fidA freeA
     = Done (Some (mk_fetch_share_mode_req NT_STATUS_OK None
                     (Some (mk_share_mode_lock (Some 1%positive)))), false)
         (set_heap {[1%positive := dataA]}
            (add_call (dbwrap_parse_record_call fidA) freeA))
  /\ fetch_share_mode_unlocked demo_env fidA st_short
     = Done (Some (mk_share_mode_lock None))
         (add_call (dbwrap_parse_record_call fidA) st_short)
  /\ fetch_share_mode_send demo_env_no_subreq fidA freeA
     = Done (Some (mk_fetch_share_mode_req NT_STATUS_NO_MEMORY
                     (Some NT_STATUS_NO_MEMORY) None), false)
         (add_call (dbwrap_parse_record_call fidA) freeA).
Proof.
  pose proof (unlocked_fetch_stored_value demo_env fidA freeA dbA blobA)
    as Hgood.
  pose proof (unlocked_fetch_stored_value demo_env fidA st_short db_short
                blob_corrupt) as Hbad.
  pose proof (unlocked_fetch_stored_value demo_env_no_subreq fidA freeA dbA
                blobA) as Hn.
  discharge Hgood. discharge Hbad. discharge Hn.
  destruct Hgood as (Hgood & Hsend & _). destruct Hbad as [Hbad _].
  destruct Hn as (_ & Hsend' & _).
  split_and!; [by_instance Hgood|by_instance Hsend|by_instance Hbad
              |by_instance Hsend'].
Defined.

Lemma share_mode_forall_errors_witness :
  share_mode_forall demo_env_locked_fails (counting_visitor count_visit)
    0%nat st_mixed
  = Done (-1, 0%nat) (add_call dbwrap_traverse_read_call st_mixed).
Proof.
  destruct (share_mode_forall_errors demo_env_locked_fails
              (counting_visitor count_visit) 0%nat st_mixed) as [_ Herr].
  apply (Herr db_mixed); concrete.
Defined.

Lemma share_entry_forall_visits_all_witness :
  share_entry_forall demo_env (counting_entry_visitor collect_pid) [] st_mixed
  = Done (2, [2 ^ 64 - 1]) (add_call dbwrap_traverse_read_call st_mixed).
Proof.
  pose proof (share_entry_forall_visits_all demo_env collect_pid [] st_mixed
                db_mixed) as Hw.
  discharge Hw. by_instance Hw.
Defined.

Lemma entry_traversal_stops_early_witness :
  share_entry_traverse_fn (coded_entry_visitor code_of collect_pid) fidA
    data_three [] st_none
  = Done (1, [1; 2]) st_none.
Proof.
  destruct (entry_traversal_stops_early code_of collect_pid fidA data_three []
              st_none) as [Hstop _].
  pose proof (Hstop [demo_entry 1 42] [demo_entry 3 42] (demo_entry 2 43)
                eq_refl) as Hw.
  assert (Forall (fun x => code_of x = 0) [demo_entry 1 42]) as Hbefore
    by (by repeat constructor).
  specialize (Hw Hbefore). discharge Hw. by_instance Hw.
Defined.

Lemma header_peek_first_nine_bytes_witness :
  get_share_mode_blob_header blob_corrupt 11 22 = (NDR_ERR_BUFSIZE, 11, 22)
  /\ get_share_mode_blob_header (take 8 blobA) 11 22
     = (NDR_ERR_BUFSIZE, 5, 22).
Proof.
  destruct (header_peek_first_nine_bytes blob_corrupt 11 22) as (Hshort & _).
  destruct (header_peek_first_nine_bytes (take 8 blobA) 11 22)
    as (_ & Height & _).
  discharge Hshort. discharge Height.
  split; [by_instance Hshort|by_instance Height].
Defined.

Lemma memcache_fetch_miss_witness :
  share_mode_memcache_fetch blob_corrupt blobA cachedA = Done None cachedA
  /\ share_mode_memcache_fetch fidB blobA cachedA = Done None cachedA.
Proof.
  split.
  - apply (memcache_fetch_miss blob_corrupt blobA cachedA). left. concrete.
  - apply (memcache_fetch_miss fidB blobA cachedA). right. concrete.
Defined.

Lemma memcache_store_fetch_round_trip_witness :
  (share_mode_memcache_store 1%positive;;
   share_mode_memcache_fetch (locking_key fidA) blobA) (mark_modified heldA)
  = Done (Some 1%positive)
      (set_heap {[1%positive := data_at heldA 1]} (mark_modified heldA)).
Proof.
  pose proof (memcache_store_fetch_round_trip (mark_modified heldA) 1%positive
                (data_at (mark_modified heldA) 1) blobA 0) as Hw.
  discharge Hw. by_instance Hw.
Defined.

Lemma parse_share_modes_failure_is_clean_witness :
  parse_share_modes demo_env fidA blob_corrupt st_short = Done None st_short
  /\ parse_share_modes demo_env_no_memory fidA blobA freeA = Done None freeA.
Proof.
  split.
  - apply (parse_share_modes_failure_is_clean demo_env fidA blob_corrupt
             st_short); [concrete|right; concrete].
  - apply (parse_share_modes_failure_is_clean demo_env_no_memory fidA blobA
             freeA); [concrete|left; concrete].
Defined.

End examples.
